(** * Verification of the spreadsheet Cleaner and the address Annotator

    Two batch scripts are embedded here:
    - [src/clean_sort_data.py]: [clean_sort_create_columns], the Cleaner;
    - [src/address_geocode_script.py]: [get_address_suggestions] and the
      top-level script around it, the Annotator.

    The pandas, requests and logging calls are modelled at their library
    behaviour on the values the model has: a spreadsheet cell is blank
    (pandas' NaN), text or an integer number.  Binary floating point values
    and timestamps are outside the model. *)

From Stdlib Require Import List String Ascii ZArith Bool Lia.
From Stdlib Require Import Sorting.Sorted Sorting.Permutation.
From Stdlib Require Import Structures.OrdersEx Classes.RelationClasses.
From Stdlib Require Import Numbers.DecimalString.
Import ListNotations.
Local Open Scope string_scope.
Local Open Scope list_scope.
Local Open Scope Z_scope.
Set Warnings "-register-all".

(** String concatenation, Python's [+] on [str] and the joints of an
    f-string. *)
Infix "+++" := String.append (right associativity, at level 60).

(** ** Python strings *)

Module PyStr.

(** [pat in s]: [pat] occurs in [s] as a contiguous substring.  This is what
    [Series.str.contains(pat)] tests on each element when [pat] has no regular
    expression metacharacter, as is the case for ['Total']. *)
Fixpoint contains (pat s : string) : bool :=
  String.prefix pat s ||
  match s with
  | EmptyString => false
  | String _ s' => contains pat s'
  end.

(** [str(z)] for an integer. *)
Definition str_of_Z (z : Z) : string := NilZero.string_of_int (Z.to_int z).

(** Python compares strings by code point; on UTF-8 encoded text this is the
    byte-wise lexicographic order. *)
Definition compare (s t : string) : comparison := String_as_OT.compare s t.

End PyStr.

(** ** Spreadsheet cells and data frames *)

Inductive cell : Type :=
| NaN                (* a blank cell, read as a missing value *)
| Str (s : string)   (* text *)
| Num (z : Z).       (* a number *)

Definition cell_eqb (a b : cell) : bool :=
  match a, b with
  | NaN, NaN => true
  | Str s, Str t => String.eqb s t
  | Num x, Num y => Z.eqb x y
  | _, _ => false
  end.

(** [str(c)], as used by [astype(str)] and by f-strings. *)
Definition cell_str (c : cell) : string :=
  match c with
  | NaN => "nan"
  | Str s => s
  | Num z => PyStr.str_of_Z z
  end.

(** A frame keeps its column labels and, for every row, the index label the
    row was loaded with together with its cells, one per column. *)
Record DataFrame (V : Type) : Type := mkDF {
  columns : list string;
  rows : list (Z * list V)
}.
Arguments mkDF {V} _ _.
Arguments columns {V} _.
Arguments rows {V} _.

Section FrameOps.
Context {V : Type}.

(** Position of the first column labelled [name]. *)
Fixpoint column_pos (name : string) (cols : list string) : option nat :=
  match cols with
  | [] => None
  | c :: cs =>
      if String.eqb name c then Some 0%nat
      else option_map S (column_pos name cs)
  end.

(** [row[name]] on a row of a frame with columns [cols]; [None] stands for
    the [KeyError] of a missing label. *)
Definition row_get (cols : list string) (name : string) (r : list V)
  : option V :=
  match column_pos name cols with
  | Some p => nth_error r p
  | None => None
  end.

Fixpoint set_nth (p : nat) (v : V) (l : list V) : list V :=
  match l, p with
  | [], _ => []
  | _ :: t, O => v :: t
  | x :: t, S p' => x :: set_nth p' v t
  end.

(** The cells of one row after [df[name] = ...] stored [v] in it: an
    existing column is overwritten in place, a new one is added last. *)
Definition row_set (cols : list string) (name : string) (v : V)
    (r : list V) : list V :=
  match column_pos name cols with
  | Some p => set_nth p v r
  | None => r ++ [v]
  end.

Definition columns_set (name : string) (cols : list string) : list string :=
  match column_pos name cols with
  | Some _ => cols
  | None => cols ++ [name]
  end.

(** [df[name] = v] for a scalar [v]. *)
Definition setitem_scalar (name : string) (v : V) (df : DataFrame V)
  : DataFrame V :=
  mkDF (columns_set name (columns df))
       (map (fun r => (fst r, row_set (columns df) name v (snd r))) (rows df)).

Fixpoint map_opt {A B : Type} (f : A -> option B) (l : list A)
  : option (list B) :=
  match l with
  | [] => Some []
  | x :: t =>
      match f x, map_opt f t with
      | Some y, Some ys => Some (y :: ys)
      | _, _ => None
      end
  end.

(** [df[name]]: the cells of one column, in row order; [None] stands for the
    [KeyError] of a missing label. *)
Definition getitem (name : string) (df : DataFrame V) : option (list V) :=
  map_opt (fun r => row_get (columns df) name (snd r)) (rows df).

(** [df[name] = values] for a list: the lengths must agree. *)
Fixpoint zip_set (cols : list string) (name : string)
    (rs : list (Z * list V)) (vs : list V) : option (list (Z * list V)) :=
  match rs, vs with
  | [], [] => Some []
  | r :: rs', v :: vs' =>
      option_map (cons (fst r, row_set cols name v (snd r)))
                 (zip_set cols name rs' vs')
  | _, _ => None
  end.

Definition setitem_list (name : string) (vs : list V) (df : DataFrame V)
  : option (DataFrame V) :=
  option_map (mkDF (columns_set name (columns df)))
             (zip_set (columns df) name (rows df) vs).

(** [df[dst] = df[src]]: the right-hand side is read first. *)
Definition setitem_copy (dst src : string) (df : DataFrame V)
  : option (DataFrame V) :=
  match column_pos src (columns df) with
  | None => None
  | Some _ =>
      match getitem src df with
      | Some vs => setitem_list dst vs df
      | None => None
      end
  end.

(** [df.iloc[:n]] *)
Definition iloc_head (n : nat) (df : DataFrame V) : DataFrame V :=
  mkDF (columns df) (firstn n (rows df)).

(** Every row has one cell per column. *)
Definition rectangular (df : DataFrame V) : Prop :=
  Forall (fun r => List.length (snd r) = List.length (columns df)) (rows df).

End FrameOps.

(** [pd.read_excel]: the header row gives the labels, the rows get the index
    labels 0, 1, 2, ... *)
Fixpoint range_index {A : Type} (start : Z) (l : list A) : list (Z * A) :=
  match l with
  | [] => []
  | x :: t => (start, x) :: range_index (start + 1) t
  end.

Definition frame_of_sheet {V : Type} (header : list string)
    (body : list (list V)) : DataFrame V :=
  mkDF header (range_index 0 body).

(** ** The Cleaner: [clean_sort_data.py] *)

Definition placeholder : cell := Str "Unknown".

Fixpoint row_eqb (a b : list cell) : bool :=
  match a, b with
  | [], [] => true
  | x :: a', y :: b' => cell_eqb x y && row_eqb a' b'
  | _, _ => false
  end.

(** [df.drop_duplicates()]: a row is kept when no earlier row has the same
    cells; blank cells count as equal to each other. *)
Fixpoint drop_duplicates_from (seen : list (list cell))
    (rs : list (Z * list cell)) : list (Z * list cell) :=
  match rs with
  | [] => []
  | r :: t =>
      if existsb (row_eqb (snd r)) seen then drop_duplicates_from seen t
      else r :: drop_duplicates_from (snd r :: seen) t
  end.

Definition drop_duplicates (df : DataFrame cell) : DataFrame cell :=
  mkDF (columns df) (drop_duplicates_from [] (rows df)).

(** [row.astype(str).str.contains('Total').any()] *)
Definition row_has_total (r : list cell) : bool :=
  existsb (fun c => PyStr.contains "Total" (cell_str c)) r.

(** [df[~df.apply(lambda row: ..., axis=1)]].  On a frame with rows,
    [apply] gives one truth value per row and the indexing keeps the rows
    without ["Total"].  On a frame without rows, [apply] gives an empty
    series that is not a boolean mask, [~] leaves it as it is, and the
    indexing then reads it as an empty list of column labels: the result has
    no columns. *)
Definition remove_totals (df : DataFrame cell) : DataFrame cell :=
  match rows df with
  | [] => mkDF [] []
  | _ :: _ =>
      mkDF (columns df)
           (filter (fun r => negb (row_has_total (snd r))) (rows df))
  end.

Definition fill_cell (v c : cell) : cell :=
  match c with
  | NaN => v
  | _ => c
  end.

(** [df.fillna(v)] *)
Definition fillna (v : cell) (df : DataFrame cell) : DataFrame cell :=
  mkDF (columns df) (map (fun r => (fst r, map (fill_cell v) (snd r))) (rows df)).

(** Order of the values of one sort key: numbers by value, then text by code
    point, blanks last ([na_position='last']). *)
Definition cell_compare (a b : cell) : comparison :=
  match a, b with
  | Num x, Num y => Z.compare x y
  | Num _, _ => Lt
  | Str _, Num _ => Gt
  | Str s, Str t => PyStr.compare s t
  | Str _, NaN => Lt
  | NaN, NaN => Eq
  | NaN, _ => Gt
  end.

(** Composite keys compare key by key, the first key being the most
    significant. *)
Fixpoint key_compare (a b : list cell) : comparison :=
  match a, b with
  | [], [] => Eq
  | [], _ :: _ => Lt
  | _ :: _, [] => Gt
  | x :: a', y :: b' =>
      match cell_compare x y with
      | Eq => key_compare a' b'
      | c => c
      end
  end.

Definition key_leb (a b : list cell) : bool :=
  match key_compare a b with
  | Gt => false
  | _ => true
  end.

Section StableSort.
Context {A : Type} (key : A -> list cell).

(** [x] may stand before [y] in ascending order. *)
Definition key_le (x y : A) : Prop := key_leb (key x) (key y) = true.

(** Stable insertion: [x] goes before the first element whose key is not
    smaller than its own. *)
Fixpoint insert_by (x : A) (l : list A) : list A :=
  match l with
  | [] => [x]
  | y :: t => if key_leb (key x) (key y) then x :: l else y :: insert_by x t
  end.

Fixpoint stable_sort (l : list A) : list A :=
  match l with
  | [] => []
  | x :: t => insert_by x (stable_sort t)
  end.

End StableSort.

(** The values of the sort keys [by] in one row. *)
Definition sort_key (cols : list string) (by_ : list string) (r : list cell)
  : option (list cell) :=
  map_opt (fun k => row_get cols k r) by_.

(** [df.sort_values(by=[...])] on several keys: ascending, ties keep their
    order; [None] is the [KeyError] of a missing key column. *)
Definition sort_values (by_ : list string) (df : DataFrame cell)
  : option (DataFrame cell) :=
  match map_opt (fun r => option_map (fun k => (k, r))
                            (sort_key (columns df) by_ (snd r))) (rows df) with
  | Some keyed => Some (mkDF (columns df) (map snd (stable_sort fst keyed)))
  | None => None
  end.

Definition sort_columns : list string :=
  ["continent"; "country"; "region"; "state"; "education institution";
   "field of study"].

Definition bind_opt {A B : Type} (m : option A) (f : A -> option B)
  : option B :=
  match m with
  | Some x => f x
  | None => None
  end.

Notation "x <- m ;; k" := (bind_opt m (fun x => k))
  (at level 61, m at next level, right associativity).

(** [clean_sort_create_columns(df)].  The first component is the caller's
    frame after the call: [drop_duplicates(inplace=True)] changes it, every
    later step works on the new frame the filter made.  The second component
    is the returned frame, or [None] when an exception was logged and the
    process exited.  The [logging.info] records between the steps are left
    out. *)
Definition clean_sort_create_columns (df : DataFrame cell)
  : DataFrame cell * option (DataFrame cell) :=
  let df_in := drop_duplicates df in
  let df := remove_totals df_in in
  let df := fillna placeholder df in
  (df_in,
   let df := setitem_scalar "continent" placeholder df in
   df <- setitem_copy "country" "Country Name" df ;;
   df <- setitem_copy "region" "Region" df ;;
   let df := setitem_scalar "state" placeholder df in
   df <- setitem_copy "education institution" "Education Institute" df ;;
   df <- setitem_copy "field of study" "Field of Study" df ;;
   sort_values sort_columns df).

(** *** The Cleaner seen row by row

    The column assignments act on every row alike; [derive_row] is what they
    do to the cells of one row and [derive_columns] what they do to the
    labels. *)

Definition keep_label {A B : Type} (f : A -> option B) (r : Z * A)
  : option (Z * B) :=
  option_map (pair (fst r)) (f (snd r)).

Definition assign_copy (cols : list string) (dst src : string)
    (r : list cell) : option (list cell) :=
  v <- row_get cols src r ;; Some (row_set cols dst v r).

Definition derive_row (c0 : list string) (r : list cell)
  : option (list cell) :=
  let r := row_set c0 "continent" placeholder r in
  let c1 := columns_set "continent" c0 in
  r <- assign_copy c1 "country" "Country Name" r ;;
  let c2 := columns_set "country" c1 in
  r <- assign_copy c2 "region" "Region" r ;;
  let c3 := columns_set "region" c2 in
  let r := row_set c3 "state" placeholder r in
  let c4 := columns_set "state" c3 in
  r <- assign_copy c4 "education institution" "Education Institute" r ;;
  let c5 := columns_set "education institution" c4 in
  assign_copy c5 "field of study" "Field of Study" r.

Definition derive_columns (c0 : list string) : list string :=
  columns_set "field of study"
    (columns_set "education institution"
       (columns_set "state"
          (columns_set "region"
             (columns_set "country" (columns_set "continent" c0))))).

(** The cells of a row after the six assignments, given the four values
    that are copied. *)
Definition extend_row (c0 : list string) (r : list cell)
    (country region institution field : cell) : list cell :=
  let c1 := columns_set "continent" c0 in
  let c2 := columns_set "country" c1 in
  let c3 := columns_set "region" c2 in
  let c4 := columns_set "state" c3 in
  let c5 := columns_set "education institution" c4 in
  row_set c5 "field of study" field
    (row_set c4 "education institution" institution
       (row_set c3 "state" placeholder
          (row_set c2 "region" region
             (row_set c1 "country" country
                (row_set c0 "continent" placeholder r))))).

(** The six derived columns, in the order they are assigned. *)
Definition derived_columns : list string :=
  ["continent"; "country"; "region"; "state"; "education institution";
   "field of study"].

Definition source_columns : list string :=
  ["Country Name"; "Region"; "Education Institute"; "Field of Study"].

Definition has_column (cols : list string) (name : string) : bool :=
  match column_pos name cols with
  | Some _ => true
  | None => false
  end.

(** The rows that reach the column assignments. *)
Definition cleaned_rows (df : DataFrame cell) : list (Z * list cell) :=
  rows (fillna placeholder (remove_totals (drop_duplicates df))).

(** The cell under a label, for a row that has it. *)
Definition cell_at (cols : list string) (name : string) (r : list cell)
  : cell :=
  match row_get cols name r with
  | Some v => v
  | None => NaN
  end.

(** The output row made from an input row with cells [r]. *)
Definition output_row (c0 : list string) (r : list cell) : list cell :=
  let filled := map (fill_cell placeholder) r in
  extend_row c0 filled
    (cell_at c0 "Country Name" filled) (cell_at c0 "Region" filled)
    (cell_at c0 "Education Institute" filled)
    (cell_at c0 "Field of Study" filled).

(** The input rows that are kept: first occurrences without ["Total"]. *)
Definition kept_rows (df : DataFrame cell) : list (Z * list cell) :=
  filter (fun r => negb (row_has_total (snd r)))
         (drop_duplicates_from [] (rows df)).

(** The cells of the input row with index label [label]. *)
Fixpoint origin (rs : list (Z * list cell)) (label : Z)
  : option (list cell) :=
  match rs with
  | [] => None
  | r :: t => if fst r =? label then Some (snd r) else origin t label
  end.


(** A frame as [pd.read_excel] makes it: one cell per column in every row
    and no index label used twice. *)
Definition well_formed (df : DataFrame cell) : Prop :=
  rectangular df /\ NoDup (map fst (rows df)).

(** Some field of the row, written out as text, has ["Total"] in it. *)
Definition has_total_field (r : list cell) : Prop :=
  exists c a b, In c r /\ cell_str c = a +++ "Total" +++ b.

(** The input has none of the labels of the derived columns. *)
Definition no_derived_column (df : DataFrame cell) : Prop :=
  forall n, In n derived_columns -> ~ In n (columns df).

(** A small sheet: a repeated row, a totals row and blank cells. *)
Definition sample : DataFrame cell :=
  frame_of_sheet
    ["Education Institute"; "Country Name"; "Region"; "Field of Study"]
    [[Str "MIT"; Str "USA"; Str "NE"; Str "CS"];
     [Str "Total"; NaN; NaN; Num 12];
     [Str "ETH"; Str "CH"; NaN; Str "Math"];
     [Str "MIT"; Str "USA"; Str "NE"; Str "CS"];
     [Str "ABC"; Str "CH"; NaN; Str "Math"]].

Definition sample_out : DataFrame cell :=
  mkDF
    ["Education Institute"; "Country Name"; "Region"; "Field of Study";
     "continent"; "country"; "region"; "state"; "education institution";
     "field of study"]
    [(4, [Str "ABC"; Str "CH"; Str "Unknown"; Str "Math"; Str "Unknown";
          Str "CH"; Str "Unknown"; Str "Unknown"; Str "ABC"; Str "Math"]);
     (2, [Str "ETH"; Str "CH"; Str "Unknown"; Str "Math"; Str "Unknown";
          Str "CH"; Str "Unknown"; Str "Unknown"; Str "ETH"; Str "Math"]);
     (0, [Str "MIT"; Str "USA"; Str "NE"; Str "CS"; Str "Unknown";
          Str "USA"; Str "NE"; Str "Unknown"; Str "MIT"; Str "CS"])].

(** *** The ordering of the rows, in the words of the specification

    "Non-decreasing under the ordering induced by (continent, country,
    region, state, education institution, field of study) as strings":
    every key is written out as text and the tuples of texts are compared
    lexically. *)

Fixpoint lexical_compare (a b : list string) : comparison :=
  match a, b with
  | [], [] => Eq
  | [], _ :: _ => Lt
  | _ :: _, [] => Gt
  | s :: a', t :: b' =>
      match PyStr.compare s t with
      | Eq => lexical_compare a' b'
      | c => c
      end
  end.

Definition lexical_leb (a b : list string) : bool :=
  match lexical_compare a b with
  | Gt => false
  | _ => true
  end.

Definition string_key (cols : list string) (r : list cell)
  : option (list string) :=
  option_map (map cell_str) (sort_key cols sort_columns r).

Definition sorted_as_strings (out : DataFrame cell) : Prop :=
  exists keys,
    map_opt (fun r => string_key (columns out) (snd r)) (rows out) = Some keys /\
    Sorted (fun a b => lexical_leb a b = true) keys.

(** Two rows that differ in a numeric [Region] only. *)
Definition numeric_regions : DataFrame cell :=
  frame_of_sheet
    ["Education Institute"; "Country Name"; "Region"; "Field of Study"]
    [[Str "A"; Str "X"; Num 10; Str "f"];
     [Str "A"; Str "X"; Num 2; Str "f"]].

Definition numeric_regions_out : DataFrame cell :=
  mkDF
    ["Education Institute"; "Country Name"; "Region"; "Field of Study";
     "continent"; "country"; "region"; "state"; "education institution";
     "field of study"]
    [(1, [Str "A"; Str "X"; Num 2; Str "f"; Str "Unknown"; Str "X"; Num 2;
          Str "Unknown"; Str "A"; Str "f"]);
     (0, [Str "A"; Str "X"; Num 10; Str "f"; Str "Unknown"; Str "X"; Num 10;
          Str "Unknown"; Str "A"; Str "f"])].

(** The row of [sample_out] with index label [label]. *)
Definition sample_out_row (label : Z) : Z * list cell :=
  (label, match origin (rows sample_out) label with
          | Some r => r
          | None => []
          end).

(** ** The Annotator: [address_geocode_script.py] *)

(** *** Python values and exceptions *)

(** A decoded JSON document, as [response.json()] returns it. *)
Inductive json : Type :=
| JNull
| JBool (b : bool)
| JNum (z : Z)
| JStr (s : string)
| JArr (items : list json)
| JObj (fields : list (string * json)).

(** The two [except] clauses only tell apart whether the exception is a
    [requests.exceptions.RequestException] (or a subclass: [ConnectionError],
    [Timeout], [HTTPError], ...) or any other [Exception]. *)
Inductive exn_kind : Type :=
| RequestException
| OtherException.

(** An exception with [str(e)]. *)
Record exn : Type := mkExn {
  kind : exn_kind;
  message : string
}.

Inductive outcome (A : Type) : Type :=
| Ok (a : A)
| Raise (e : exn).
Arguments Ok {A} _.
Arguments Raise {A} _.

Definition bind {A B : Type} (m : outcome A) (f : A -> outcome B)
  : outcome B :=
  match m with
  | Ok a => f a
  | Raise e => Raise e
  end.

Notation "x <~ m ;; k" := (bind m (fun x => k))
  (at level 61, m at next level, right associativity).

Definition type_name (v : json) : string :=
  match v with
  | JNull => "NoneType"
  | JBool _ => "bool"
  | JNum _ => "int"
  | JStr _ => "str"
  | JArr _ => "list"
  | JObj _ => "dict"
  end.

Fixpoint lookup (key : string) (fields : list (string * json))
  : option json :=
  match fields with
  | [] => None
  | (k, v) :: rest => if String.eqb key k then Some v else lookup key rest
  end.

(** [v.get(key, default)]: only a dict has [get]. *)
Definition py_get (v : json) (key : string) (default : json) : outcome json :=
  match v with
  | JObj fields =>
      match lookup key fields with
      | Some x => Ok x
      | None => Ok default
      end
  | _ => Raise (mkExn OtherException
                  ("'" +++ type_name v +++ "' object has no attribute 'get'"))
  end.

(** [bool(v)], the test of [if v:]. *)
Definition truthy (v : json) : bool :=
  match v with
  | JNull => false
  | JBool b => b
  | JNum z => negb (z =? 0)
  | JStr s => negb (String.eqb s "")
  | JArr items => match items with [] => false | _ => true end
  | JObj fields => match fields with [] => false | _ => true end
  end.

(** Number of bytes of the UTF-8 sequence that starts with byte [c]. *)
Definition utf8_width (c : ascii) : nat :=
  let n := N_of_ascii c in
  if (n <? 192)%N then 1%nat
  else if (n <? 224)%N then 2%nat
  else if (n <? 240)%N then 3%nat
  else 4%nat.

(** [v[0]] *)
Definition py_index0 (v : json) : outcome json :=
  match v with
  | JArr (x :: _) => Ok x
  | JArr [] => Raise (mkExn OtherException "list index out of range")
  | JStr (String c _ as s) => Ok (JStr (substring 0 (utf8_width c) s))
  | JStr EmptyString => Raise (mkExn OtherException "string index out of range")
  | JObj _ => Raise (mkExn OtherException "0")
  | _ => Raise (mkExn OtherException
                  ("'" +++ type_name v +++ "' object is not subscriptable"))
  end.

(** *** The HTTP response *)

Record response : Type := mkResponse {
  status_code : Z;
  reason : string;
  url : string;
  body : outcome json   (* what [response.json()] does *)
}.

(** [response.raise_for_status()]: an [HTTPError], which is a
    [RequestException], for a 4xx or 5xx status. *)
Definition raise_for_status (r : response) : outcome unit :=
  if (400 <=? status_code r) && (status_code r <? 500) then
    Raise (mkExn RequestException
             (PyStr.str_of_Z (status_code r) +++ " Client Error: " +++ reason r
              +++ " for url: " +++ url r))
  else if (500 <=? status_code r) && (status_code r <? 600) then
    Raise (mkExn RequestException
             (PyStr.str_of_Z (status_code r) +++ " Server Error: " +++ reason r
              +++ " for url: " +++ url r))
  else Ok tt.

(** *** Logging and the outside world *)

Inductive level : Type :=
| INFO
| ERROR.

Inductive pyobj : Type :=
| Cell (c : cell)    (* a value read from the spreadsheet *)
| Obj (j : json).    (* a value returned by the lookup *)

Inductive event : Type :=
| Log (l : level) (msg : string)
| Sleep (seconds : Z)
| ToExcel (path : string) (df : DataFrame pyobj) (failure : option exn).

Definition map_cells {A B : Type} (f : A -> B) (df : DataFrame A)
  : DataFrame B :=
  mkDF (columns df) (map (fun r => (fst r, map f (snd r))) (rows df)).

Section Annotator.

(** The Geoapify credential of the source is a parameter here. *)
Variable api_key : string.

(** What the script meets outside: the spreadsheet at a path, the answer of
    the web service, the fate of a file write, and the path separator of
    [os.path.join]. *)
Record world : Type := mkWorld {
  read_excel : string -> outcome (list string * list (list cell));
  requests_get : string -> list (string * string) -> outcome response;
  to_excel : string -> DataFrame pyobj -> option exn;
  os_sep : string
}.

Variable w : world.

Definition file_path : string :=
  "C:\Users\Alex.Crawley\OneDrive - Bentley Systems, Inc\Documents\PY DATA\cleaned_sorted_py_input_with_columns.xlsx".

Definition autocomplete_endpoint : string :=
  "https://api.geoapify.com/v1/geocode/search".

Definition no_suggestion : json := JStr "No suggestion".

(** The body of the [try] block of [get_address_suggestions]. *)
Definition lookup_suggestion (address : string) : outcome json :=
  let params := [("text", address); ("apiKey", api_key)] in
  response <~ requests_get w autocomplete_endpoint params ;;
  _ <~ raise_for_status response ;;
  data <~ body response ;;
  suggestions <~ py_get data "features" (JArr []) ;;
  if truthy suggestions then
    first <~ py_index0 suggestions ;;
    properties <~ py_get first "properties" (JObj []) ;;
    py_get properties "formatted" no_suggestion
  else Ok no_suggestion.

(** [get_address_suggestions(address)]: the log records written and the
    value returned. *)
Definition get_address_suggestions (address : string) : list event * json :=
  match lookup_suggestion address with
  | Ok v => ([], v)
  | Raise e =>
      match kind e with
      | RequestException =>
          ([Log ERROR ("Request error for address '" +++ address +++ "': "
                       +++ message e)],
           JStr ("Request error: " +++ message e))
      | OtherException =>
          ([Log ERROR ("Error for address '" +++ address +++ "': "
                       +++ message e)],
           JStr ("Error: " +++ message e))
      end
  end.

(** The variables the loop updates. *)
Record loop_state : Type := mkLoop {
  suggestions : list json;
  unprocessed_rows : list (Z * list cell);
  loop_events : list event
}.

(** [row[name]] inside the loop; a missing label is an uncaught
    [KeyError]. *)
Definition row_item (cols : list string) (name : string) (row : list cell)
  : outcome cell :=
  match row_get cols name row with
  | Some c => Ok c
  | None => Raise (mkExn OtherException ("'" +++ name +++ "'"))
  end.

(** One turn of [for index, row in df.iterrows()]. *)
Definition loop_body (cols : list string) (st : loop_state)
    (item : Z * list cell) : outcome loop_state :=
  let index := fst item in
  let row := snd item in
  if 1 <=? index then
    Ok (mkLoop (suggestions st) (unprocessed_rows st ++ [item])
               (loop_events st))
  else
    institute <~ row_item cols "Education Institute" row ;;
    country <~ row_item cols "Country Name" row ;;
    let address := cell_str institute +++ ", " +++ cell_str country in
    let (logged, suggestion) := get_address_suggestions address in
    Ok (mkLoop (suggestions st ++ [suggestion]) (unprocessed_rows st)
               (loop_events st ++ logged ++
                [Log INFO ("Processed " +++ PyStr.str_of_Z (index + 1)
                           +++ " addresses.");
                 Sleep 1])).

Fixpoint for_each (cols : list string) (st : loop_state)
    (items : list (Z * list cell)) : outcome loop_state :=
  match items with
  | [] => Ok st
  | item :: rest =>
      st' <~ loop_body cols st item ;;
      for_each cols st' rest
  end.

(** [pd.DataFrame(rows)] from the rows the loop collected: an empty list
    gives a frame without columns. *)
Definition frame_of_rows (cols : list string) (rs : list (Z * list cell))
  : DataFrame cell :=
  match rs with
  | [] => mkDF [] []
  | _ => mkDF cols rs
  end.

Definition output_dir : string :=
  "C:\Users\Alex.Crawley\OneDrive - Bentley Systems, Inc\Documents\PY DATA".

(** [os.path.join(output_dir, name)] *)
Definition path_join (dir name : string) : string :=
  dir +++ os_sep w +++ name.

Definition autocomplete_file_path : string :=
  path_join output_dir "processed_with_address_suggestions.xlsx".

Definition unprocessed_file_path : string :=
  path_join output_dir "unprocessed_rows.xlsx".

(** The first [try] block after the loop. *)
Definition save_processed (processed_df : DataFrame pyobj) : list event :=
  let failure := to_excel w autocomplete_file_path processed_df in
  [Log INFO ("Saving file with address suggestions to: "
             +++ autocomplete_file_path);
   ToExcel autocomplete_file_path processed_df failure;
   match failure with
   | None =>
       Log INFO ("The new file with address suggestions has been saved to "
                 +++ autocomplete_file_path +++ ".")
   | Some e => Log ERROR ("Error saving Excel file: " +++ message e)
   end].

(** The second [try] block. *)
Definition save_unprocessed (unprocessed_df : DataFrame cell) : list event :=
  let written := map_cells Cell unprocessed_df in
  let failure := to_excel w unprocessed_file_path written in
  [Log INFO ("Saving unprocessed rows to: " +++ unprocessed_file_path);
   ToExcel unprocessed_file_path written failure;
   match failure with
   | None =>
       Log INFO ("The unprocessed rows have been saved to "
                 +++ unprocessed_file_path +++ ".")
   | Some e => Log ERROR ("Error saving unprocessed rows: " +++ message e)
   end].

(** How a run of the script ends. *)
Inductive ending : Type :=
| Finished (processed_df : DataFrame pyobj) (unprocessed_df : DataFrame cell)
| Exited                 (* [exit()] after a logged load failure *)
| Crashed (e : exn).     (* an exception no [except] clause caught *)

Record run : Type := mkRun {
  trace : list event;
  result : ending
}.

(** The script from its first to its last line. *)
Definition main : run :=
  let t0 := [Log INFO ("Loading Excel file from: " +++ file_path)] in
  match read_excel w file_path with
  | Raise e =>
      mkRun (t0 ++ [Log ERROR ("Error loading Excel file: " +++ message e)])
            Exited
  | Ok sheet =>
      let df : DataFrame cell := frame_of_sheet (fst sheet) (snd sheet) in
      let t1 := t0 ++ [Log INFO "Excel file loaded successfully.";
                       Log INFO "Starting address autocomplete suggestions..."] in
      match for_each (columns df) (mkLoop [] [] []) (rows df) with
      | Raise e => mkRun t1 (Crashed e)
      | Ok st =>
          let t2 := t1 ++ loop_events st in
          let processed_df := map_cells Cell (iloc_head 1 df) in
          match setitem_list "Address Suggestions"
                  (map Obj (suggestions st)) processed_df with
          | None =>
              mkRun t2 (Crashed (mkExn OtherException
                ("Length of values ("
                 +++ PyStr.str_of_Z (Z.of_nat (List.length (suggestions st)))
                 +++ ") does not match length of index ("
                 +++ PyStr.str_of_Z (Z.of_nat (List.length (rows processed_df)))
                 +++ ")")))
          | Some processed_df =>
              let t3 := t2 ++ save_processed processed_df in
              let unprocessed_df :=
                frame_of_rows (columns df) (unprocessed_rows st) in
              mkRun (t3 ++ save_unprocessed unprocessed_df)
                    (Finished processed_df unprocessed_df)
          end
      end
  end.

End Annotator.

(** *** The response, in the words of the specification *)

(** [features[0].properties.formatted] of a decoded response body. *)
Definition features0_formatted (data : json) : option json :=
  match data with
  | JObj fields =>
      match lookup "features" fields with
      | Some (JArr (JObj first :: _)) =>
          match lookup "properties" first with
          | Some (JObj properties) => lookup "formatted" properties
          | _ => None
          end
      | _ => None
      end
  | _ => None
  end.

(** The element has a [properties] member that is an object. *)
Definition has_properties_object (element : json) : bool :=
  match element with
  | JObj fields =>
      match lookup "properties" fields with
      | Some (JObj _) => true
      | _ => false
      end
  | _ => false
  end.

(** The element has a [formatted] key under [properties]. *)
Definition has_formatted_key (element : json) : bool :=
  match element with
  | JObj fields =>
      match lookup "properties" fields with
      | Some (JObj properties) =>
          match lookup "formatted" properties with
          | Some _ => true
          | None => false
          end
      | _ => false
      end
  | _ => false
  end.

(** "The first element lacks a [properties] object or a [formatted] key". *)
Definition lacks_properties_or_formatted (element : json) : bool :=
  negb (has_properties_object element) || negb (has_formatted_key element).

(** A successful response with the decoded body [data]. *)
Definition ok_response (data : json) : response :=
  mkResponse 200 "OK" autocomplete_endpoint (Ok data).



(** A sheet of three rows for the Annotator. *)
Definition institutes : list string * list (list cell) :=
  (["Education Institute"; "Country Name"; "Region"],
   [[Str "MIT"; Str "USA"; Str "NE"];
    [Str "ETH"; Str "CH"; NaN];
    [Str "ABC"; Str "CH"; NaN]]).

(** A world where the sheet loads, the service answers with [data] and
    writing the file at [broken] fails. *)
Definition world_with (data : outcome json) (broken : string) : world :=
  mkWorld
    (fun _ => Ok institutes)
    (fun _ _ => Ok (mkResponse 200 "OK" autocomplete_endpoint data))
    (fun path _ =>
       if String.eqb path broken
       then Some (mkExn OtherException "Permission denied")
       else None)
    "/".

(** A world where the sheet loads and the web service cannot be reached. *)
Definition offline : world :=
  mkWorld
    (fun _ => Ok institutes)
    (fun _ _ => Raise (mkExn RequestException "Connection refused"))
    (fun _ _ => None)
    "/".

(** The body [{"features": [{"properties": null}]}]. *)
Definition null_properties : json :=
  JObj [("features", JArr [JObj [("properties", JNull)]])].

(** The body [{"features": [{"properties": {"formatted": "77 Massachusetts
    Ave"}}]}]. *)
Definition one_candidate : json :=
  JObj [("features",
         JArr [JObj [("properties",
                      JObj [("formatted", JStr "77 Massachusetts Ave")])]])].

(** The address the script asks for, for a row with these two cells. *)
Definition address_of (institute country : cell) : string :=
  cell_str institute +++ ", " +++ cell_str country.

(** The path of the first output file where the separator is ["/"]. *)
Definition processed_path : string :=
  output_dir +++ "/" +++ "processed_with_address_suggestions.xlsx".

(** The two frames of a run on [institutes] when the service answers with
    [one_candidate]. *)
Definition institutes_processed : DataFrame pyobj :=
  mkDF ["Education Institute"; "Country Name"; "Region"; "Address Suggestions"]
       [(0, [Cell (Str "MIT"); Cell (Str "USA"); Cell (Str "NE");
             Obj (JStr "77 Massachusetts Ave")])].

Definition institutes_unprocessed : DataFrame cell :=
  mkDF ["Education Institute"; "Country Name"; "Region"]
       [(1, [Str "ETH"; Str "CH"; NaN]); (2, [Str "ABC"; Str "CH"; NaN])].

(** ** The Cleaner script around its function *)

(** [KeyError(name)]; [str(e)] is the quoted label. *)
Definition key_error (name : string) : exn :=
  mkExn OtherException ("'" +++ name +++ "'").

(** The first of [names] that is not a column label. *)
Definition first_missing (cols names : list string) : option string :=
  find (fun n => negb (has_column cols n)) names.

(** [df[dst] = df[src]] with the exception a missing [src] raises. *)
Definition assign_from (dst src : string) (df : DataFrame cell)
  : outcome (DataFrame cell) :=
  match setitem_copy dst src df with
  | Some df' => Ok df'
  | None => Raise (key_error src)
  end.

(** Lines 33 to 39: the six column assignments. *)
Definition create_columns (df : DataFrame cell) : outcome (DataFrame cell) :=
  let df := setitem_scalar "continent" placeholder df in
  df <~ assign_from "country" "Country Name" df ;;
  df <~ assign_from "region" "Region" df ;;
  let df := setitem_scalar "state" placeholder df in
  df <~ assign_from "education institution" "Education Institute" df ;;
  assign_from "field of study" "Field of Study" df.

(** The [try] block of [clean_sort_create_columns] with its log records:
    what was logged, and the frame returned or the exception raised. *)
Definition transform_steps (df : DataFrame cell)
  : list event * outcome (DataFrame cell) :=
  let df := drop_duplicates df in
  let t1 := [Log INFO "Duplicates removed."] in
  let df := remove_totals df in
  let t2 := t1 ++ [Log INFO "Rows with totals removed."] in
  let df := fillna placeholder df in
  let t3 := t2 ++ [Log INFO "Missing values filled with 'Unknown'."] in
  match create_columns df with
  | Raise e => (t3, Raise e)
  | Ok df =>
      let t4 := t3 ++ [Log INFO "New columns created."] in
      match sort_values sort_columns df with
      | None =>
          (t4, Raise (key_error
                        (match first_missing (columns df) sort_columns with
                         | Some n => n
                         | None => ""
                         end)))
      | Some df => (t4 ++ [Log INFO "Data sorted."], Ok df)
      end
  end.

(** [clean_sort_create_columns(df)] with the [except] clause: the records
    logged and the frame returned, [None] after [exit()]. *)
Definition clean_sort_create_columns_logged (df : DataFrame cell)
  : list event * option (DataFrame cell) :=
  match transform_steps df with
  | (t, Ok cleaned_df) => (t, Some cleaned_df)
  | (t, Raise e) =>
      (t ++ [Log ERROR ("Error during data cleaning and sorting: "
                        +++ message e)],
       None)
  end.

(** [s.endswith(suffix)] *)
Fixpoint ends_with (suffix s : string) : bool :=
  String.eqb s suffix ||
  match s with
  | EmptyString => false
  | String _ s' => ends_with suffix s'
  end.

(** [os.path.join(dir, name)] for a relative [name]: no separator is added
    after an empty [dir] or one that ends with the separator. *)
Definition os_path_join (sep dir name : string) : string :=
  if String.eqb dir "" || ends_with sep dir then dir +++ name
  else dir +++ sep +++ name.

Section CleanerScript.

Variable w : world.

(** [os.path.dirname(os.path.abspath(excel_file))]: the directory the
    script runs in. *)
Variable directory : string.

Definition excel_file : string := "py input.xlsx".

Definition output_file : string :=
  os_path_join (os_sep w) directory "cleaned_sorted_py_input_with_columns.xlsx".

(** How a run of the Cleaner script ends. *)
Inductive cleaner_ending : Type :=
| LoadFailed                                (* [exit()] at line 16 *)
| TransformFailed                           (* [exit()] at line 49 *)
| SaveFailed (cleaned_df : DataFrame cell)  (* [exit()] at line 65 *)
| Saved (cleaned_df : DataFrame cell).

Record cleaner_run : Type := mkCleanerRun {
  cleaner_trace : list event;
  cleaner_result : cleaner_ending
}.

(** The script from its first to its last line. *)
Definition cleaner_main : cleaner_run :=
  match read_excel w excel_file with
  | Raise e =>
      mkCleanerRun [Log ERROR ("Error loading Excel file: " +++ message e)]
                   LoadFailed
  | Ok sheet =>
      let df : DataFrame cell := frame_of_sheet (fst sheet) (snd sheet) in
      let t0 := [Log INFO "Excel file loaded successfully."] in
      match clean_sort_create_columns_logged df with
      | (t1, None) => mkCleanerRun (t0 ++ t1) TransformFailed
      | (t1, Some cleaned_df) =>
          let written := map_cells Cell cleaned_df in
          match to_excel w output_file written with
          | None =>
              mkCleanerRun
                (t0 ++ t1 ++
                 [ToExcel output_file written None;
                  Log INFO ("Data cleaned, sorted, and new columns created successfully. Saved to '"
                            +++ output_file +++ "'.")])
                (Saved cleaned_df)
          | Some e =>
              mkCleanerRun
                (t0 ++ t1 ++
                 [ToExcel output_file written (Some e);
                  Log ERROR ("Error saving Excel file: " +++ message e)])
                (SaveFailed cleaned_df)
          end
      end
  end.

End CleanerScript.

(** ** Reading a trace *)

(** The files a run tried to write, in order. *)
Fixpoint writes (t : list event) : list (string * DataFrame pyobj) :=
  match t with
  | [] => []
  | ToExcel path df _ :: rest => (path, df) :: writes rest
  | _ :: rest => writes rest
  end.

(** The pauses of a run, in order. *)
Fixpoint sleeps (t : list event) : list Z :=
  match t with
  | [] => []
  | Sleep n :: rest => n :: sleeps rest
  | _ :: rest => sleeps rest
  end.

(** The error records of a run, in order. *)
Fixpoint errors (t : list event) : list string :=
  match t with
  | [] => []
  | Log ERROR msg :: rest => msg :: errors rest
  | _ :: rest => errors rest
  end.

(** A sheet of two rows that lacks [Region] and [Country Name]. *)
Definition incomplete_sheet : list string * list (list cell) :=
  (["Education Institute"; "Field of Study"],
   [[Str "MIT"; Str "CS"]; [Str "ETH"; Str "Math"]]).

(** The sheet of [sample]. *)
Definition sample_sheet : list string * list (list cell) :=
  (["Education Institute"; "Country Name"; "Region"; "Field of Study"],
   [[Str "MIT"; Str "USA"; Str "NE"; Str "CS"];
    [Str "Total"; NaN; NaN; Num 12];
    [Str "ETH"; Str "CH"; NaN; Str "Math"];
    [Str "MIT"; Str "USA"; Str "NE"; Str "CS"];
    [Str "ABC"; Str "CH"; NaN; Str "Math"]]).

(** A world in which the sheet [sheet] loads, or loading fails, and writing
    succeeds. *)
Definition cleaner_world (sheet : outcome (list string * list (list cell)))
  : world :=
  mkWorld (fun _ => sheet)
          (fun _ _ => Raise (mkExn RequestException "unused"))
          (fun _ _ => None)
          "/".

(** The row [o] has the sort key [k]. *)
Definition has_key (cols : list string) (k : list cell) (o : Z * list cell)
  : bool :=
  match sort_key cols sort_columns (snd o) with
  | Some k' => row_eqb k' k
  | None => false
  end.

(** A sheet that already has a [state] column, and equal keys in rows 0
    and 2. *)
Definition tagged : DataFrame cell :=
  frame_of_sheet
    ["Education Institute"; "Country Name"; "state"; "Region";
     "Field of Study"]
    [[Str "MIT"; Str "USA"; Str "MA"; Str "NE"; Str "CS"];
     [Str "ETH"; Str "CH"; Str "ZH"; NaN; Str "Math"];
     [Str "MIT"; Str "USA"; Str "CA"; Str "NE"; Str "CS"]].

Definition tagged_out : DataFrame cell :=
  mkDF
    ["Education Institute"; "Country Name"; "state"; "Region";
     "Field of Study"; "continent"; "country"; "region";
     "education institution"; "field of study"]
    [(1, [Str "ETH"; Str "CH"; Str "Unknown"; Str "Unknown"; Str "Math";
          Str "Unknown"; Str "CH"; Str "Unknown"; Str "ETH"; Str "Math"]);
     (0, [Str "MIT"; Str "USA"; Str "Unknown"; Str "NE"; Str "CS";
          Str "Unknown"; Str "USA"; Str "NE"; Str "MIT"; Str "CS"]);
     (2, [Str "MIT"; Str "USA"; Str "Unknown"; Str "NE"; Str "CS";
          Str "Unknown"; Str "USA"; Str "NE"; Str "MIT"; Str "CS"])].

(** The sheet of a frame written with [to_excel(index=False)]: the labels
    and the cells, without the index. *)
Definition sheet_of (df : DataFrame cell) : list string * list (list cell) :=
  (columns df, map snd (rows df)).

(** A world with the sheet [sheet], a web service that answers [answer] and
    file writes that succeed. *)
Definition world_of (sheet : list string * list (list cell))
    (answer : outcome response) : world :=
  mkWorld (fun _ => Ok sheet) (fun _ _ => answer) (fun _ _ => None) "/".

(** The path of the second output file where the separator is ["/"]. *)
Definition unprocessed_path : string :=
  output_dir +++ "/" +++ "unprocessed_rows.xlsx".

(** A response with the status [status] and the decoded body [data]. *)
Definition response_with (status : Z) (text : string) (data : json)
  : response :=
  mkResponse status text autocomplete_endpoint (Ok data).

(** What the loop keeps true: it writes no file, and it has paused once for
    every suggestion it has. *)
Definition loop_invariant (st : loop_state) : Prop :=
  writes (loop_events st) = [] /\
  sleeps (loop_events st) = repeat 1 (List.length (suggestions st)).


(** The labels of the four derived columns that are copies. *)
Definition copied_columns : list string :=
  ["country"; "region"; "education institution"; "field of study"].



(** A sheet that already has a [country] column, left blank. *)
Definition preset : DataFrame cell :=
  frame_of_sheet
    ["Education Institute"; "Country Name"; "Region"; "Field of Study";
     "country"]
    [[Str "MIT"; Str "USA"; Str "NE"; Str "CS"; NaN]].

Definition preset_out : DataFrame cell :=
  mkDF
    ["Education Institute"; "Country Name"; "Region"; "Field of Study";
     "country"; "continent"; "region"; "state"; "education institution";
     "field of study"]
    [(0, [Str "MIT"; Str "USA"; Str "NE"; Str "CS"; Str "USA";
          Str "Unknown"; Str "NE"; Str "Unknown"; Str "MIT"; Str "CS"])].

(** * Properties *)

(** ** Strings *)

Lemma prefix_app (p s : string) :
  String.prefix p s = true <-> exists b, s = p +++ b.
Proof.
  revert s; induction p as [|c p IH]; intros s.
  - split; [intros _; now exists s | now destruct s].
  - destruct s as [|d s]; simpl;
      [split; [discriminate | intros [b Hb]; discriminate]|].
    destruct (Ascii.ascii_dec c d) as [->|Hne].
    + rewrite IH. split; intros [b Hb]; exists b; [now subst | now inversion Hb].
    + split; [discriminate | intros [b Hb]; inversion Hb; congruence].
Qed.

(** [contains pat s] holds exactly when [s] is [a + pat + b] for some [a]
    and [b]. *)
Lemma contains_spec (pat s : string) :
  PyStr.contains pat s = true <-> exists a b, s = a +++ pat +++ b.
Proof.
  induction s as [|c s IH]; cbn [PyStr.contains].
  - rewrite orb_false_r, prefix_app. split.
    + intros [b Hb]. now exists "", b.
    + intros [a [b Hb]]. destruct a; [now exists b | discriminate].
  - rewrite orb_true_iff, prefix_app, IH. split.
    + intros [[b Hb] | [a [b Hb]]].
      * now exists "", b.
      * exists (String c a), b. simpl. now rewrite Hb.
    + intros [a [b Hb]]. destruct a as [|d a]; simpl in Hb.
      * left. now exists b.
      * right. inversion Hb. now exists a, b.
Qed.

(** A string that contains [c + pat] contains the character [c]. *)
Lemma contains_needs_head (c : ascii) (pat s : string) :
  PyStr.contains (String c pat) s = true ->
  exists a b, s = a +++ String c b.
Proof.
  intros H. apply contains_spec in H. destruct H as [a [b ->]].
  exists a, (pat +++ b). reflexivity.
Qed.

Lemma string_of_uint_digits (d : Decimal.uint) (a b : string) :
  NilEmpty.string_of_uint d <> a +++ String "T" b.
Proof.
  revert a; induction d; intros a H; simpl in H;
    destruct a as [|x a]; simpl in H; try discriminate;
    inversion H; subst; eapply IHd; eassumption.
Qed.

(** The decimal form of a number has no ["Total"] in it. *)
Lemma str_of_Z_no_total (z : Z) :
  PyStr.contains "Total" (PyStr.str_of_Z z) = false.
Proof.
  destruct (PyStr.contains "Total" (PyStr.str_of_Z z)) eqn:E; [|reflexivity].
  exfalso. apply contains_needs_head in E. destruct E as [a [b E]].
  unfold PyStr.str_of_Z, NilZero.string_of_int, NilZero.string_of_uint in E.
  destruct (Z.to_int z) as [d|d].
  - destruct d; try (eapply string_of_uint_digits; exact E).
    destruct a as [|x a]; simpl in E; try discriminate.
    inversion E. destruct a; discriminate.
  - destruct a as [|x a]; simpl in E; [discriminate|].
    inversion E as [[Hx E']]. clear E.
    destruct d; try (eapply string_of_uint_digits; exact E').
    destruct a as [|y a]; simpl in E'; try discriminate.
    inversion E'. destruct a; discriminate.
Qed.

(** ** The order of the sort keys *)

Lemma str_compare_eq (s t : string) : PyStr.compare s t = Eq -> s = t.
Proof.
  unfold PyStr.compare. intros H.
  destruct (String_as_OT.compare_spec s t); congruence.
Qed.

Lemma str_compare_refl (s : string) : PyStr.compare s s = Eq.
Proof.
  unfold PyStr.compare.
  destruct (String_as_OT.compare_spec s s) as [_|H|H]; [reflexivity| |];
    exfalso; eapply (StrictOrder_Irreflexive (R := String_as_OT.lt)); exact H.
Qed.

Lemma str_compare_trans (s t u : string) :
  PyStr.compare s t = Lt -> PyStr.compare t u = Lt -> PyStr.compare s u = Lt.
Proof.
  unfold PyStr.compare. intros H1 H2.
  exact (StrictOrder_Transitive (R := String_as_OT.lt) s t u H1 H2).
Qed.

Lemma str_compare_antisym (s t : string) :
  PyStr.compare t s = CompOpp (PyStr.compare s t).
Proof.
  destruct (PyStr.compare s t) eqn:E1; simpl.
  - apply str_compare_eq in E1. subst. apply str_compare_refl.
  - destruct (PyStr.compare t s) eqn:E2; [| |reflexivity].
    + apply str_compare_eq in E2. subst.
      rewrite str_compare_refl in E1. discriminate.
    + pose proof (str_compare_trans _ _ _ E1 E2) as H.
      rewrite str_compare_refl in H. discriminate.
  - destruct (PyStr.compare t s) eqn:E2; [|reflexivity|].
    + apply str_compare_eq in E2. subst.
      rewrite str_compare_refl in E1. discriminate.
    + unfold PyStr.compare in *.
      destruct (String_as_OT.compare_spec s t) as [H|H|H]; try discriminate.
      destruct (String_as_OT.compare_spec t s) as [H'|H'|H']; try discriminate.
      exfalso. eapply (StrictOrder_Irreflexive (R := String_as_OT.lt)).
      eapply (StrictOrder_Transitive (R := String_as_OT.lt)); eassumption.
Qed.

Lemma cell_compare_eq (a b : cell) : cell_compare a b = Eq -> a = b.
Proof.
  destruct a, b; simpl; intros H; try discriminate; try reflexivity.
  - apply str_compare_eq in H. now subst.
  - apply Z.compare_eq in H. now subst.
Qed.

Lemma cell_compare_refl (a : cell) : cell_compare a a = Eq.
Proof.
  destruct a; simpl; [reflexivity | apply str_compare_refl | apply Z.compare_refl].
Qed.

Lemma cell_compare_antisym (a b : cell) :
  cell_compare b a = CompOpp (cell_compare a b).
Proof.
  destruct a, b; simpl; try reflexivity.
  - apply str_compare_antisym.
  - apply Z.compare_antisym.
Qed.

Lemma cell_compare_trans (a b c : cell) :
  cell_compare a b = Lt -> cell_compare b c = Lt -> cell_compare a c = Lt.
Proof.
  destruct a, b, c; simpl; intros H1 H2; try discriminate; try reflexivity.
  - eapply str_compare_trans; eassumption.
  - rewrite Z.compare_lt_iff in *. lia.
Qed.

Lemma key_compare_eq (a b : list cell) : key_compare a b = Eq -> a = b.
Proof.
  revert b; induction a as [|x a IH]; intros [|y b]; simpl; intros H;
    try discriminate; [reflexivity|].
  destruct (cell_compare x y) eqn:E; try discriminate.
  apply cell_compare_eq in E. subst. f_equal. now apply IH.
Qed.

Lemma key_compare_refl (a : list cell) : key_compare a a = Eq.
Proof.
  induction a as [|x a IH]; simpl; [reflexivity|].
  now rewrite cell_compare_refl.
Qed.

Lemma key_compare_antisym (a b : list cell) :
  key_compare b a = CompOpp (key_compare a b).
Proof.
  revert b; induction a as [|x a IH]; intros [|y b]; simpl; try reflexivity.
  rewrite (cell_compare_antisym x y).
  destruct (cell_compare x y); simpl; auto.
Qed.

Lemma key_compare_trans (a b c : list cell) :
  key_compare a b = Lt -> key_compare b c = Lt -> key_compare a c = Lt.
Proof.
  revert b c; induction a as [|x a IH]; intros [|y b] [|z c]; simpl;
    intros H1 H2; try discriminate; try reflexivity.
  destruct (cell_compare x y) eqn:Exy; try discriminate.
  - apply cell_compare_eq in Exy. subst y.
    destruct (cell_compare x z); try discriminate; [|reflexivity].
    eapply IH; eassumption.
  - destruct (cell_compare y z) eqn:Eyz; try discriminate.
    + apply cell_compare_eq in Eyz. subst z. now rewrite Exy.
    + now rewrite (cell_compare_trans _ _ _ Exy Eyz).
Qed.

Lemma key_leb_total (a b : list cell) :
  key_leb a b = true \/ key_leb b a = true.
Proof.
  unfold key_leb. rewrite (key_compare_antisym a b).
  destruct (key_compare a b); simpl; auto.
Qed.

Lemma key_leb_refl (a : list cell) : key_leb a a = true.
Proof. unfold key_leb. now rewrite key_compare_refl. Qed.

Lemma key_leb_trans (a b c : list cell) :
  key_leb a b = true -> key_leb b c = true -> key_leb a c = true.
Proof.
  unfold key_leb. intros H1 H2.
  destruct (key_compare a b) eqn:Eab; try discriminate;
    destruct (key_compare b c) eqn:Ebc; try discriminate.
  - apply key_compare_eq in Eab. subst. now rewrite Ebc.
  - apply key_compare_eq in Eab. subst. now rewrite Ebc.
  - apply key_compare_eq in Ebc. subst. now rewrite Eab.
  - now rewrite (key_compare_trans _ _ _ Eab Ebc).
Qed.

(** ** The stable sort *)

Section StableSortFacts.
Context {A : Type} (key : A -> list cell).

Lemma insert_by_perm (x : A) (l : list A) :
  Permutation (insert_by key x l) (x :: l).
Proof.
  induction l as [|y t IH]; simpl; [reflexivity|].
  destruct (key_leb (key x) (key y)); [reflexivity|].
  rewrite IH. apply perm_swap.
Qed.

Lemma stable_sort_perm (l : list A) : Permutation (stable_sort key l) l.
Proof.
  induction l as [|x t IH]; simpl; [reflexivity|].
  rewrite insert_by_perm. now constructor.
Qed.

Lemma insert_by_sorted (x : A) (l : list A) :
  StronglySorted (key_le key) l -> StronglySorted (key_le key) (insert_by key x l).
Proof.
  induction 1 as [|y t Hs IH Hall]; simpl.
  - constructor; constructor.
  - destruct (key_leb (key x) (key y)) eqn:E.
    + constructor; [now constructor|].
      constructor; [exact E|].
      eapply Forall_impl; [|exact Hall].
      intros z Hz. unfold key_le in *. eapply key_leb_trans; eassumption.
    + constructor; [exact IH|].
      apply (Permutation_Forall (Permutation_sym (insert_by_perm x t))).
      constructor; [|exact Hall].
      unfold key_le. destruct (key_leb_total (key x) (key y)); congruence.
Qed.

Lemma stable_sort_sorted (l : list A) :
  StronglySorted (key_le key) (stable_sort key l).
Proof.
  induction l as [|x t IH]; simpl; [constructor|].
  now apply insert_by_sorted.
Qed.

(** A sorted list is left as it is: ties are never swapped. *)
Lemma stable_sort_id (l : list A) :
  StronglySorted (key_le key) l -> stable_sort key l = l.
Proof.
  induction 1 as [|x t Hs IH Hall]; simpl; [reflexivity|].
  rewrite IH. destruct t as [|y t']; [reflexivity|]. simpl.
  inversion Hall as [|? ? Hxy _]; subst. unfold key_le in Hxy.
  now rewrite Hxy.
Qed.

End StableSortFacts.

(** ** Columns and rows of a frame *)

Lemma column_pos_In (name : string) (cols : list string) :
  column_pos name cols = None <-> ~ In name cols.
Proof.
  induction cols as [|c cs IH]; simpl; [tauto|].
  destruct (String.eqb_spec name c) as [->|Hne].
  - split; [discriminate | intros H; exfalso; apply H; now left].
  - destruct (column_pos name cs); simpl.
    + split; [discriminate|]. intros H. exfalso. apply H. right.
      destruct (in_dec string_dec name cs) as [Hin|Hn]; [exact Hin|].
      apply IH in Hn. discriminate.
    + split; [|reflexivity]. intros _ [Heq|Hin]; [congruence|].
      now apply IH.
Qed.

Lemma column_pos_lt (name : string) (cols : list string) (p : nat) :
  column_pos name cols = Some p -> (p < List.length cols)%nat.
Proof.
  revert p; induction cols as [|c cs IH]; simpl; intros p H; [discriminate|].
  destruct (String.eqb name c); [inversion H; lia|].
  destruct (column_pos name cs) as [q|]; simpl in H; inversion H.
  specialize (IH q eq_refl). lia.
Qed.

Lemma column_pos_app_l (name : string) (cols extra : list string) (p : nat) :
  column_pos name cols = Some p -> column_pos name (cols ++ extra) = Some p.
Proof.
  revert p; induction cols as [|c cs IH]; simpl; intros p H; [discriminate|].
  destruct (String.eqb name c); [exact H|].
  destruct (column_pos name cs) as [q|]; simpl in H; inversion H.
  now rewrite (IH q eq_refl).
Qed.

Lemma column_pos_app_new (name : string) (cols : list string) :
  column_pos name cols = None ->
  column_pos name (cols ++ [name]) = Some (List.length cols).
Proof.
  induction cols as [|c cs IH]; simpl; intros H.
  - now rewrite String.eqb_refl.
  - destruct (String.eqb name c); [discriminate|].
    destruct (column_pos name cs); [discriminate|].
    now rewrite IH.
Qed.

Lemma column_pos_app_other (name other : string) (cols : list string) :
  name <> other ->
  column_pos name (cols ++ [other]) = column_pos name cols.
Proof.
  intros Hne. induction cols as [|c cs IH]; simpl.
  - destruct (String.eqb_spec name other); [contradiction | reflexivity].
  - destruct (String.eqb name c); [reflexivity | now rewrite IH].
Qed.

Lemma column_pos_set_other (name other : string) (cols : list string) :
  name <> other ->
  column_pos name (columns_set other cols) = column_pos name cols.
Proof.
  intros Hne. unfold columns_set.
  destruct (column_pos other cols); [reflexivity|].
  now apply column_pos_app_other.
Qed.

Lemma column_pos_inj (m n : string) (cols : list string) (p : nat) :
  column_pos m cols = Some p -> column_pos n cols = Some p -> m = n.
Proof.
  revert p; induction cols as [|c cs IH]; simpl; intros p Hm Hn;
    [discriminate|].
  destruct (String.eqb_spec m c) as [->|Hmc], (String.eqb_spec n c) as [->|Hnc];
    try reflexivity.
  - destruct (column_pos n cs); simpl in Hn; inversion Hn; subst; discriminate.
  - destruct (column_pos m cs); simpl in Hm; inversion Hm; subst; discriminate.
  - destruct (column_pos m cs) as [q|] eqn:Em; simpl in Hm; inversion Hm; subst.
    destruct (column_pos n cs) as [q'|] eqn:En; simpl in Hn; inversion Hn; subst.
    eapply IH; reflexivity.
Qed.

Section RowFacts.
Context {V : Type}.
Implicit Types (r : list V) (v : V).

Lemma set_nth_length p v r : List.length (set_nth p v r) = List.length r.
Proof.
  revert p; induction r as [|x t IH]; intros [|p]; simpl; auto.
Qed.

Lemma nth_error_set_nth_same p v r :
  (p < List.length r)%nat -> nth_error (set_nth p v r) p = Some v.
Proof.
  revert p; induction r as [|x t IH]; intros [|p]; simpl; intros H;
    try lia; [reflexivity|].
  apply IH. lia.
Qed.

Lemma nth_error_set_nth_other p q v r :
  p <> q -> nth_error (set_nth p v r) q = nth_error r q.
Proof.
  revert p q; induction r as [|x t IH]; intros [|p] [|q]; simpl; intros H;
    try reflexivity; try congruence.
  apply IH. congruence.
Qed.

Lemma row_set_length cols n v r :
  List.length r = List.length cols ->
  List.length (row_set cols n v r) = List.length (columns_set n cols).
Proof.
  intros H. unfold row_set, columns_set.
  destruct (column_pos n cols).
  - now rewrite set_nth_length.
  - rewrite !length_app. simpl. lia.
Qed.

Lemma row_get_set_same cols n v r :
  List.length r = List.length cols ->
  row_get (columns_set n cols) n (row_set cols n v r) = Some v.
Proof.
  intros H. unfold row_get, row_set, columns_set.
  destruct (column_pos n cols) as [p|] eqn:E.
  - rewrite E. apply nth_error_set_nth_same.
    apply column_pos_lt in E. lia.
  - rewrite (column_pos_app_new _ _ E), <- H.
    rewrite nth_error_app2 by lia. now rewrite Nat.sub_diag.
Qed.

Lemma row_get_set_other cols m n v r :
  List.length r = List.length cols -> m <> n ->
  row_get (columns_set n cols) m (row_set cols n v r) = row_get cols m r.
Proof.
  intros H Hne. unfold row_get.
  rewrite (column_pos_set_other m n cols Hne).
  destruct (column_pos m cols) as [q|] eqn:Em; [|reflexivity].
  unfold row_set. destruct (column_pos n cols) as [p|] eqn:En.
  - apply nth_error_set_nth_other. intros ->.
    apply Hne. eapply column_pos_inj; eassumption.
  - apply nth_error_app1. apply column_pos_lt in Em. lia.
Qed.

Lemma row_get_some cols m r :
  List.length r = List.length cols -> has_column cols m = true ->
  exists v, row_get cols m r = Some v.
Proof.
  unfold has_column, row_get. intros H Hc.
  destruct (column_pos m cols) as [p|] eqn:E; [|discriminate].
  apply column_pos_lt in E.
  destruct (nth_error r p) eqn:En; [eauto|].
  apply nth_error_None in En. lia.
Qed.

End RowFacts.

(** ** Mapping a partial function over the rows *)

Section MapOpt.
Context {A B C : Type}.

Lemma map_opt_map (g : A -> B) (f : B -> option C) (l : list A) :
  map_opt f (map g l) = map_opt (fun x => f (g x)) l.
Proof.
  induction l as [|x t IH]; simpl; [reflexivity|]. now rewrite IH.
Qed.

Lemma map_opt_bind (f : A -> option B) (g : B -> option C) (l : list A) :
  bind_opt (map_opt f l) (map_opt g) = map_opt (fun x => bind_opt (f x) g) l.
Proof.
  induction l as [|x t IH]; simpl; [reflexivity|].
  rewrite <- IH. destruct (f x) as [y|]; simpl; [|reflexivity].
  destruct (map_opt f t) as [ys|]; simpl; [reflexivity|].
  now destruct (g y).
Qed.

Lemma map_opt_ext (f g : A -> option B) (l : list A) :
  (forall x, In x l -> f x = g x) -> map_opt f l = map_opt g l.
Proof.
  induction l as [|x t IH]; simpl; intros H; [reflexivity|].
  rewrite (H x (or_introl eq_refl)), IH; auto.
Qed.

Lemma map_opt_Forall2 (f : A -> option B) (l : list A) (l' : list B) :
  map_opt f l = Some l' <-> Forall2 (fun x y => f x = Some y) l l'.
Proof.
  revert l'; induction l as [|x t IH]; simpl; intros l'.
  - split; [intros H; inversion H; constructor | intros H; now inversion H].
  - destruct (f x) as [y|] eqn:E.
    + destruct (map_opt f t) as [ys|].
      * split.
        -- intros H; inversion H; subst. constructor; [exact E|]. now apply IH.
        -- intros H; inversion H as [|? ? ? ? Hx Ht]; subst.
           apply IH in Ht. congruence.
      * split; [discriminate|]. intros H; inversion H as [|? ? ? ? Hx Ht]; subst.
        apply IH in Ht. discriminate.
    + split; [discriminate|]. intros H; inversion H; congruence.
Qed.

Lemma map_opt_total (f : A -> option B) (l : list A) :
  (forall x, In x l -> exists y, f x = Some y) ->
  exists l', map_opt f l = Some l'.
Proof.
  induction l as [|x t IH]; simpl; intros H; [eauto|].
  destruct (H x (or_introl eq_refl)) as [y ->].
  destruct IH as [ys ->]; eauto.
Qed.

End MapOpt.

Lemma zip_set_getitem (cols : list string) (dst src : string)
    (rs : list (Z * list cell)) :
  match map_opt (fun r => row_get cols src (snd r)) rs with
  | Some vs => zip_set cols dst rs vs
  | None => None
  end = map_opt (keep_label (assign_copy cols dst src)) rs.
Proof.
  induction rs as [|r t IH]; simpl; [reflexivity|].
  unfold keep_label at 1, assign_copy at 1.
  destruct (row_get cols src (snd r)) as [v|]; simpl; [|reflexivity].
  rewrite <- IH.
  destruct (map_opt (fun r0 => row_get cols src (snd r0)) t) as [vs|]; simpl;
    [|reflexivity].
  now destruct (zip_set cols dst t vs).
Qed.

(** [df[dst] = df[src]] acts on each row by [assign_copy]. *)
Lemma setitem_copy_rows (dst src : string) (df : DataFrame cell) :
  setitem_copy dst src df =
  if has_column (columns df) src then
    option_map (mkDF (columns_set dst (columns df)))
      (map_opt (keep_label (assign_copy (columns df) dst src)) (rows df))
  else None.
Proof.
  unfold setitem_copy, has_column, getitem, setitem_list.
  destruct (column_pos src (columns df)); [|reflexivity].
  rewrite <- zip_set_getitem.
  now destruct (map_opt (fun r => row_get (columns df) src (snd r)) (rows df)).
Qed.

(** ** The Cleaner, row by row *)

Lemma has_column_set_other (cols : list string) (name other : string) :
  name <> other ->
  has_column (columns_set other cols) name = has_column cols name.
Proof.
  intros H. unfold has_column. now rewrite column_pos_set_other.
Qed.

Lemma derive_rows_steps (c0 : list string) (K : list (Z * list cell)) :
  let c1 := columns_set "continent" c0 in
  let c2 := columns_set "country" c1 in
  let c3 := columns_set "region" c2 in
  let c4 := columns_set "state" c3 in
  let c5 := columns_set "education institution" c4 in
  map_opt (keep_label (derive_row c0)) K =
  (rs <- map_opt (keep_label (assign_copy c1 "country" "Country Name"))
           (map (fun r => (fst r, row_set c0 "continent" placeholder (snd r))) K) ;;
   rs <- map_opt (keep_label (assign_copy c2 "region" "Region")) rs ;;
   rs <- map_opt (keep_label (assign_copy c4 "education institution"
                                "Education Institute"))
           (map (fun r => (fst r, row_set c3 "state" placeholder (snd r))) rs) ;;
   map_opt (keep_label (assign_copy c5 "field of study" "Field of Study")) rs).
Proof.
  intros c1 c2 c3 c4 c5.
  rewrite map_opt_map.
  transitivity
    (map_opt (fun r =>
       r1 <- keep_label (assign_copy c1 "country" "Country Name")
               (fst r, row_set c0 "continent" placeholder (snd r)) ;;
       r2 <- keep_label (assign_copy c2 "region" "Region") r1 ;;
       r3 <- keep_label (assign_copy c4 "education institution"
                           "Education Institute")
               (fst r2, row_set c3 "state" placeholder (snd r2)) ;;
       keep_label (assign_copy c5 "field of study" "Field of Study") r3) K).
  - apply map_opt_ext. intros [i r] _. unfold keep_label, derive_row. simpl.
    fold c1 c2 c3 c4 c5.
    destruct (assign_copy c1 "country" "Country Name"
                (row_set c0 "continent" placeholder r)) as [r1|]; simpl;
      [|reflexivity].
    destruct (assign_copy c2 "region" "Region" r1) as [r2|]; simpl;
      [|reflexivity].
    destruct (assign_copy c4 "education institution" "Education Institute"
                (row_set c3 "state" placeholder r2)) as [r3|]; simpl;
      reflexivity.
  - rewrite <- (map_opt_bind
      (fun r => keep_label (assign_copy c1 "country" "Country Name")
                  (fst r, row_set c0 "continent" placeholder (snd r)))).
    destruct (map_opt _ K) as [rs1|]; simpl; [|reflexivity].
    rewrite <- (map_opt_bind (keep_label (assign_copy c2 "region" "Region"))).
    destruct (map_opt _ rs1) as [rs2|]; simpl; [|reflexivity].
    rewrite map_opt_map.
    now rewrite <- (map_opt_bind
      (fun r => keep_label (assign_copy c4 "education institution"
                              "Education Institute")
                  (fst r, row_set c3 "state" placeholder (snd r)))).
Qed.

(** The column assignments and the sort, on any frame. *)
Lemma assign_and_sort (d : DataFrame cell) :
  (let df := setitem_scalar "continent" placeholder d in
   df <- setitem_copy "country" "Country Name" df ;;
   df <- setitem_copy "region" "Region" df ;;
   let df := setitem_scalar "state" placeholder df in
   df <- setitem_copy "education institution" "Education Institute" df ;;
   df <- setitem_copy "field of study" "Field of Study" df ;;
   sort_values sort_columns df) =
  if forallb (has_column (columns d)) source_columns then
    rs <- map_opt (keep_label (derive_row (columns d))) (rows d) ;;
    sort_values sort_columns (mkDF (derive_columns (columns d)) rs)
  else None.
Proof.
  destruct d as [c0 K]. cbv zeta. cbn [columns rows].
  rewrite derive_rows_steps. cbv zeta. unfold setitem_scalar.
  rewrite setitem_copy_rows. cbn [columns rows].
  unfold source_columns, forallb.
  rewrite has_column_set_other by discriminate.
  destruct (has_column c0 "Country Name"); cbn [andb]; [|reflexivity].
  destruct (map_opt _ (map _ K)) as [rs1|]; cbn [option_map bind_opt];
    [|now destruct (has_column c0 "Region" && _)].
  rewrite setitem_copy_rows. cbn [columns rows].
  rewrite !has_column_set_other by discriminate.
  destruct (has_column c0 "Region"); cbn [andb]; [|reflexivity].
  destruct (map_opt _ rs1) as [rs2|]; cbn [option_map bind_opt];
    [|now destruct (has_column c0 "Education Institute" && _)].
  rewrite setitem_copy_rows. cbn [columns rows].
  rewrite !has_column_set_other by discriminate.
  destruct (has_column c0 "Education Institute"); cbn [andb]; [|reflexivity].
  destruct (map_opt _ (map _ rs2)) as [rs3|]; cbn [option_map bind_opt];
    [|now destruct (has_column c0 "Field of Study")].
  rewrite setitem_copy_rows. cbn [columns rows].
  rewrite !has_column_set_other by discriminate.
  destruct (has_column c0 "Field of Study"); cbn [andb]; [|reflexivity].
  now destruct (map_opt _ rs3).
Qed.

Lemma remove_totals_rows (d : DataFrame cell) :
  rows (remove_totals d) =
  filter (fun r => negb (row_has_total (snd r))) (rows d).
Proof.
  unfold remove_totals. now destruct (rows d).
Qed.

Lemma remove_totals_columns (d : DataFrame cell) :
  rows d <> [] -> columns (remove_totals d) = columns d.
Proof.
  unfold remove_totals. destruct (rows d); [congruence | reflexivity].
Qed.

Lemma drop_duplicates_rows_nil (df : DataFrame cell) :
  rows (drop_duplicates df) = [] <-> rows df = [].
Proof.
  unfold drop_duplicates. cbn [rows].
  destruct (rows df); simpl; split; congruence.
Qed.

(** The returned frame in terms of the rows that survive the first three
    steps: a frame without rows loses its columns in the filter and the
    function exits; otherwise the four source columns must exist, every row
    goes through [derive_row], and the result is sorted. *)
Lemma clean_unfold (df : DataFrame cell) :
  snd (clean_sort_create_columns df) =
  match rows df with
  | [] => None
  | _ :: _ =>
      if forallb (has_column (columns df)) source_columns then
        rs <- map_opt (keep_label (derive_row (columns df)))
                (cleaned_rows df) ;;
        sort_values sort_columns (mkDF (derive_columns (columns df)) rs)
      else None
  end.
Proof.
  unfold clean_sort_create_columns, cleaned_rows. cbn [snd].
  etransitivity;
    [exact (assign_and_sort
              (fillna placeholder (remove_totals (drop_duplicates df))))|].
  cbn [fillna columns].
  destruct (rows df) as [|x t] eqn:E.
  - assert (Hd : rows (drop_duplicates df) = [])
      by now apply drop_duplicates_rows_nil.
    unfold remove_totals. rewrite Hd. reflexivity.
  - rewrite remove_totals_columns; [reflexivity|].
    intros Hd. apply (proj1 (drop_duplicates_rows_nil df)) in Hd. congruence.
Qed.

Lemma clean_unfold_rows (df : DataFrame cell) :
  rows df <> [] ->
  snd (clean_sort_create_columns df) =
  if forallb (has_column (columns df)) source_columns then
    rs <- map_opt (keep_label (derive_row (columns df))) (cleaned_rows df) ;;
    sort_values sort_columns (mkDF (derive_columns (columns df)) rs)
  else None.
Proof.
  intros H. rewrite clean_unfold. now destruct (rows df).
Qed.

(** A frame is only returned for an input with rows. *)
Lemma clean_some_rows (df out : DataFrame cell) :
  snd (clean_sort_create_columns df) = Some out -> rows df <> [].
Proof.
  rewrite clean_unfold. destruct (rows df); [discriminate | discriminate].
Qed.

(** ** Sorting a frame *)

Lemma sort_values_spec (by_ : list string) (df out : DataFrame cell) :
  sort_values by_ df = Some out ->
  columns out = columns df /\
  Permutation (rows out) (rows df) /\
  exists keys,
    map_opt (fun r => sort_key (columns df) by_ (snd r)) (rows out) = Some keys /\
    StronglySorted (fun a b => key_leb a b = true) keys.
Proof.
  unfold sort_values.
  destruct (map_opt _ (rows df)) as [keyed|] eqn:E; [|discriminate].
  intros H. inversion H; subst; clear H. cbn [columns rows].
  apply map_opt_Forall2 in E.
  assert (Hsnd : map snd keyed = rows df).
  { induction E as [|r kr rs krs Hr _ IH]; simpl; [reflexivity|].
    rewrite IH. destruct (sort_key (columns df) by_ (snd r)); simpl in Hr;
      inversion Hr; reflexivity. }
  assert (Hkey : Forall (fun kr => sort_key (columns df) by_ (snd (snd kr))
                                    = Some (fst kr)) keyed).
  { clear Hsnd. induction E as [|r kr rs krs Hr _ IH]; constructor; [|exact IH].
    destruct (sort_key (columns df) by_ (snd r)) eqn:Ek; simpl in Hr;
      inversion Hr; subst; exact Ek. }
  pose proof (stable_sort_perm fst keyed) as Hperm.
  pose proof (stable_sort_sorted fst keyed) as Hsorted.
  split; [reflexivity|]. split.
  - rewrite <- Hsnd. now apply Permutation_map.
  - exists (map fst (stable_sort fst keyed)). split.
    + apply (Permutation_Forall (Permutation_sym Hperm)) in Hkey.
      clear Hperm Hsorted. induction Hkey as [|kr t Hk _ IH]; simpl;
        [reflexivity|]. now rewrite Hk, IH.
    + clear Hperm. induction Hsorted as [|kr t _ IH Hall]; simpl; constructor;
        [exact IH|]. apply Forall_map. exact Hall.
Qed.

Lemma sort_values_total (by_ : list string) (df : DataFrame cell) :
  (forall r, In r (rows df) ->
     exists k, sort_key (columns df) by_ (snd r) = Some k) ->
  exists out, sort_values by_ df = Some out.
Proof.
  intros H. unfold sort_values.
  destruct (map_opt_total
              (fun r => option_map (fun k => (k, r))
                          (sort_key (columns df) by_ (snd r))) (rows df))
    as [keyed ->]; [|eauto].
  intros r Hr. destruct (H r Hr) as [k ->]. simpl. eauto.
Qed.

(** What a returned frame is made of. *)
Lemma clean_spec (df out : DataFrame cell) :
  snd (clean_sort_create_columns df) = Some out ->
  forallb (has_column (columns df)) source_columns = true /\
  columns out = derive_columns (columns df) /\
  exists rs,
    map_opt (keep_label (derive_row (columns df))) (cleaned_rows df) = Some rs /\
    Permutation (rows out) rs /\
    exists keys,
      map_opt (fun r => sort_key (columns out) sort_columns (snd r)) (rows out)
        = Some keys /\
      StronglySorted (fun a b => key_leb a b = true) keys.
Proof.
  intros H0. rewrite (clean_unfold_rows df (clean_some_rows df out H0)) in H0.
  revert H0.
  destruct (forallb _ source_columns); [|discriminate].
  destruct (map_opt _ (cleaned_rows df)) as [rs|]; [|discriminate].
  cbn [bind_opt]. intros H.
  apply sort_values_spec in H. cbn [columns rows] in H.
  destruct H as [Hc [Hp Hk]].
  split; [reflexivity|]. split; [exact Hc|].
  exists rs. split; [reflexivity|]. split; [exact Hp|].
  now rewrite Hc.
Qed.

(** ** One row through the six assignments *)

Ltac row_len :=
  repeat (apply row_set_length); assumption.

Lemma derive_row_spec (c0 : list string) (r : list cell) (v1 v2 v3 v4 : cell) :
  List.length r = List.length c0 ->
  row_get c0 "Country Name" r = Some v1 ->
  row_get c0 "Region" r = Some v2 ->
  row_get c0 "Education Institute" r = Some v3 ->
  row_get c0 "Field of Study" r = Some v4 ->
  derive_row c0 r = Some (extend_row c0 r v1 v2 v3 v4).
Proof.
  intros Hlen H1 H2 H3 H4. unfold derive_row, extend_row, assign_copy.
  cbv zeta.
  rewrite row_get_set_other by (row_len || discriminate).
  rewrite H1. cbn [bind_opt].
  rewrite !row_get_set_other by (row_len || discriminate).
  rewrite H2. cbn [bind_opt].
  rewrite !row_get_set_other by (row_len || discriminate).
  rewrite H3. cbn [bind_opt].
  rewrite !row_get_set_other by (row_len || discriminate).
  now rewrite H4.
Qed.

Lemma extend_row_length (c0 : list string) (r : list cell) (v1 v2 v3 v4 : cell) :
  List.length r = List.length c0 ->
  List.length (extend_row c0 r v1 v2 v3 v4) = List.length (derive_columns c0).
Proof.
  intros Hlen. unfold extend_row, derive_columns. cbv zeta. row_len.
Qed.

(** The value a row has under each label after the assignments. *)
Lemma extend_row_get (c0 : list string) (r : list cell) (v1 v2 v3 v4 : cell)
    (m : string) :
  List.length r = List.length c0 ->
  row_get (derive_columns c0) m (extend_row c0 r v1 v2 v3 v4) =
  if String.eqb m "field of study" then Some v4
  else if String.eqb m "education institution" then Some v3
  else if String.eqb m "state" then Some placeholder
  else if String.eqb m "region" then Some v2
  else if String.eqb m "country" then Some v1
  else if String.eqb m "continent" then Some placeholder
  else row_get c0 m r.
Proof.
  intros Hlen. unfold extend_row, derive_columns. cbv zeta.
  destruct (String.eqb_spec m "field of study") as [->|N1];
    [apply row_get_set_same; row_len|].
  rewrite row_get_set_other by (row_len || assumption).
  destruct (String.eqb_spec m "education institution") as [->|N2];
    [apply row_get_set_same; row_len|].
  rewrite row_get_set_other by (row_len || assumption).
  destruct (String.eqb_spec m "state") as [->|N3];
    [apply row_get_set_same; row_len|].
  rewrite row_get_set_other by (row_len || assumption).
  destruct (String.eqb_spec m "region") as [->|N4];
    [apply row_get_set_same; row_len|].
  rewrite row_get_set_other by (row_len || assumption).
  destruct (String.eqb_spec m "country") as [->|N5];
    [apply row_get_set_same; row_len|].
  rewrite row_get_set_other by (row_len || assumption).
  destruct (String.eqb_spec m "continent") as [->|N6];
    [apply row_get_set_same; row_len|].
  now rewrite row_get_set_other by (row_len || assumption).
Qed.

(** When the input has none of the derived labels, the six columns are
    appended in order. *)
Lemma derive_fresh (c0 : list string) :
  (forall n, In n derived_columns -> ~ In n c0) ->
  derive_columns c0 = c0 ++ derived_columns /\
  forall r v1 v2 v3 v4,
    extend_row c0 r v1 v2 v3 v4 =
    r ++ [placeholder; v1; v2; placeholder; v3; v4].
Proof.
  intros Hfresh.
  assert (Hn : forall n, In n derived_columns -> column_pos n c0 = None).
  { intros n Hin. apply column_pos_In. now apply Hfresh. }
  unfold derive_columns, extend_row, columns_set, row_set. cbv zeta.
  rewrite (Hn "continent") by (simpl; tauto).
  rewrite column_pos_app_other, (Hn "country") by (discriminate || simpl; tauto).
  rewrite !column_pos_app_other, (Hn "region") by (discriminate || simpl; tauto).
  rewrite !column_pos_app_other, (Hn "state") by (discriminate || simpl; tauto).
  rewrite !column_pos_app_other, (Hn "education institution")
    by (discriminate || simpl; tauto).
  rewrite !column_pos_app_other, (Hn "field of study")
    by (discriminate || simpl; tauto).
  split; [|intros r v1 v2 v3 v4]; now rewrite <- !app_assoc.
Qed.

(** ** Duplicates and kept rows *)

Lemma cell_eqb_eq (a b : cell) : cell_eqb a b = true <-> a = b.
Proof.
  destruct a, b; simpl; try (split; [discriminate | congruence]);
    try tauto.
  - rewrite String.eqb_eq. split; congruence.
  - rewrite Z.eqb_eq. split; congruence.
Qed.

Lemma row_eqb_eq (a b : list cell) : row_eqb a b = true <-> a = b.
Proof.
  revert b; induction a as [|x a IH]; intros [|y b]; simpl;
    try (split; [discriminate | congruence]); [tauto|].
  rewrite andb_true_iff, cell_eqb_eq, IH. split; [intros [-> ->] | intros H];
    [reflexivity | inversion H; auto].
Qed.

Lemma row_eqb_refl (a : list cell) : row_eqb a a = true.
Proof. now apply row_eqb_eq. Qed.

Lemma seen_In (r : list cell) (seen : list (list cell)) :
  existsb (row_eqb r) seen = true <-> In r seen.
Proof.
  rewrite existsb_exists. split.
  - intros [x [Hin Heq]]. apply row_eqb_eq in Heq. now subst.
  - intros Hin. exists r. split; [exact Hin | apply row_eqb_refl].
Qed.

Lemma drop_duplicates_from_In (seen : list (list cell))
    (l : list (Z * list cell)) (x : Z * list cell) :
  In x (drop_duplicates_from seen l) -> In x l /\ ~ In (snd x) seen.
Proof.
  revert seen; induction l as [|r t IH]; simpl; intros seen H; [tauto|].
  destruct (existsb (row_eqb (snd r)) seen) eqn:E.
  - destruct (IH _ H). tauto.
  - destruct H as [<-|H].
    + split; [now left|]. intros Hin. apply seen_In in Hin. congruence.
    + destruct (IH _ H) as [H1 H2]. split; [now right|].
      intros Hin. apply H2. now right.
Qed.

(** Number of rows of [l] whose cells are [r]. *)
Lemma count_drop_duplicates (r : list cell) (seen : list (list cell))
    (l : list (Z * list cell)) :
  List.length (filter (fun k => row_eqb (snd k) r)
                 (drop_duplicates_from seen l)) =
  if existsb (row_eqb r) seen then 0%nat
  else if existsb (fun k => row_eqb (snd k) r) l then 1%nat else 0%nat.
Proof.
  revert seen; induction l as [|x t IH]; intros seen; simpl.
  - now destruct (existsb (row_eqb r) seen).
  - destruct (existsb (row_eqb (snd x)) seen) eqn:Ex.
    + rewrite IH. destruct (existsb (row_eqb r) seen) eqn:Er; [reflexivity|].
      destruct (row_eqb (snd x) r) eqn:Exr; [|reflexivity].
      apply row_eqb_eq in Exr. congruence.
    + cbn [filter]. destruct (row_eqb (snd x) r) eqn:Exr; cbn [List.length];
        rewrite IH; cbn [existsb].
      * apply row_eqb_eq in Exr. subst r. rewrite row_eqb_refl, Ex. reflexivity.
      * replace (row_eqb r (snd x)) with false.
        -- cbn [orb]. now destruct (existsb (row_eqb r) seen).
        -- symmetry. destruct (row_eqb r (snd x)) eqn:E'; [|reflexivity].
           apply row_eqb_eq in E'. subst. now rewrite row_eqb_refl in Exr.
Qed.

Lemma count_remove_totals (r : list cell) (l : list (Z * list cell)) :
  List.length (filter (fun k => row_eqb (snd k) r)
                 (filter (fun k => negb (row_has_total (snd k))) l)) =
  if row_has_total r then 0%nat
  else List.length (filter (fun k => row_eqb (snd k) r) l).
Proof.
  induction l as [|x t IH]; simpl; [now destruct (row_has_total r)|].
  destruct (row_eqb (snd x) r) eqn:E.
  - apply row_eqb_eq in E. subst r.
    destruct (row_has_total (snd x)); simpl in *.
    + exact IH.
    + rewrite row_eqb_refl. simpl. now rewrite IH.
  - destruct (row_has_total (snd x)); simpl; [exact IH|].
    rewrite E. exact IH.
Qed.

(** Dropping duplicates a second time changes nothing. *)
Lemma drop_duplicates_from_fixed (seen : list (list cell))
    (l : list (Z * list cell)) :
  drop_duplicates_from seen (drop_duplicates_from seen l) =
  drop_duplicates_from seen l.
Proof.
  revert seen; induction l as [|x t IH]; intros seen; simpl; [reflexivity|].
  destruct (existsb (row_eqb (snd x)) seen) eqn:E; [apply IH|].
  simpl. rewrite E. f_equal. apply IH.
Qed.

(** ** From the kept rows to the output rows *)

Lemma cleaned_rows_kept (df : DataFrame cell) :
  cleaned_rows df =
  map (fun r => (fst r, map (fill_cell placeholder) (snd r))) (kept_rows df).
Proof.
  unfold cleaned_rows, kept_rows. cbn [fillna rows].
  now rewrite remove_totals_rows.
Qed.

Lemma kept_rows_In (df : DataFrame cell) (x : Z * list cell) :
  In x (kept_rows df) -> In x (rows df) /\ row_has_total (snd x) = false.
Proof.
  unfold kept_rows. rewrite filter_In. intros [H1 H2].
  apply drop_duplicates_from_In in H1. split; [tauto|].
  now destruct (row_has_total (snd x)).
Qed.

Lemma keep_label_fst {A B : Type} (f : A -> option B) (l : list (Z * A))
    (l' : list (Z * B)) :
  map_opt (keep_label f) l = Some l' -> map fst l' = map fst l.
Proof.
  rewrite map_opt_Forall2. induction 1 as [|x y t t' Hxy _ IH]; simpl;
    [reflexivity|].
  rewrite IH. unfold keep_label in Hxy.
  destruct (f (snd x)); simpl in Hxy; inversion Hxy. reflexivity.
Qed.

(** The index labels of the output are those of the kept rows. *)
Lemma clean_labels (df out : DataFrame cell) :
  snd (clean_sort_create_columns df) = Some out ->
  Permutation (map fst (rows out)) (map fst (kept_rows df)).
Proof.
  intros H. apply clean_spec in H.
  destruct H as [_ [_ [rs [Hrs [Hperm _]]]]].
  apply keep_label_fst in Hrs. rewrite cleaned_rows_kept, map_map in Hrs.
  cbn [fst] in Hrs. apply (Permutation_map fst) in Hperm.
  rewrite Hrs in Hperm. exact Hperm.
Qed.

Lemma derive_output_row (c0 : list string) (r : list cell) :
  List.length r = List.length c0 ->
  forallb (has_column c0) source_columns = true ->
  derive_row c0 (map (fill_cell placeholder) r) = Some (output_row c0 r).
Proof.
  intros Hlen Hcols. unfold output_row. cbv zeta.
  set (filled := map (fill_cell placeholder) r).
  assert (Hf : List.length filled = List.length c0)
    by (unfold filled; now rewrite length_map).
  unfold source_columns in Hcols. cbn [forallb] in Hcols.
  repeat rewrite andb_true_iff in Hcols.
  destruct Hcols as [H1 [H2 [H3 [H4 _]]]].
  destruct (row_get_some c0 _ filled Hf H1) as [v1 E1].
  destruct (row_get_some c0 _ filled Hf H2) as [v2 E2].
  destruct (row_get_some c0 _ filled Hf H3) as [v3 E3].
  destruct (row_get_some c0 _ filled Hf H4) as [v4 E4].
  unfold cell_at. rewrite E1, E2, E3, E4.
  now apply derive_row_spec.
Qed.

Lemma rectangular_In (df : DataFrame cell) (x : Z * list cell) :
  rectangular df -> In x (rows df) ->
  List.length (snd x) = List.length (columns df).
Proof.
  unfold rectangular. rewrite Forall_forall. auto.
Qed.

Lemma derive_kept_rows (df : DataFrame cell) :
  rectangular df ->
  forallb (has_column (columns df)) source_columns = true ->
  map_opt (keep_label (derive_row (columns df))) (cleaned_rows df) =
  Some (map (fun k => (fst k, output_row (columns df) (snd k))) (kept_rows df)).
Proof.
  intros Hrect Hcols. rewrite cleaned_rows_kept, map_opt_map.
  apply map_opt_Forall2.
  assert (Hin : forall k, In k (kept_rows df) -> In k (rows df))
    by (intros k Hk; now apply kept_rows_In in Hk).
  induction (kept_rows df) as [|k t IH]; simpl; constructor.
  - unfold keep_label. cbn [fst snd].
    rewrite derive_output_row; [reflexivity| |exact Hcols].
    apply rectangular_In; [exact Hrect|]. apply Hin. now left.
  - apply IH. intros k' Hk'. apply Hin. now right.
Qed.

(** The output rows are the kept rows, each filled and extended, in some
    order. *)
Lemma clean_rows (df out : DataFrame cell) :
  rectangular df ->
  snd (clean_sort_create_columns df) = Some out ->
  Permutation (rows out)
    (map (fun k => (fst k, output_row (columns df) (snd k))) (kept_rows df)).
Proof.
  intros Hrect H. apply clean_spec in H.
  destruct H as [Hcols [_ [rs [Hrs [Hperm _]]]]].
  rewrite (derive_kept_rows df Hrect Hcols) in Hrs.
  inversion Hrs; subst. exact Hperm.
Qed.

Lemma output_row_get (c0 : list string) (r : list cell) (m : string) :
  List.length r = List.length c0 ->
  row_get (derive_columns c0) m (output_row c0 r) =
  let filled := map (fill_cell placeholder) r in
  if String.eqb m "field of study" then Some (cell_at c0 "Field of Study" filled)
  else if String.eqb m "education institution"
       then Some (cell_at c0 "Education Institute" filled)
  else if String.eqb m "state" then Some placeholder
  else if String.eqb m "region" then Some (cell_at c0 "Region" filled)
  else if String.eqb m "country" then Some (cell_at c0 "Country Name" filled)
  else if String.eqb m "continent" then Some placeholder
  else row_get c0 m filled.
Proof.
  intros Hlen. unfold output_row. cbv zeta.
  apply extend_row_get. now rewrite length_map.
Qed.

(** The Cleaner returns a frame whenever the input has rows and the four
    source columns exist. *)
Lemma clean_total (df : DataFrame cell) :
  rectangular df ->
  rows df <> [] ->
  forallb (has_column (columns df)) source_columns = true ->
  exists out, snd (clean_sort_create_columns df) = Some out.
Proof.
  intros Hrect Hrows Hcols. rewrite (clean_unfold_rows df Hrows), Hcols.
  rewrite (derive_kept_rows df Hrect Hcols). cbn [bind_opt].
  apply sort_values_total. cbn [columns rows].
  intros r Hr. apply in_map_iff in Hr. destruct Hr as [k [<- Hk]].
  cbn [snd]. apply kept_rows_In in Hk. destruct Hk as [Hk _].
  pose proof (rectangular_In df k Hrect Hk) as Hlen.
  unfold sort_key, sort_columns. cbn [map_opt].
  rewrite !output_row_get by exact Hlen. cbv zeta. cbn. eauto.
Qed.

(** ** Frames read from a sheet *)

Lemma range_index_fst_ge {A : Type} (start : Z) (l : list A) (x : Z * A) :
  In x (range_index start l) -> start <= fst x.
Proof.
  revert start; induction l as [|y t IH]; simpl; intros start H; [tauto|].
  destruct H as [<-|H]; simpl; [lia|]. apply IH in H. lia.
Qed.

Lemma range_index_NoDup {A : Type} (start : Z) (l : list A) :
  NoDup (map fst (range_index start l)).
Proof.
  revert start; induction l as [|y t IH]; simpl; intros start; constructor.
  - intros H. apply in_map_iff in H. destruct H as [x [Hx Hin]].
    apply range_index_fst_ge in Hin. lia.
  - apply IH.
Qed.

Lemma range_index_snd {A : Type} (start : Z) (l : list A) :
  map snd (range_index start l) = l.
Proof.
  revert start; induction l as [|y t IH]; simpl; intros start; [reflexivity|].
  now rewrite IH.
Qed.

Lemma frame_of_sheet_well_formed (header : list string)
    (body_rows : list (list cell)) :
  Forall (fun r => List.length r = List.length header) body_rows ->
  well_formed (frame_of_sheet header body_rows).
Proof.
  intros H. split; [|apply range_index_NoDup].
  unfold rectangular, frame_of_sheet. cbn [columns rows].
  apply Forall_forall. intros x Hx.
  rewrite Forall_forall in H. apply H.
  rewrite <- (range_index_snd 0 body_rows). now apply in_map.
Qed.

Lemma sample_well_formed : well_formed sample.
Proof.
  apply frame_of_sheet_well_formed. repeat constructor.
Qed.

Lemma sample_cleaned : snd (clean_sort_create_columns sample) = Some sample_out.
Proof. vm_compute. reflexivity. Qed.

(** ** Counting rows by their origin *)

Lemma origin_In (rs : list (Z * list cell)) (k : Z * list cell) :
  NoDup (map fst rs) -> In k rs -> origin rs (fst k) = Some (snd k).
Proof.
  induction rs as [|x t IH]; simpl; intros Hnd Hin; [tauto|].
  inversion Hnd as [|? ? Hx Ht]; subst.
  destruct Hin as [->|Hin]; [now rewrite Z.eqb_refl|].
  destruct (Z.eqb_spec (fst x) (fst k)) as [E|_]; [|now apply IH].
  exfalso. apply Hx. rewrite E. now apply in_map.
Qed.



Lemma kept_rows_NoDup (df : DataFrame cell) :
  NoDup (map fst (rows df)) -> NoDup (map fst (kept_rows df)).
Proof.
  unfold kept_rows. generalize (@nil (list cell)) as seen.
  induction (rows df) as [|x t IH]; simpl; intros seen Hnd; [constructor|].
  inversion Hnd as [|? ? Hx Ht]; subst.
  destruct (existsb (row_eqb (snd x)) seen); [now apply IH|].
  simpl. destruct (negb (row_has_total (snd x))); [|now apply IH].
  simpl. constructor; [|now apply IH].
  intros Hin. apply Hx. apply in_map_iff in Hin.
  destruct Hin as [k [Hk Hin]]. apply filter_In in Hin.
  destruct Hin as [Hin _]. apply drop_duplicates_from_In in Hin.
  rewrite <- Hk. apply in_map. tauto.
Qed.

(** How often the cells [r] occur among the kept rows. *)
Lemma count_kept_rows (df : DataFrame cell) (r : list cell) :
  In r (map snd (rows df)) ->
  List.length (filter (fun k => row_eqb (snd k) r) (kept_rows df)) =
  if row_has_total r then 0%nat else 1%nat.
Proof.
  intros Hin. unfold kept_rows.
  rewrite count_remove_totals, count_drop_duplicates. cbn [existsb].
  replace (existsb (fun k => row_eqb (snd k) r) (rows df)) with true;
    [reflexivity|].
  symmetry. apply existsb_exists. apply in_map_iff in Hin.
  destruct Hin as [k [<- Hk]]. exists k. split; [exact Hk | apply row_eqb_refl].
Qed.

Lemma row_has_total_spec (r : list cell) :
  row_has_total r = true <-> has_total_field r.
Proof.
  unfold row_has_total, has_total_field. rewrite existsb_exists. split.
  - intros [c [Hin Hc]]. apply contains_spec in Hc.
    destruct Hc as [a [b Hc]]. now exists c, a, b.
  - intros [c [a [b [Hin Hc]]]]. exists c. split; [exact Hin|].
    apply contains_spec. now exists a, b.
Qed.

Lemma label_determines_row (rs : list (Z * list cell)) (i : Z)
    (a b : list cell) :
  NoDup (map fst rs) -> In (i, a) rs -> In (i, b) rs -> a = b.
Proof.
  intros Hnd Ha Hb.
  pose proof (origin_In rs (i, a) Hnd Ha) as Ea.
  pose proof (origin_In rs (i, b) Hnd Hb) as Eb.
  cbn [fst snd] in *. congruence.
Qed.

Lemma kept_rows_has (df : DataFrame cell) (r : list cell) :
  In r (map snd (rows df)) -> row_has_total r = false ->
  exists j, In (j, r) (kept_rows df).
Proof.
  intros Hin Ht. pose proof (count_kept_rows df r Hin) as Hc.
  rewrite Ht in Hc.
  destruct (filter (fun k => row_eqb (snd k) r) (kept_rows df)) as [|k t] eqn:E;
    [discriminate|].
  assert (Hk : In k (filter (fun k => row_eqb (snd k) r) (kept_rows df)))
    by (rewrite E; now left).
  apply filter_In in Hk. destruct Hk as [Hk Heq]. apply row_eqb_eq in Heq.
  exists (fst k). rewrite <- Heq. now destruct k.
Qed.

(** ** Cells of an output row *)

Section RowMembers.
Context {V : Type}.

Lemma In_set_nth (p : nat) (v c : V) (r : list V) :
  In c (set_nth p v r) -> c = v \/ In c r.
Proof.
  revert p; induction r as [|x t IH]; intros [|p]; simpl; try tauto.
  - intros [<-|H]; auto.
  - intros [<-|H]; auto. destruct (IH _ H); auto.
Qed.

Lemma In_row_set (cols : list string) (n : string) (v c : V) (r : list V) :
  In c (row_set cols n v r) -> c = v \/ In c r.
Proof.
  unfold row_set. destruct (column_pos n cols).
  - apply In_set_nth.
  - rewrite in_app_iff. simpl. intuition.
Qed.

End RowMembers.

Lemma cell_at_In (cols : list string) (n : string) (r : list cell) :
  cell_at cols n r = NaN \/ In (cell_at cols n r) r.
Proof.
  unfold cell_at, row_get. destruct (column_pos n cols) as [p|]; [|now left].
  destruct (nth_error r p) eqn:E; [|now left].
  right. eapply nth_error_In. exact E.
Qed.

Lemma output_row_cells (c0 : list string) (r : list cell) (c : cell) :
  In c (output_row c0 r) ->
  c = placeholder \/ c = NaN \/ In c (map (fill_cell placeholder) r).
Proof.
  unfold output_row, extend_row. cbv zeta. intros H.
  repeat (apply In_row_set in H; destruct H as [->|H]);
    try (now left);
    try (match goal with
         | |- context [cell_at ?cs ?n ?l] =>
             destruct (cell_at_In cs n l) as [E|E]; [rewrite E|]; tauto
         end).
  tauto.
Qed.

Lemma output_row_no_total (c0 : list string) (r : list cell) :
  row_has_total r = false -> row_has_total (output_row c0 r) = false.
Proof.
  intros Hr. unfold row_has_total in *.
  destruct (existsb _ (output_row c0 r)) eqn:E; [|reflexivity].
  apply existsb_exists in E. destruct E as [c [Hin Hc]].
  apply output_row_cells in Hin. destruct Hin as [->|[->|Hin]];
    [discriminate Hc | discriminate Hc |].
  apply in_map_iff in Hin. destruct Hin as [c' [<- Hin']].
  destruct c'; simpl in Hc; try discriminate Hc;
    rewrite <- Hr; symmetry; apply existsb_exists; eexists; split;
      try exact Hin'; exact Hc.
Qed.

(** ** Labels and equal rows *)

Lemma columns_set_app (name : string) (cols : list string) :
  columns_set name cols =
  cols ++ (if has_column cols name then [] else [name]).
Proof.
  unfold columns_set, has_column.
  destruct (column_pos name cols); [now rewrite app_nil_r | reflexivity].
Qed.

Lemma has_column_app_other (cols : list string) (name other : string) :
  name <> other ->
  has_column (cols ++ [other]) name = has_column cols name.
Proof.
  intros H. unfold has_column. now rewrite column_pos_app_other.
Qed.

(** Assigning the labels [names] one after the other appends the missing
    ones, in order, and leaves the others where they are. *)
Lemma assign_labels (names cols : list string) :
  NoDup names ->
  fold_left (fun c n => columns_set n c) names cols =
  cols ++ filter (fun n => negb (has_column cols n)) names.
Proof.
  revert cols; induction names as [|n t IH]; intros cols Hnd; simpl.
  - now rewrite app_nil_r.
  - inversion Hnd as [|? ? Hn Ht]; subst. rewrite (IH _ Ht).
    rewrite columns_set_app.
    destruct (has_column cols n) eqn:E; cbn [negb].
    + now rewrite app_nil_r.
    + rewrite <- app_assoc. cbn [app]. f_equal. f_equal.
      apply filter_ext_in. intros m Hm.
      rewrite has_column_app_other; [reflexivity|]. intros ->. contradiction.
Qed.

Lemma derive_columns_labels (cols : list string) :
  derive_columns cols =
  cols ++ filter (fun n => negb (has_column cols n)) derived_columns.
Proof.
  rewrite <- assign_labels; [reflexivity|].
  unfold derived_columns.
  repeat (constructor; [simpl; intuition discriminate|]). constructor.
Qed.

Lemma row_get_map {A B : Type} (f : A -> B) (cols : list string)
    (m : string) (r : list A) :
  row_get cols m (map f r) = option_map f (row_get cols m r).
Proof.
  unfold row_get. destruct (column_pos m cols); [|reflexivity].
  apply nth_error_map.
Qed.




(** ** The claims about the Cleaner *)




(** C4.  A row with ["Total"] in any of its fields (as written out in text,
    upper and lower case told apart) is not in the returned frame, no row of
    the returned frame has ["Total"] in a field, and a row without it in any
    field gets through the filter: the returned frame has the row made from
    it. *)
Theorem C4_total_rows_removed (df out : DataFrame cell) :
  well_formed df ->
  snd (clean_sort_create_columns df) = Some out ->
  (forall i r, In (i, r) (rows df) -> has_total_field r ->
     ~ In i (map fst (rows out))) /\
  (forall o, In o (rows out) -> ~ has_total_field (snd o)) /\
  (forall i r, In (i, r) (rows df) -> ~ has_total_field r ->
     exists j, In (j, r) (rows df) /\
               In (j, output_row (columns df) r) (rows out)).
Proof.
  intros [Hrect Hnd] Hout.
  pose proof (clean_rows df out Hrect Hout) as Hperm.
  split; [|split].
  - intros i r Hin Ht Hlab.
    apply (Permutation_in _ (clean_labels df out Hout)) in Hlab.
    apply in_map_iff in Hlab. destruct Hlab as [k [Hk Hkept]].
    apply kept_rows_In in Hkept. destruct Hkept as [Hkin Hkt].
    destruct k as [j rk]. cbn [fst snd] in *. subst j.
    rewrite (label_determines_row _ _ _ _ Hnd Hin Hkin) in Ht.
    apply row_has_total_spec in Ht. congruence.
  - intros o Ho Ht. apply (Permutation_in _ Hperm) in Ho.
    apply in_map_iff in Ho. destruct Ho as [k [<- Hk]]. cbn [snd] in Ht.
    apply kept_rows_In in Hk. destruct Hk as [_ Hk].
    apply row_has_total_spec in Ht.
    now rewrite (output_row_no_total _ _ Hk) in Ht.
  - intros i r Hin Ht.
    assert (Hr : In r (map snd (rows df))).
    { apply in_map_iff. exists (i, r). auto. }
    assert (Hf : row_has_total r = false).
    { destruct (row_has_total r) eqn:E; [|reflexivity].
      exfalso. apply Ht. now apply row_has_total_spec. }
    destruct (kept_rows_has df r Hr Hf) as [j Hj]. exists j. split.
    + now apply kept_rows_In in Hj.
    + apply (Permutation_in _ (Permutation_sym Hperm)).
      apply in_map_iff. exists (j, r). auto.
Qed.

Lemma C4_witness :
  ~ In 1 (map fst (rows sample_out)) /\
  exists j, In (j, [Str "ETH"; Str "CH"; NaN; Str "Math"]) (rows sample) /\
            In (j, output_row (columns sample)
                     [Str "ETH"; Str "CH"; NaN; Str "Math"]) (rows sample_out).
Proof.
  destruct (C4_total_rows_removed sample sample_out) as [H1 [_ H3]].
  - apply frame_of_sheet_well_formed. repeat constructor.
  - vm_compute. reflexivity.
  - split.
    + apply (H1 1 [Str "Total"; NaN; NaN; Num 12]).
      * simpl. tauto.
      * exists (Str "Total"), "", "". split; [simpl; tauto | reflexivity].
    + apply (H3 2).
      * simpl. tauto.
      * intros H. apply row_has_total_spec in H. vm_compute in H.
        discriminate H.
Defined.

Lemma output_row_origin (df out : DataFrame cell) (o : Z * list cell) :
  well_formed df ->
  snd (clean_sort_create_columns df) = Some out ->
  In o (rows out) ->
  exists r, In (fst o, r) (rows df) /\ row_has_total r = false /\
            snd o = output_row (columns df) r.
Proof.
  intros [Hrect Hnd] Hout Ho.
  apply (Permutation_in _ (clean_rows df out Hrect Hout)) in Ho.
  apply in_map_iff in Ho. destruct Ho as [[j r] [<- Hk]].
  apply kept_rows_In in Hk. exists r. cbn [fst snd] in *. tauto.
Qed.

(** C5, as stated, fails: a blank cell under a label that is also the label
    of a copied derived column is overwritten with the copy.  Here the blank
    [country] cell of the input holds ["USA"] in the output. *)
Lemma C5_counterexample :
  snd (clean_sort_create_columns preset) = Some preset_out /\
  In (0, [Str "MIT"; Str "USA"; Str "NE"; Str "CS"; NaN]) (rows preset) /\
  nth_error [Str "MIT"; Str "USA"; Str "NE"; Str "CS"; NaN] 4 = Some NaN /\
  In (0, [Str "MIT"; Str "USA"; Str "NE"; Str "CS"; Str "USA";
          Str "Unknown"; Str "NE"; Str "Unknown"; Str "MIT"; Str "CS"])
     (rows preset_out) /\
  nth_error [Str "MIT"; Str "USA"; Str "NE"; Str "CS"; Str "USA";
             Str "Unknown"; Str "NE"; Str "Unknown"; Str "MIT"; Str "CS"] 4
  <> Some (Str "Unknown").
Proof.
  split; [vm_compute; reflexivity|].
  repeat split; try (simpl; tauto). simpl. discriminate.
Qed.

(** C5, amended.  In a row that is still there after the duplicates and the
    totals rows are gone, a cell that was blank in the input holds
    ["Unknown"] in the output, under the same label of the same row, unless
    the label is [country], [region], [education institution] or
    [field of study]: such a column is overwritten with the copy of its
    source column.  When the input has none of the derived labels this is
    every blank cell, at the same place of the same row. *)
Theorem C5_blank_cells_filled (df out : DataFrame cell) :
  well_formed df ->
  snd (clean_sort_create_columns df) = Some out ->
  forall i r r',
    In (i, r) (rows df) -> In (i, r') (rows out) ->
    (forall m,
       ~ In m copied_columns ->
       row_get (columns df) m r = Some NaN ->
       row_get (columns out) m r' = Some (Str "Unknown")) /\
    (no_derived_column df ->
     forall p, nth_error r p = Some NaN ->
               nth_error r' p = Some (Str "Unknown")).
Proof.
  intros Hwf Hout i r r' Hin Hin'.
  destruct (output_row_origin df out (i, r') Hwf Hout Hin')
    as [r0 [Hr0 [_ Hr']]].
  cbn [fst snd] in *. destruct Hwf as [Hrect Hnd].
  rewrite (label_determines_row _ _ _ _ Hnd Hr0 Hin) in Hr'. subst r'.
  pose proof (clean_spec df out Hout) as [_ [Hc _]].
  pose proof (rectangular_In df _ Hrect Hin) as Hlen. cbn [snd] in Hlen.
  split.
  - intros m Hm Hblank. rewrite Hc, output_row_get by exact Hlen. cbv zeta.
    unfold copied_columns in Hm.
    destruct (String.eqb_spec m "field of study");
      [subst; exfalso; apply Hm; simpl; tauto|].
    destruct (String.eqb_spec m "education institution");
      [subst; exfalso; apply Hm; simpl; tauto|].
    destruct (String.eqb_spec m "state"); [reflexivity|].
    destruct (String.eqb_spec m "region");
      [subst; exfalso; apply Hm; simpl; tauto|].
    destruct (String.eqb_spec m "country");
      [subst; exfalso; apply Hm; simpl; tauto|].
    destruct (String.eqb_spec m "continent"); [reflexivity|].
    now rewrite row_get_map, Hblank.
  - intros Hfresh p Hp. unfold output_row. cbv zeta.
    rewrite (proj2 (derive_fresh (columns df) Hfresh)).
    assert (Hlt : (p < List.length r)%nat)
      by (apply nth_error_Some; congruence).
    rewrite nth_error_app1 by (now rewrite length_map).
    rewrite nth_error_map, Hp. reflexivity.
Qed.

Lemma C5_witness :
  row_get (columns sample_out) "Region"
    [Str "ETH"; Str "CH"; Str "Unknown"; Str "Math"; Str "Unknown";
     Str "CH"; Str "Unknown"; Str "Unknown"; Str "ETH"; Str "Math"]
  = Some (Str "Unknown") /\
  nth_error [Str "ETH"; Str "CH"; Str "Unknown"; Str "Math"; Str "Unknown";
             Str "CH"; Str "Unknown"; Str "Unknown"; Str "ETH"; Str "Math"]
            2 = Some (Str "Unknown").
Proof.
  destruct (C5_blank_cells_filled sample sample_out) with
    (i := 2) (r := [Str "ETH"; Str "CH"; NaN; Str "Math"])
    (r' := [Str "ETH"; Str "CH"; Str "Unknown"; Str "Math"; Str "Unknown";
            Str "CH"; Str "Unknown"; Str "Unknown"; Str "ETH"; Str "Math"])
    as [H1 H2].
  - apply frame_of_sheet_well_formed. repeat constructor.
  - vm_compute. reflexivity.
  - simpl. tauto.
  - simpl. tauto.
  - split.
    + apply H1; [simpl; intuition discriminate | reflexivity].
    + apply H2; [|reflexivity].
      intros n Hn Hc. simpl in Hn, Hc.
      repeat (destruct Hn as [<-|Hn]; [intuition discriminate|]). exact Hn.
Defined.

(** C6, as stated, fails: a derived column whose label the input already
    has is not appended, it is overwritten where it stands.  On a sheet with
    a [state] column five columns are appended, not six. *)
Lemma C6_counterexample :
  snd (clean_sort_create_columns tagged) = Some tagged_out /\
  columns tagged_out <> columns tagged ++ derived_columns /\
  List.length (columns tagged_out) = (List.length (columns tagged) + 5)%nat.
Proof.
  split; [vm_compute; reflexivity|]. split; [|reflexivity].
  vm_compute. discriminate.
Qed.

(** C6, amended.  Every row of the returned frame has the six derived
    columns: [country], [region], [education institution] and
    [field of study] hold what [Country Name], [Region],
    [Education Institute] and [Field of Study] hold in that row, [continent]
    and [state] hold ["Unknown"].  The derived labels that the input does not
    have are appended after the input columns, in the order continent,
    country, region, state, education institution, field of study; a derived
    label that the input has keeps its place.  When the input has none of
    the six labels, all six are appended, and every row is its filled input
    row followed by the six cells. *)
Theorem C6_six_derived_columns (df out : DataFrame cell) :
  well_formed df ->
  snd (clean_sort_create_columns df) = Some out ->
  (forall o, In o (rows out) ->
     row_get (columns out) "continent" (snd o) = Some (Str "Unknown") /\
     row_get (columns out) "state" (snd o) = Some (Str "Unknown") /\
     exists country region institution field,
       row_get (columns out) "Country Name" (snd o) = Some country /\
       row_get (columns out) "country" (snd o) = Some country /\
       row_get (columns out) "Region" (snd o) = Some region /\
       row_get (columns out) "region" (snd o) = Some region /\
       row_get (columns out) "Education Institute" (snd o) = Some institution /\
       row_get (columns out) "education institution" (snd o) = Some institution /\
       row_get (columns out) "Field of Study" (snd o) = Some field /\
       row_get (columns out) "field of study" (snd o) = Some field /\
       (no_derived_column df ->
        exists r, In (fst o, r) (rows df) /\
          snd o = map (fill_cell (Str "Unknown")) r ++
                  [Str "Unknown"; country; region; Str "Unknown";
                   institution; field])) /\
  columns out =
  columns df ++
  filter (fun n => negb (has_column (columns df) n)) derived_columns /\
  (no_derived_column df ->
   columns out =
   columns df ++ ["continent"; "country"; "region"; "state";
                  "education institution"; "field of study"]).
Proof.
  intros Hwf Hout.
  pose proof (clean_spec df out Hout) as [Hcols [Hc _]].
  split; [|split].
  - intros o Ho.
    destruct (output_row_origin df out o Hwf Hout Ho) as [r [Hr [_ Ho']]].
    pose proof (rectangular_In df _ (proj1 Hwf) Hr) as Hlen.
    cbn [snd] in Hlen. rewrite Ho', Hc.
    rewrite !output_row_get by exact Hlen. cbv zeta. cbn [String.eqb Ascii.eqb Bool.eqb].
    set (filled := map (fill_cell placeholder) r).
    assert (Hf : List.length filled = List.length (columns df))
      by (unfold filled; now rewrite length_map).
    unfold source_columns in Hcols. cbn [forallb] in Hcols.
    repeat rewrite andb_true_iff in Hcols.
    destruct Hcols as [H1 [H2 [H3 [H4 _]]]].
    destruct (row_get_some _ _ filled Hf H1) as [v1 E1].
    destruct (row_get_some _ _ filled Hf H2) as [v2 E2].
    destruct (row_get_some _ _ filled Hf H3) as [v3 E3].
    destruct (row_get_some _ _ filled Hf H4) as [v4 E4].
    split; [reflexivity|]. split; [reflexivity|].
    exists v1, v2, v3, v4. unfold cell_at. rewrite E1, E2, E3, E4.
    repeat (split; [reflexivity|]).
    intros Hfresh. exists r. split; [exact Hr|].
    unfold output_row. cbv zeta.
    rewrite (proj2 (derive_fresh (columns df) Hfresh)).
    fold filled. unfold cell_at. now rewrite E1, E2, E3, E4.
  - rewrite Hc. apply derive_columns_labels.
  - intros Hfresh. rewrite Hc.
    exact (proj1 (derive_fresh (columns df) Hfresh)).
Qed.

Lemma C6_witness :
  row_get (columns sample_out) "continent" (snd (sample_out_row 2))
  = Some (Str "Unknown") /\
  columns sample_out =
  columns sample ++
  filter (fun n => negb (has_column (columns sample) n)) derived_columns /\
  columns sample_out =
  columns sample ++ ["continent"; "country"; "region"; "state";
                     "education institution"; "field of study"].
Proof.
  destruct (C6_six_derived_columns sample sample_out) as [H1 [H2 H3]].
  - apply frame_of_sheet_well_formed. repeat constructor.
  - vm_compute. reflexivity.
  - split; [|split].
    + apply (H1 (sample_out_row 2)). simpl. tauto.
    + exact H2.
    + apply H3. intros n Hn Hc. simpl in Hn, Hc.
      repeat (destruct Hn as [<-|Hn]; [intuition discriminate|]). exact Hn.
Defined.

(** ** The order of the output *)

Lemma key_compare_text (a b : list cell) :
  (forall c, In c a -> exists s, c = Str s) ->
  (forall c, In c b -> exists s, c = Str s) ->
  lexical_compare (map cell_str a) (map cell_str b) = key_compare a b.
Proof.
  revert b; induction a as [|x a IH]; intros [|y b] Ha Hb; simpl;
    try reflexivity.
  destruct (Ha x (or_introl eq_refl)) as [s ->].
  destruct (Hb y (or_introl eq_refl)) as [t ->]. simpl.
  rewrite IH; [reflexivity| |]; intros c Hc; [apply Ha | apply Hb]; now right.
Qed.

Lemma sorted_text_keys (keys : list (list cell)) :
  (forall k c, In k keys -> In c k -> exists s, c = Str s) ->
  StronglySorted (fun a b => key_leb a b = true) keys ->
  Sorted (fun a b => lexical_leb a b = true) (map (map cell_str) keys).
Proof.
  intros Htext Hs. apply StronglySorted_Sorted in Hs.
  induction Hs as [|k t Hs IH Hd]; simpl; constructor.
  - apply IH. intros k' c Hk'. apply Htext. now right.
  - destruct Hd as [|k' t' Hkk']; simpl; constructor.
    unfold lexical_leb. rewrite key_compare_text.
    + exact Hkk'.
    + intros c. apply Htext. now left.
    + intros c. apply Htext. right. now left.
Qed.

Lemma string_keys_of_keys (cols : list string) (rs : list (Z * list cell))
    (keys : list (list cell)) :
  map_opt (fun r => sort_key cols sort_columns (snd r)) rs = Some keys ->
  map_opt (fun r => string_key cols (snd r)) rs
  = Some (map (map cell_str) keys).
Proof.
  rewrite !map_opt_Forall2. induction 1 as [|r k t ks Hr _ IH]; simpl;
    constructor; [|exact IH].
  unfold string_key. now rewrite Hr.
Qed.

(** Sorting a sorted frame again gives the same frame. *)
Lemma sort_values_fixed (by_ : list string) (d out : DataFrame cell) :
  sort_values by_ d = Some out -> sort_values by_ out = Some out.
Proof.
  unfold sort_values.
  destruct (map_opt _ (rows d)) as [keyed|] eqn:E; [|discriminate].
  intros H. inversion H; subst; clear H. cbn [columns rows].
  apply map_opt_Forall2 in E.
  assert (Hkey : Forall (fun kr => sort_key (columns d) by_ (snd (snd kr))
                                    = Some (fst kr)) keyed).
  { induction E as [|r kr rs krs Hr _ IH]; constructor; [|exact IH].
    destruct (sort_key (columns d) by_ (snd r)) eqn:Ek; simpl in Hr;
      inversion Hr; subst; exact Ek. }
  apply (Permutation_Forall (Permutation_sym (stable_sort_perm fst keyed)))
    in Hkey.
  pose proof (stable_sort_sorted fst keyed) as Hs.
  set (S := stable_sort fst keyed) in *.
  replace (map_opt _ (map snd S)) with (Some S).
  - now rewrite (stable_sort_id fst S Hs).
  - symmetry. rewrite map_opt_map. apply map_opt_Forall2.
    clear Hs. induction Hkey as [|kr t Hk _ IH]; constructor; [|exact IH].
    rewrite Hk. now destruct kr.
Qed.

Lemma drop_duplicates_fixed (df : DataFrame cell) :
  drop_duplicates (drop_duplicates df) = drop_duplicates df.
Proof.
  unfold drop_duplicates. cbn [columns rows].
  now rewrite drop_duplicates_from_fixed.
Qed.

(** C7, as stated, fails: with the numbers 10 and 2 in [Region] the Cleaner
    returns the row with 2 first, and the text ["2"] is above ["10"]. *)
Lemma C7_counterexample :
  snd (clean_sort_create_columns numeric_regions) = Some numeric_regions_out /\
  ~ sorted_as_strings numeric_regions_out.
Proof.
  split; [vm_compute; reflexivity|].
  intros [keys [Hk Hs]]. vm_compute in Hk. inversion Hk; subst; clear Hk.
  inversion Hs as [|? ? _ Hd]; subst.
  inversion Hd as [|? ? Hle]; subst.
  vm_compute in Hle. discriminate Hle.
Qed.

(** C7, amended.  The rows of the returned frame are non-decreasing in the
    six keys (continent, country, region, state, education institution,
    field of study), the first being the most significant, each key compared
    by value: text by code point, numbers by their value and before text.
    When every key is text this is the lexical order of the keys written as
    strings. *)
Theorem C7_sorted_by_key (df out : DataFrame cell) :
  snd (clean_sort_create_columns df) = Some out ->
  exists keys,
    map_opt (fun r => sort_key (columns out) sort_columns (snd r)) (rows out)
      = Some keys /\
    StronglySorted (fun a b => key_leb a b = true) keys /\
    ((forall k c, In k keys -> In c k -> exists s, c = Str s) ->
     sorted_as_strings out).
Proof.
  intros Hout. apply clean_spec in Hout.
  destruct Hout as [_ [_ [rs [_ [_ [keys [Hk Hs]]]]]]].
  exists keys. split; [exact Hk|]. split; [exact Hs|].
  intros Htext. exists (map (map cell_str) keys). split.
  - now apply string_keys_of_keys.
  - now apply sorted_text_keys.
Qed.

Lemma C7_witness :
  exists keys,
    map_opt (fun r => sort_key (columns sample_out) sort_columns (snd r))
      (rows sample_out) = Some keys /\
    StronglySorted (fun a b => key_leb a b = true) keys /\
    ((forall k c, In k keys -> In c k -> exists s, c = Str s) ->
     sorted_as_strings sample_out).
Proof.
  apply (C7_sorted_by_key sample sample_out). vm_compute. reflexivity.
Defined.

(** C8.  Calling the Cleaner again on the same frame gives the same frame
    again, row for row and in the same order, although the first call
    dropped the duplicates of the caller's frame in place; and sorting the
    returned frame once more leaves it as it is, ties included. *)
Theorem C8_rerun_same_output (df : DataFrame cell) :
  let first := clean_sort_create_columns df in
  let second := clean_sort_create_columns (fst first) in
  snd second = snd first /\
  fst second = fst first /\
  forall out, snd first = Some out ->
    sort_values sort_columns out = Some out.
Proof.
  cbv zeta. split; [|split].
  - unfold clean_sort_create_columns. cbn [fst snd].
    now rewrite drop_duplicates_fixed.
  - unfold clean_sort_create_columns. cbn [fst snd].
    apply drop_duplicates_fixed.
  - intros out Hout.
    rewrite (clean_unfold_rows df (clean_some_rows df out Hout)) in Hout.
    destruct (forallb _ source_columns); [|discriminate].
    destruct (map_opt _ (cleaned_rows df)) as [rs|]; [|discriminate].
    cbn [bind_opt] in Hout. eapply sort_values_fixed. exact Hout.
Qed.

Lemma C8_witness :
  snd (clean_sort_create_columns (fst (clean_sort_create_columns sample)))
  = snd (clean_sort_create_columns sample) /\
  sort_values sort_columns sample_out = Some sample_out.
Proof.
  destruct (C8_rerun_same_output sample) as [H1 [_ H3]].
  split; [exact H1|]. apply H3. vm_compute. reflexivity.
Defined.

(** ** The Annotator *)

Section AnnotatorFacts.
Variable api_key : string.
Variable w : world.

(** Rows with an index label of 1 or more are only collected. *)
Lemma for_each_rest (cols : list string) (st : loop_state) (k : Z)
    (l : list (list cell)) :
  1 <= k ->
  for_each api_key w cols st (range_index k l) =
  Ok (mkLoop (suggestions st) (unprocessed_rows st ++ range_index k l)
             (loop_events st)).
Proof.
  revert st k; induction l as [|r t IH]; intros st k Hk; simpl.
  - rewrite app_nil_r. now destruct st.
  - unfold loop_body. cbn [fst snd].
    destruct (Z.leb_spec 1 k) as [_|Hlt]; [|lia].
    cbn [bind]. rewrite IH by lia. cbn [suggestions unprocessed_rows loop_events].
    now rewrite <- app_assoc.
Qed.

(** A run on a sheet with at least one row that has the two columns read by
    the loop: the first row is looked up, the others are set aside, both
    files are written. *)
Lemma main_run (header : list string) (row : list cell)
    (rest : list (list cell)) (institute country : cell) :
  read_excel w file_path = Ok (header, row :: rest) ->
  row_get header "Education Institute" row = Some institute ->
  row_get header "Country Name" row = Some country ->
  let answer := get_address_suggestions api_key w
                  (address_of institute country) in
  let processed_df :=
    mkDF (columns_set "Address Suggestions" header)
         [(0, row_set header "Address Suggestions" (Obj (snd answer))
                (map Cell row))] in
  let unprocessed_df := frame_of_rows header (range_index 1 rest) in
  main api_key w =
  mkRun ([Log INFO ("Loading Excel file from: " +++ file_path);
          Log INFO "Excel file loaded successfully.";
          Log INFO "Starting address autocomplete suggestions..."]
         ++ (fst answer ++ [Log INFO "Processed 1 addresses."; Sleep 1])
         ++ save_processed w processed_df
         ++ save_unprocessed w unprocessed_df)
        (Finished processed_df unprocessed_df).
Proof.
  intros Hread Hi Hc. cbv zeta. unfold main. rewrite Hread.
  cbn [fst snd frame_of_sheet columns rows range_index for_each].
  unfold loop_body at 1. cbn [fst snd Z.leb Z.compare].
  unfold row_item. rewrite Hi, Hc. cbn [bind].
  fold (address_of institute country).
  destruct (get_address_suggestions api_key w (address_of institute country))
    as [logged suggestion].
  cbn [bind]. rewrite for_each_rest by lia.
  unfold setitem_list, map_cells, iloc_head, frame_of_sheet.
  cbn [suggestions unprocessed_rows loop_events app firstn columns rows map
       fst snd zip_set option_map range_index].
  change (0 + 1) with 1.
  change (PyStr.str_of_Z 1) with "1".
  change ("Processed " +++ "1" +++ " addresses.") with "Processed 1 addresses.".
  rewrite <- !app_assoc. reflexivity.
Qed.

(** The lookup only depends on what the web service answers. *)
Lemma get_address_suggestions_same (w' : world) (address : string) :
  (forall u p, requests_get w' u p = requests_get w u p) ->
  get_address_suggestions api_key w' address =
  get_address_suggestions api_key w address.
Proof.
  intros H. unfold get_address_suggestions, lookup_suggestion.
  now rewrite H.
Qed.

Lemma for_each_same (w' : world) (cols : list string) (st : loop_state)
    (items : list (Z * list cell)) :
  (forall u p, requests_get w' u p = requests_get w u p) ->
  for_each api_key w' cols st items = for_each api_key w cols st items.
Proof.
  intros H. revert st; induction items as [|item rest IH]; intros st; simpl;
    [reflexivity|].
  unfold loop_body.
  destruct (1 <=? fst item); cbn [bind]; [apply IH|].
  destruct (row_item cols "Education Institute" (snd item)); cbn [bind];
    [|reflexivity].
  destruct (row_item cols "Country Name" (snd item)); cbn [bind];
    [|reflexivity].
  rewrite (get_address_suggestions_same w' _ H).
  destruct (get_address_suggestions api_key w _). cbn [bind]. apply IH.
Qed.

(** What is in memory at the end does not depend on the fate of the file
    writes. *)
Lemma result_same (w' : world) :
  read_excel w' file_path = read_excel w file_path ->
  (forall u p, requests_get w' u p = requests_get w u p) ->
  result (main api_key w') = result (main api_key w).
Proof.
  intros Hr Hg. unfold main. rewrite Hr.
  destruct (read_excel w file_path) as [sheet|e]; [|reflexivity].
  cbv zeta. rewrite (for_each_same w' _ _ _ Hg).
  destruct (for_each api_key w _ _ _) as [st|e]; [|reflexivity].
  now destruct (setitem_list _ _ _).
Qed.

(** A run that ends normally ends with the two save blocks. *)
Lemma main_trace (processed_df : DataFrame pyobj)
    (unprocessed_df : DataFrame cell) :
  result (main api_key w) = Finished processed_df unprocessed_df ->
  exists before,
    trace (main api_key w) =
    before ++ save_processed w processed_df ++ save_unprocessed w unprocessed_df.
Proof.
  unfold main.
  destruct (read_excel w file_path) as [sheet|e]; [|discriminate].
  cbv zeta.
  destruct (for_each api_key w _ _ _) as [st|e]; [|discriminate].
  destruct (setitem_list _ _ _) as [p|]; [|discriminate].
  cbn [trace result]. intros H. inversion H; subst.
  eexists. rewrite <- app_assoc. reflexivity.
Qed.

End AnnotatorFacts.



Lemma range_index_map {A B : Type} (f : A -> B) (start : Z) (l : list A) :
  map (fun r => (fst r, f (snd r))) (range_index start l)
  = range_index start (map f l).
Proof.
  revert start; induction l as [|y t IH]; simpl; intros start; [reflexivity|].
  now rewrite IH.
Qed.

Lemma frame_of_rows_rows (cols : list string) (rs : list (Z * list cell)) :
  rows (frame_of_rows cols rs) = rs.
Proof. now destruct rs. Qed.

(** ** The claims about the Annotator *)



(** C2.  What [get_address_suggestions] returns: the [formatted] property
    of the first candidate when the answer has one; ["No suggestion"] when
    the list of candidates is empty; ["Request error: "] and the message for
    a failure of the request, ["Error: "] and the message for any other
    failure.  A failed lookup does not stop the run: the loop goes on, the
    returned text is stored as the suggestion and both files are written. *)
Theorem C2_suggestion_cases (api_key : string) (w : world) (address : string) :
  let answer :=
    requests_get w autocomplete_endpoint
      [("text", address); ("apiKey", api_key)] in
  let suggestion := snd (get_address_suggestions api_key w address) in
  (forall r data v,
     answer = Ok r -> raise_for_status r = Ok tt -> body r = Ok data ->
     features0_formatted data = Some v ->
     suggestion = v) /\
  (forall r fields,
     answer = Ok r -> raise_for_status r = Ok tt ->
     body r = Ok (JObj fields) ->
     lookup "features" fields = Some (JArr []) ->
     suggestion = JStr "No suggestion") /\
  (forall e,
     answer = Raise e -> kind e = RequestException ->
     suggestion = JStr ("Request error: " +++ message e)) /\
  (forall e,
     lookup_suggestion api_key w address = Raise e ->
     suggestion =
     JStr (match kind e with
           | RequestException => "Request error: "
           | OtherException => "Error: "
           end +++ message e)) /\
  (forall header row rest institute country,
     read_excel w file_path = Ok (header, row :: rest) ->
     row_get header "Education Institute" row = Some institute ->
     row_get header "Country Name" row = Some country ->
     address = address_of institute country ->
     exists processed_df unprocessed_df,
       result (main api_key w) = Finished processed_df unprocessed_df /\
       rows processed_df =
       [(0, row_set header "Address Suggestions" (Obj suggestion)
              (map Cell row))]).
Proof.
  cbv zeta. unfold get_address_suggestions.
  split; [|split; [|split; [|split]]].
  - intros r data v Ha Hs Hb Hf. unfold lookup_suggestion.
    rewrite Ha. cbn [bind]. rewrite Hs. cbn [bind]. rewrite Hb. cbn [bind].
    destruct data as [| | | | |fields]; try discriminate Hf.
    cbn [features0_formatted] in Hf. cbn [py_get].
    destruct (lookup "features" fields) as [[| | | |items|]|];
      try discriminate Hf.
    destruct items as [|[| | | | |first] items]; try discriminate Hf.
    cbn [bind truthy py_index0 py_get].
    destruct (lookup "properties" first) as [[| | | | |properties]|];
      try discriminate Hf.
    cbn [bind py_get]. now rewrite Hf.
  - intros r fields Ha Hs Hb Hf. unfold lookup_suggestion.
    rewrite Ha. cbn [bind]. rewrite Hs. cbn [bind]. rewrite Hb.
    cbn [bind py_get]. rewrite Hf. reflexivity.
  - intros e Ha Hk. unfold lookup_suggestion. rewrite Ha. cbn [bind].
    now rewrite Hk.
  - intros e He. rewrite He. now destruct (kind e).
  - intros header row rest institute country Hread Hi Hc ->.
    rewrite (main_run api_key w header row rest institute country Hread Hi Hc).
    cbv zeta. cbn [result]. eexists. eexists. split; reflexivity.
Qed.

Lemma C2_witness :
  snd (get_address_suggestions "key" (world_with (Ok one_candidate) "")
         "MIT, USA") = JStr "77 Massachusetts Ave" /\
  snd (get_address_suggestions "key" offline "MIT, USA")
  = JStr "Request error: Connection refused" /\
  exists processed_df unprocessed_df,
    result (main "key" offline) = Finished processed_df unprocessed_df /\
    rows processed_df =
    [(0, [Cell (Str "MIT"); Cell (Str "USA"); Cell (Str "NE");
          Obj (JStr "Request error: Connection refused")])].
Proof.
  split; [|split].
  - apply (proj1 (C2_suggestion_cases "key" (world_with (Ok one_candidate) "")
                    "MIT, USA")) with
      (r := ok_response one_candidate) (data := one_candidate);
      reflexivity.
  - apply (proj1 (proj2 (proj2 (C2_suggestion_cases "key" offline "MIT, USA"))))
      with (e := mkExn RequestException "Connection refused"); reflexivity.
  - exact (proj2 (proj2 (proj2 (proj2
             (C2_suggestion_cases "key" offline "MIT, USA"))))
             (fst institutes) [Str "MIT"; Str "USA"; Str "NE"]
             (tl (snd institutes)) (Str "MIT") (Str "USA")
             eq_refl eq_refl eq_refl eq_refl).
Defined.

(** C9.  Take a run that ends normally, and a world with the same sheet and
    the same answers of the web service in which writing the processed rows
    fails.  There the run ends normally too, with the same two frames in
    memory; the failure is logged as an error, and the next thing the run
    does is the second save block, which hands the unprocessed rows to the
    file writer. *)
Theorem C9_save_failure_not_fatal (api_key : string) (w0 w : world)
    (processed_df : DataFrame pyobj) (unprocessed_df : DataFrame cell)
    (e : exn) :
  result (main api_key w0) = Finished processed_df unprocessed_df ->
  read_excel w file_path = read_excel w0 file_path ->
  (forall u p, requests_get w u p = requests_get w0 u p) ->
  to_excel w (autocomplete_file_path w) processed_df = Some e ->
  result (main api_key w) = Finished processed_df unprocessed_df /\
  exists before after,
    trace (main api_key w) =
    before ++
    [ToExcel (autocomplete_file_path w) processed_df (Some e);
     Log ERROR ("Error saving Excel file: " +++ message e);
     Log INFO ("Saving unprocessed rows to: " +++ unprocessed_file_path w);
     ToExcel (unprocessed_file_path w) (map_cells Cell unprocessed_df)
       (to_excel w (unprocessed_file_path w)
          (map_cells Cell unprocessed_df))]
    ++ after.
Proof.
  intros Hres0 Hr Hg Hfail.
  assert (Hres : result (main api_key w)
                 = Finished processed_df unprocessed_df)
    by (now rewrite (result_same api_key w0 w Hr Hg)).
  split; [exact Hres|].
  destruct (main_trace api_key w _ _ Hres) as [before Ht].
  rewrite Ht. unfold save_processed, save_unprocessed. rewrite Hfail.
  exists (before ++
          [Log INFO ("Saving file with address suggestions to: "
                     +++ autocomplete_file_path w)]).
  eexists. rewrite <- !app_assoc. cbn [app]. reflexivity.
Qed.

Lemma C9_witness :
  result (main "key" (world_with (Ok one_candidate) processed_path))
  = Finished institutes_processed institutes_unprocessed /\
  exists before after,
    trace (main "key" (world_with (Ok one_candidate) processed_path)) =
    before ++
    [ToExcel processed_path institutes_processed
       (Some (mkExn OtherException "Permission denied"));
     Log ERROR "Error saving Excel file: Permission denied";
     Log INFO ("Saving unprocessed rows to: "
               +++ output_dir +++ "/" +++ "unprocessed_rows.xlsx");
     ToExcel (output_dir +++ "/" +++ "unprocessed_rows.xlsx")
       (map_cells Cell institutes_unprocessed) None]
    ++ after.
Proof.
  apply (C9_save_failure_not_fatal "key"
           (world_with (Ok one_candidate) "")
           (world_with (Ok one_candidate) processed_path)
           institutes_processed institutes_unprocessed
           (mkExn OtherException "Permission denied")).
  - vm_compute. reflexivity.
  - reflexivity.
  - reflexivity.
  - vm_compute. reflexivity.
Defined.

(** C10, as stated, fails: in [{"features": [{"properties": null}]}] the
    first element has no [properties] object and no [formatted] key, and the
    function returns an error text, not ["No suggestion"]. *)
Lemma C10_counterexample :
  lookup "features" [("features", JArr [JObj [("properties", JNull)]])]
  = Some (JArr [JObj [("properties", JNull)]]) /\
  lacks_properties_or_formatted (JObj [("properties", JNull)]) = true /\
  snd (get_address_suggestions "key" (world_with (Ok null_properties) "")
         "MIT, USA")
  = JStr "Error: 'NoneType' object has no attribute 'get'" /\
  snd (get_address_suggestions "key" (world_with (Ok null_properties) "")
         "MIT, USA")
  <> JStr "No suggestion".
Proof.
  repeat split; try reflexivity. vm_compute. discriminate.
Qed.

(** C10, amended.  When the list of candidates is not empty and its first
    element is an object without a [properties] member, or with a
    [properties] member that is an object without a [formatted] key, the
    function returns ["No suggestion"], as it does for an empty list.  A
    first element that is not an object, and a [properties] member that is
    not an object, give an ["Error: "] text instead. *)
Theorem C10_missing_key_default (api_key : string) (w : world)
    (address : string) (r : response) (fields : list (string * json))
    (first : json) (others : list json) :
  requests_get w autocomplete_endpoint [("text", address); ("apiKey", api_key)]
  = Ok r ->
  raise_for_status r = Ok tt ->
  body r = Ok (JObj fields) ->
  lookup "features" fields = Some (JArr (first :: others)) ->
  let suggestion := snd (get_address_suggestions api_key w address) in
  (forall members,
     first = JObj members ->
     lookup "properties" members = None \/
     (exists properties,
        lookup "properties" members = Some (JObj properties) /\
        lookup "formatted" properties = None) ->
     suggestion = JStr "No suggestion") /\
  ((forall members, first <> JObj members) ->
   suggestion =
   JStr ("Error: '" +++ type_name first +++ "' object has no attribute 'get'")) /\
  (forall members properties,
     first = JObj members ->
     lookup "properties" members = Some properties ->
     (forall inner, properties <> JObj inner) ->
     suggestion =
     JStr ("Error: '" +++ type_name properties
           +++ "' object has no attribute 'get'")).
Proof.
  intros Ha Hs Hb Hf. cbv zeta.
  unfold get_address_suggestions, lookup_suggestion.
  rewrite Ha. cbn [bind]. rewrite Hs. cbn [bind]. rewrite Hb.
  cbn [bind py_get]. rewrite Hf. cbn [bind truthy py_index0].
  split; [|split].
  - intros members -> [Hp | [properties [Hp Hfm]]]; cbn [py_get]; rewrite Hp;
      cbn [bind py_get lookup]; [reflexivity|]. now rewrite Hfm.
  - intros Hno. destruct first; try reflexivity.
    exfalso. eapply Hno. reflexivity.
  - intros members properties -> Hp Hno. cbn [py_get]. rewrite Hp.
    cbn [bind]. destruct properties; try reflexivity.
    exfalso. eapply Hno. reflexivity.
Qed.

Lemma C10_witness :
  snd (get_address_suggestions "key"
         (world_with (Ok (JObj [("features", JArr [JObj []])])) "")
         "MIT, USA")
  = JStr "No suggestion".
Proof.
  apply (proj1 (C10_missing_key_default "key"
                  (world_with (Ok (JObj [("features", JArr [JObj []])])) "")
                  "MIT, USA"
                  (ok_response (JObj [("features", JArr [JObj []])]))
                  [("features", JArr [JObj []])] (JObj []) []
                  eq_refl eq_refl eq_refl eq_refl)) with (members := []).
  - reflexivity.
  - left. reflexivity.
Defined.

(** * Further properties of the code *)

(** ** The Cleaner: failures *)

Lemma forallb_first_missing (cols names : list string) :
  forallb (has_column cols) names = true <->
  first_missing cols names = None.
Proof.
  unfold first_missing. induction names as [|n t IH]; simpl; [tauto|].
  destruct (has_column cols n); simpl; [exact IH|].
  split; discriminate.
Qed.

Lemma first_missing_spec (cols names : list string) (n : string) :
  first_missing cols names = Some n -> In n names /\ ~ In n cols.
Proof.
  unfold first_missing. intros H. apply find_some in H.
  destruct H as [Hin Hn]. split; [exact Hin|].
  apply column_pos_In. unfold has_column in Hn.
  now destruct (column_pos n cols).
Qed.

(** X1.  On a frame with one cell per column in every row, the Cleaner
    function exits without a frame exactly when the frame has no rows (the
    filter then drops every column) or one of [Country Name], [Region],
    [Education Institute] and [Field of Study] is not a column. *)
Theorem cleaner_fails_iff_source_column_missing (df : DataFrame cell) :
  rectangular df ->
  (snd (clean_sort_create_columns df) = None <->
   rows df = [] \/
   exists n, In n source_columns /\ ~ In n (columns df)).
Proof.
  intros Hrect. split.
  - intros Hnone.
    destruct (rows df) as [|x t] eqn:Erows; [now left|]. right.
    destruct (first_missing (columns df) source_columns) as [n|] eqn:E.
    + exists n. now apply first_missing_spec.
    + apply forallb_first_missing in E.
      destruct (clean_total df Hrect) as [out Hout];
        [rewrite Erows; discriminate | exact E | congruence].
  - intros [Hnil | [n [Hin Hn]]]; rewrite clean_unfold.
    + now rewrite Hnil.
    + destruct (rows df); [reflexivity|].
      destruct (forallb (has_column (columns df)) source_columns) eqn:E;
        [|reflexivity].
      exfalso. rewrite forallb_forall in E. specialize (E n Hin).
      unfold has_column in E. apply column_pos_In in Hn. now rewrite Hn in E.
Qed.

Lemma cleaner_fails_iff_source_column_missing_witness :
  snd (clean_sort_create_columns
         (frame_of_sheet (fst incomplete_sheet) (snd incomplete_sheet)))
  = None /\
  snd (clean_sort_create_columns
         (frame_of_sheet (fst sample_sheet) [])) = None.
Proof.
  split.
  - apply (cleaner_fails_iff_source_column_missing
             (frame_of_sheet (fst incomplete_sheet) (snd incomplete_sheet))).
    + repeat constructor.
    + right. exists "Region". split; [simpl; tauto|].
      simpl. intuition discriminate.
  - apply (cleaner_fails_iff_source_column_missing
             (frame_of_sheet (fst sample_sheet) [])).
    + constructor.
    + left. reflexivity.
Defined.

Lemma rectangular_cleaned (df : DataFrame cell) :
  rectangular df ->
  rectangular (fillna placeholder (remove_totals (drop_duplicates df))).
Proof.
  unfold rectangular. cbn [fillna columns rows].
  rewrite !Forall_forall. intros H x Hx.
  apply in_map_iff in Hx. destruct Hx as [k [<- Hk]]. cbn [snd].
  rewrite length_map. rewrite remove_totals_rows in Hk.
  apply filter_In in Hk. destruct Hk as [Hk _].
  rewrite remove_totals_columns.
  - apply (H k). cbn [drop_duplicates rows] in Hk.
    now apply drop_duplicates_from_In in Hk.
  - intros Hnil. rewrite Hnil in Hk. exact Hk.
Qed.

Lemma rectangular_setitem_scalar (name : string) (v : cell)
    (d : DataFrame cell) :
  rectangular d -> rectangular (setitem_scalar name v d).
Proof.
  unfold rectangular, setitem_scalar. cbn [columns rows].
  rewrite !Forall_forall. intros H x Hx.
  apply in_map_iff in Hx. destruct Hx as [k [<- Hk]]. cbn [snd].
  apply row_set_length. now apply H.
Qed.

Lemma assign_from_missing (dst src : string) (d : DataFrame cell) :
  has_column (columns d) src = false ->
  assign_from dst src d = Raise (key_error src).
Proof.
  intros H. unfold assign_from. now rewrite setitem_copy_rows, H.
Qed.

Lemma assign_from_ok (dst src : string) (d : DataFrame cell) :
  rectangular d -> has_column (columns d) src = true ->
  exists d', assign_from dst src d = Ok d' /\ rectangular d' /\
             columns d' = columns_set dst (columns d).
Proof.
  intros Hrect Hc. unfold assign_from. rewrite setitem_copy_rows, Hc.
  destruct (map_opt_total (keep_label (assign_copy (columns d) dst src))
              (rows d)) as [rs Hrs].
  { intros x Hx. unfold keep_label, assign_copy.
    destruct (row_get_some (columns d) src (snd x)
                (rectangular_In d x Hrect Hx) Hc) as [v ->].
    cbn. eauto. }
  rewrite Hrs. cbn [option_map]. eexists. split; [reflexivity|].
  split; [|reflexivity].
  unfold rectangular. cbn [columns rows]. apply map_opt_Forall2 in Hrs.
  unfold rectangular in Hrect.
  induction Hrs as [|x y t t' Hxy _ IH]; constructor.
  - inversion Hrect as [|? ? Hx _]; subst.
    unfold keep_label, assign_copy in Hxy.
    destruct (row_get (columns d) src (snd x)) as [v|]; cbn in Hxy;
      inversion Hxy; subst. cbn [snd]. now apply row_set_length.
  - apply IH. now inversion Hrect.
Qed.

Lemma create_columns_missing (d : DataFrame cell) (n : string) :
  rectangular d ->
  first_missing (columns d) source_columns = Some n ->
  create_columns d = Raise (key_error n).
Proof.
  intros Hrect Hn. unfold create_columns. cbv zeta.
  pose proof (rectangular_setitem_scalar "continent" placeholder d Hrect)
    as Hr0.
  assert (Hc0 : columns (setitem_scalar "continent" placeholder d)
                = columns_set "continent" (columns d)) by reflexivity.
  revert Hn. unfold first_missing, source_columns. cbn [find].
  destruct (has_column (columns d) "Country Name") eqn:E1; cbn [negb].
  2:{ intros H; inversion H; subst.
      rewrite assign_from_missing; [reflexivity|].
      now rewrite Hc0, has_column_set_other by discriminate. }
  destruct (assign_from_ok "country" "Country Name" _ Hr0) as [d1 [-> [Hr1 Hc1]]].
  { now rewrite Hc0, has_column_set_other by discriminate. }
  cbn [bind].
  destruct (has_column (columns d) "Region") eqn:E2; cbn [negb].
  2:{ intros H; inversion H; subst.
      rewrite assign_from_missing; [reflexivity|].
      now rewrite Hc1, Hc0, !has_column_set_other by discriminate. }
  destruct (assign_from_ok "region" "Region" _ Hr1) as [d2 [-> [Hr2 Hc2]]].
  { now rewrite Hc1, Hc0, !has_column_set_other by discriminate. }
  cbn [bind].
  pose proof (rectangular_setitem_scalar "state" placeholder d2 Hr2) as Hr3.
  assert (Hc3 : columns (setitem_scalar "state" placeholder d2)
                = columns_set "state" (columns d2)) by reflexivity.
  destruct (has_column (columns d) "Education Institute") eqn:E3; cbn [negb].
  2:{ intros H; inversion H; subst.
      rewrite assign_from_missing; [reflexivity|].
      now rewrite Hc3, Hc2, Hc1, Hc0, !has_column_set_other by discriminate. }
  destruct (assign_from_ok "education institution" "Education Institute" _ Hr3)
    as [d4 [-> [Hr4 Hc4]]].
  { now rewrite Hc3, Hc2, Hc1, Hc0, !has_column_set_other by discriminate. }
  cbn [bind].
  destruct (has_column (columns d) "Field of Study") eqn:E4; cbn [negb];
    [discriminate|].
  intros H; inversion H; subst.
  apply assign_from_missing.
  now rewrite Hc4, Hc3, Hc2, Hc1, Hc0, !has_column_set_other by discriminate.
Qed.

(** The logged function returns what [clean_sort_create_columns] returns. *)
Lemma logged_agrees (df : DataFrame cell) :
  snd (clean_sort_create_columns_logged df)
  = snd (clean_sort_create_columns df).
Proof.
  unfold clean_sort_create_columns_logged, transform_steps, create_columns,
    assign_from, clean_sort_create_columns. cbv zeta. cbn [snd].
  destruct (setitem_copy "country" "Country Name" _) as [d1|]; cbn;
    [|reflexivity].
  destruct (setitem_copy "region" "Region" _) as [d2|]; cbn; [|reflexivity].
  destruct (setitem_copy "education institution" "Education Institute" _)
    as [d3|]; cbn; [|reflexivity].
  destruct (setitem_copy "field of study" "Field of Study" _) as [d4|]; cbn;
    [|reflexivity].
  now destruct (sort_values sort_columns d4).
Qed.

(** X2.  When the function fails, the first three steps have run and are
    logged, and one error record follows.  On a frame with rows it names the
    first missing column in the order the columns are read: [Country Name],
    [Region], [Education Institute], [Field of Study].  On a frame without
    rows it names [Country Name], whatever the labels of the frame: the
    filter has dropped them all. *)
Theorem cleaner_error_names_first_missing_column (df : DataFrame cell) :
  rectangular df ->
  (forall n,
     rows df <> [] ->
     first_missing (columns df) source_columns = Some n ->
     clean_sort_create_columns_logged df =
     ([Log INFO "Duplicates removed.";
       Log INFO "Rows with totals removed.";
       Log INFO "Missing values filled with 'Unknown'.";
       Log ERROR ("Error during data cleaning and sorting: '" +++ n +++ "'")],
      None)) /\
  (rows df = [] ->
   clean_sort_create_columns_logged df =
   ([Log INFO "Duplicates removed.";
     Log INFO "Rows with totals removed.";
     Log INFO "Missing values filled with 'Unknown'.";
     Log ERROR "Error during data cleaning and sorting: 'Country Name'"],
    None)).
Proof.
  intros Hrect. split.
  - intros n Hrows Hn.
    unfold clean_sort_create_columns_logged, transform_steps. cbv zeta.
    rewrite (create_columns_missing _ n (rectangular_cleaned df Hrect));
      [reflexivity|].
    cbn [fillna columns]. rewrite remove_totals_columns; [exact Hn|].
    intros Hd. apply (proj1 (drop_duplicates_rows_nil df)) in Hd. congruence.
  - intros Hnil.
    unfold clean_sort_create_columns_logged, transform_steps. cbv zeta.
    assert (Hd : rows (drop_duplicates df) = [])
      by now apply drop_duplicates_rows_nil.
    unfold remove_totals. rewrite Hd. reflexivity.
Qed.

Lemma cleaner_error_names_first_missing_column_witness :
  clean_sort_create_columns_logged
    (frame_of_sheet ["Education Institute"; "Country Name"; "Field of Study"]
                    [[Str "MIT"; Str "USA"; Str "CS"]]) =
  ([Log INFO "Duplicates removed.";
    Log INFO "Rows with totals removed.";
    Log INFO "Missing values filled with 'Unknown'.";
    Log ERROR "Error during data cleaning and sorting: 'Region'"],
   None) /\
  clean_sort_create_columns_logged
    (frame_of_sheet ["Education Institute"; "Country Name"; "Field of Study"]
                    []) =
  ([Log INFO "Duplicates removed.";
    Log INFO "Rows with totals removed.";
    Log INFO "Missing values filled with 'Unknown'.";
    Log ERROR "Error during data cleaning and sorting: 'Country Name'"],
   None).
Proof.
  split.
  - apply (proj1 (cleaner_error_names_first_missing_column
                    (frame_of_sheet
                       ["Education Institute"; "Country Name"; "Field of Study"]
                       [[Str "MIT"; Str "USA"; Str "CS"]])
                    ltac:(repeat constructor)) "Region").
    + discriminate.
    + reflexivity.
  - apply (proj2 (cleaner_error_names_first_missing_column
                    (frame_of_sheet
                       ["Education Institute"; "Country Name"; "Field of Study"]
                       [])
                    ltac:(constructor))).
    reflexivity.
Defined.

(** ** The Cleaner: what the returned frame is made of *)

Lemma cell_at_member (cols : list string) (n : string) (r : list cell) :
  List.length r = List.length cols -> has_column cols n = true ->
  In (cell_at cols n r) r.
Proof.
  intros Hlen Hc. destruct (row_get_some cols n r Hlen Hc) as [v E].
  unfold cell_at. rewrite E. unfold row_get in E.
  destruct (column_pos n cols); [|discriminate].
  eapply nth_error_In. exact E.
Qed.

Lemma output_row_members (c0 : list string) (r : list cell) (c : cell) :
  List.length r = List.length c0 ->
  forallb (has_column c0) source_columns = true ->
  In c (output_row c0 r) ->
  c = placeholder \/ In c (map (fill_cell placeholder) r).
Proof.
  intros Hlen Hcols. unfold source_columns in Hcols. cbn [forallb] in Hcols.
  repeat rewrite andb_true_iff in Hcols.
  destruct Hcols as [H1 [H2 [H3 [H4 _]]]].
  assert (Hf : List.length (map (fill_cell placeholder) r) = List.length c0)
    by now rewrite length_map.
  unfold output_row, extend_row. cbv zeta. intros H.
  repeat (apply In_row_set in H; destruct H as [->|H]);
    try (now left); try (right; now apply cell_at_member).
  now right.
Qed.

(** X3.  No cell of the returned frame is blank: the blanks of the input
    are filled and the derived columns only hold filled values or the
    placeholder. *)
Theorem cleaner_output_has_no_blank (df out : DataFrame cell) :
  well_formed df ->
  snd (clean_sort_create_columns df) = Some out ->
  forall o c, In o (rows out) -> In c (snd o) -> c <> NaN.
Proof.
  intros Hwf Hout o c Ho Hc.
  destruct (output_row_origin df out o Hwf Hout Ho) as [r [Hr [_ Ho']]].
  pose proof (clean_spec df out Hout) as [Hcols _].
  rewrite Ho' in Hc.
  apply output_row_members in Hc;
    [|exact (rectangular_In df _ (proj1 Hwf) Hr) | exact Hcols].
  destruct Hc as [->|Hc]; [discriminate|].
  apply in_map_iff in Hc. destruct Hc as [c' [<- _]].
  destruct c'; discriminate.
Qed.

Lemma cleaner_output_has_no_blank_witness :
  nth 2 (snd (sample_out_row 2)) NaN <> NaN.
Proof.
  apply (cleaner_output_has_no_blank sample sample_out) with
    (o := sample_out_row 2).
  - apply frame_of_sheet_well_formed. repeat constructor.
  - vm_compute. reflexivity.
  - simpl. tauto.
  - simpl. tauto.
Defined.

Lemma drop_duplicates_from_length (seen : list (list cell))
    (l : list (Z * list cell)) :
  (List.length (drop_duplicates_from seen l) <= List.length l)%nat.
Proof.
  revert seen; induction l as [|x t IH]; intros seen; simpl; [lia|].
  destruct (existsb (row_eqb (snd x)) seen); simpl.
  - specialize (IH seen). lia.
  - specialize (IH (snd x :: seen)). lia.
Qed.

(** X4.  The Cleaner only selects and rewrites rows: every row of the
    returned frame is the filled and extended version of the input row with
    the same index label, no index label occurs twice, and there are never
    more rows than in the input. *)
Theorem cleaner_rows_come_from_input (df out : DataFrame cell) :
  well_formed df ->
  snd (clean_sort_create_columns df) = Some out ->
  NoDup (map fst (rows out)) /\
  (List.length (rows out) <= List.length (rows df))%nat /\
  forall o, In o (rows out) ->
    exists r, In (fst o, r) (rows df) /\
              snd o = output_row (columns df) r.
Proof.
  intros Hwf Hout.
  pose proof (clean_labels df out Hout) as Hlab.
  split; [|split].
  - apply (Permutation_NoDup (Permutation_sym Hlab)).
    apply kept_rows_NoDup. exact (proj2 Hwf).
  - apply Permutation_length in Hlab. rewrite !length_map in Hlab.
    rewrite Hlab. unfold kept_rows.
    etransitivity; [apply filter_length_le|].
    apply drop_duplicates_from_length.
  - intros o Ho.
    destruct (output_row_origin df out o Hwf Hout Ho) as [r [Hr [_ Ho']]].
    eauto.
Qed.

Lemma cleaner_rows_come_from_input_witness :
  NoDup (map fst (rows sample_out)) /\
  (List.length (rows sample_out) <= List.length (rows sample))%nat.
Proof.
  destruct (cleaner_rows_come_from_input sample sample_out) as [H1 [H2 _]].
  - apply frame_of_sheet_well_formed. repeat constructor.
  - vm_compute. reflexivity.
  - split; assumption.
Defined.

(** X5.  The labels of the returned frame are the input labels followed by
    those derived labels the input does not have, in the order of
    assignment; a derived label that is already a column is overwritten
    where it stands and not added a second time. *)
Theorem cleaner_never_duplicates_a_label (df out : DataFrame cell) :
  snd (clean_sort_create_columns df) = Some out ->
  columns out =
  columns df ++
  filter (fun n => negb (has_column (columns df) n)) derived_columns.
Proof.
  intros Hout. apply clean_spec in Hout. destruct Hout as [_ [Hc _]].
  rewrite Hc. rewrite <- assign_labels.
  - reflexivity.
  - unfold derived_columns.
    repeat (constructor; [simpl; intuition discriminate|]). constructor.
Qed.

Lemma cleaner_never_duplicates_a_label_witness :
  columns tagged_out =
  columns tagged ++
  ["continent"; "country"; "region"; "education institution";
   "field of study"].
Proof.
  apply (cleaner_never_duplicates_a_label tagged tagged_out).
  vm_compute. reflexivity.
Defined.

(** ** The Cleaner: ties *)

Section Stability.
Context {A : Type} (key : A -> list cell).

Lemma key_leb_false_neq (a b : list cell) : key_leb a b = false -> a <> b.
Proof.
  intros H ->. now rewrite key_leb_refl in H.
Qed.

(** Inserting [x] never moves it behind an element with the same key. *)
Lemma insert_by_filter (x : A) (l : list A) (k : list cell) :
  filter (fun y => row_eqb (key y) k) (insert_by key x l) =
  filter (fun y => row_eqb (key y) k) (x :: l).
Proof.
  induction l as [|y t IH]; [reflexivity|].
  cbn [insert_by]. destruct (key_leb (key x) (key y)) eqn:E; [reflexivity|].
  cbn [filter] in *. rewrite IH.
  destruct (row_eqb (key x) k) eqn:Ex; [|reflexivity].
  destruct (row_eqb (key y) k) eqn:Ey; [|reflexivity].
  apply row_eqb_eq in Ex, Ey. apply key_leb_false_neq in E. congruence.
Qed.

(** The elements with a given key keep their order. *)
Lemma stable_sort_filter (l : list A) (k : list cell) :
  filter (fun y => row_eqb (key y) k) (stable_sort key l) =
  filter (fun y => row_eqb (key y) k) l.
Proof.
  induction l as [|x t IH]; [reflexivity|].
  cbn [stable_sort]. rewrite insert_by_filter. cbn [filter].
  now rewrite IH.
Qed.

End Stability.

Lemma filter_map_swap {A B : Type} (f : A -> B) (p : B -> bool)
    (l : list A) :
  filter p (map f l) = map f (filter (fun x => p (f x)) l).
Proof.
  induction l as [|x t IH]; simpl; [reflexivity|].
  destruct (p (f x)); simpl; now rewrite IH.
Qed.

Lemma sort_values_keyed (by_ : list string) (d out : DataFrame cell) :
  sort_values by_ d = Some out ->
  exists keyed,
    map snd keyed = rows d /\
    Forall (fun kr => sort_key (columns d) by_ (snd (snd kr)) = Some (fst kr))
           keyed /\
    out = mkDF (columns d) (map snd (stable_sort fst keyed)).
Proof.
  unfold sort_values.
  destruct (map_opt _ (rows d)) as [keyed|] eqn:E; [|discriminate].
  intros H. inversion H; subst; clear H. exists keyed.
  apply map_opt_Forall2 in E.
  split; [|split; [|reflexivity]].
  - induction E as [|r kr rs krs Hr _ IH]; simpl; [reflexivity|].
    rewrite IH. destruct (sort_key (columns d) by_ (snd r)); simpl in Hr;
      inversion Hr; reflexivity.
  - induction E as [|r kr rs krs Hr _ IH]; constructor; [|exact IH].
    destruct (sort_key (columns d) by_ (snd r)) eqn:Ek; simpl in Hr;
      inversion Hr; subst; exact Ek.
Qed.

(** X6.  Rows with equal sort keys stay in the order of the input: for
    every key, the rows of the returned frame that have it are the kept
    input rows that have it, in input order. *)
Theorem cleaner_ties_keep_input_order (df out : DataFrame cell) :
  well_formed df ->
  snd (clean_sort_create_columns df) = Some out ->
  forall k,
    filter (has_key (columns out) k) (rows out) =
    filter (has_key (columns out) k)
      (map (fun r => (fst r, output_row (columns df) (snd r)))
           (kept_rows df)).
Proof.
  intros [Hrect _] Hout k.
  rewrite (clean_unfold_rows df (clean_some_rows df out Hout)) in Hout.
  destruct (forallb (has_column (columns df)) source_columns) eqn:Hcols;
    [|discriminate].
  rewrite (derive_kept_rows df Hrect Hcols) in Hout. cbn [bind_opt] in Hout.
  apply sort_values_keyed in Hout. cbn [columns rows] in Hout.
  destruct Hout as [keyed [Hsnd [Hkey ->]]]. cbn [columns rows].
  rewrite <- Hsnd, !filter_map_swap. f_equal.
  assert (Hext : forall l, Forall (fun kr =>
             sort_key (derive_columns (columns df)) sort_columns (snd (snd kr))
             = Some (fst kr)) l ->
           filter (fun kr => has_key (derive_columns (columns df)) k (snd kr)) l
           = filter (fun kr => row_eqb (fst kr) k) l).
  { intros l Hl. apply filter_ext_in. intros kr Hkr.
    rewrite Forall_forall in Hl. unfold has_key. now rewrite (Hl kr Hkr). }
  rewrite (Hext keyed Hkey).
  rewrite (Hext (stable_sort fst keyed)).
  - apply stable_sort_filter.
  - apply (Permutation_Forall (Permutation_sym (stable_sort_perm fst keyed))).
    exact Hkey.
Qed.

Lemma cleaner_ties_keep_input_order_witness :
  map fst
    (filter (has_key (columns tagged_out)
               [Str "Unknown"; Str "USA"; Str "NE"; Str "Unknown"; Str "MIT";
                Str "CS"]) (rows tagged_out)) = [0; 2].
Proof.
  rewrite (cleaner_ties_keep_input_order tagged tagged_out).
  - reflexivity.
  - apply frame_of_sheet_well_formed. repeat constructor.
  - vm_compute. reflexivity.
Defined.

(** ** The Cleaner script *)

Lemma writes_app (a b : list event) : writes (a ++ b) = writes a ++ writes b.
Proof.
  induction a as [|ev t IH]; simpl; [reflexivity|].
  destruct ev; simpl; now rewrite IH.
Qed.

Lemma errors_app (a b : list event) : errors (a ++ b) = errors a ++ errors b.
Proof.
  induction a as [|ev t IH]; simpl; [reflexivity|].
  destruct ev as [[|] msg| |]; simpl; now rewrite IH.
Qed.

Lemma sleeps_app (a b : list event) : sleeps (a ++ b) = sleeps a ++ sleeps b.
Proof.
  induction a as [|ev t IH]; simpl; [reflexivity|].
  destruct ev; simpl; now rewrite IH.
Qed.

(** The records of the function: no write, and one error record exactly
    when no frame is returned. *)
Lemma logged_records (df : DataFrame cell) :
  writes (fst (clean_sort_create_columns_logged df)) = [] /\
  match snd (clean_sort_create_columns_logged df) with
  | Some _ => errors (fst (clean_sort_create_columns_logged df)) = []
  | None => exists msg,
      errors (fst (clean_sort_create_columns_logged df)) = [msg]
  end.
Proof.
  unfold clean_sort_create_columns_logged, transform_steps. cbv zeta.
  destruct (create_columns _) as [d|e]; cbn [fst snd].
  - destruct (sort_values sort_columns d); cbn [fst snd].
    + split; reflexivity.
    + split; [reflexivity|]. eexists. reflexivity.
  - split; [reflexivity|]. eexists. reflexivity.
Qed.

(** X7.  The Cleaner script writes at most one file, only after the sheet
    was loaded and the function returned a frame, and the file holds
    exactly that frame; after a load failure or a failed transform nothing
    is written. *)
Theorem cleaner_script_writes_only_the_result (w : world)
    (directory : string) :
  writes (cleaner_trace (cleaner_main w directory)) =
  match read_excel w excel_file with
  | Raise _ => []
  | Ok sheet =>
      match snd (clean_sort_create_columns
                   (frame_of_sheet (fst sheet) (snd sheet))) with
      | Some cleaned_df =>
          [(output_file w directory, map_cells Cell cleaned_df)]
      | None => []
      end
  end.
Proof.
  unfold cleaner_main.
  destruct (read_excel w excel_file) as [sheet|e]; [|reflexivity].
  cbv zeta. rewrite <- logged_agrees.
  pose proof (logged_records (frame_of_sheet (fst sheet) (snd sheet)))
    as [Hw _].
  destruct (clean_sort_create_columns_logged _) as [t1 [cleaned_df|]];
    cbn [fst snd] in *.
  - destruct (to_excel w _ _); cbn [cleaner_trace];
      rewrite !writes_app, Hw; reflexivity.
  - cbn [cleaner_trace]. now rewrite writes_app, Hw.
Qed.

(** X8.  A run of the Cleaner script that ends with the file saved logs no
    error record; every other run (load failure, failed transform, failed
    save) logs exactly one. *)
Theorem cleaner_script_one_error_unless_saved (w : world)
    (directory : string) :
  match cleaner_result (cleaner_main w directory) with
  | Saved _ => errors (cleaner_trace (cleaner_main w directory)) = []
  | _ => exists msg,
      errors (cleaner_trace (cleaner_main w directory)) = [msg]
  end.
Proof.
  unfold cleaner_main.
  destruct (read_excel w excel_file) as [sheet|e];
    [|cbn; eexists; reflexivity].
  cbv zeta.
  pose proof (logged_records (frame_of_sheet (fst sheet) (snd sheet)))
    as [_ He].
  destruct (clean_sort_create_columns_logged _) as [t1 [cleaned_df|]];
    cbn [fst snd] in *.
  - destruct (to_excel w _ _) as [e|]; cbn [cleaner_trace cleaner_result];
      rewrite !errors_app, He; cbn; [eexists|]; reflexivity.
  - cbn [cleaner_trace cleaner_result]. destruct He as [msg He].
    rewrite errors_app, He. cbn. eexists. reflexivity.
Qed.

(** ** The Annotator: the records of a run *)

Section AnnotatorRuns.
Variable api_key : string.
Variable w : world.

Lemma lookup_records (address : string) :
  writes (fst (get_address_suggestions api_key w address)) = [] /\
  sleeps (fst (get_address_suggestions api_key w address)) = [].
Proof.
  unfold get_address_suggestions.
  destruct (lookup_suggestion api_key w address) as [v|e]; [now split|].
  destruct (kind e); now split.
Qed.

Lemma loop_body_invariant (cols : list string) (st st' : loop_state)
    (item : Z * list cell) :
  loop_invariant st ->
  loop_body api_key w cols st item = Ok st' ->
  loop_invariant st'.
Proof.
  intros [Hw Hs]. unfold loop_body.
  destruct (1 <=? fst item).
  - intros H. inversion H; subst. now split.
  - destruct (row_item cols "Education Institute" (snd item)); cbn [bind];
      [|discriminate].
    destruct (row_item cols "Country Name" (snd item)); cbn [bind];
      [|discriminate].
    pose proof (lookup_records (cell_str a +++ ", " +++ cell_str a0))
      as [Lw Ls].
    destruct (get_address_suggestions api_key w _) as [logged suggestion].
    cbn [fst] in Lw, Ls. intros H. inversion H; subst.
    unfold loop_invariant. cbn [loop_events suggestions].
    rewrite !writes_app, !sleeps_app, Hw, Hs, Lw, Ls, length_app.
    cbn [writes sleeps List.length app].
    split; [reflexivity|].
    rewrite repeat_app. reflexivity.
Qed.

Lemma for_each_invariant (cols : list string) (items : list (Z * list cell))
    (st st' : loop_state) :
  loop_invariant st ->
  for_each api_key w cols st items = Ok st' ->
  loop_invariant st'.
Proof.
  revert st; induction items as [|item rest IH]; intros st Hinv; simpl.
  - intros H. inversion H; now subst.
  - destruct (loop_body api_key w cols st item) as [st1|e] eqn:E;
      cbn [bind]; [|discriminate].
    apply IH. eapply loop_body_invariant; eassumption.
Qed.

Lemma zip_set_length {V : Type} (cols : list string) (name : string)
    (rs rs' : list (Z * list V)) (vs : list V) :
  zip_set cols name rs vs = Some rs' ->
  List.length rs' = List.length vs.
Proof.
  revert vs rs'; induction rs as [|r t IH]; intros [|v vs] rs'; simpl;
    try discriminate.
  - intros H. now inversion H.
  - destruct (zip_set cols name t vs) as [l|] eqn:E; simpl; [|discriminate].
    intros H. inversion H; subst. simpl. f_equal. now apply (IH vs).
Qed.

Lemma zip_set_total {V : Type} (cols : list string) (name : string)
    (rs : list (Z * list V)) (vs : list V) :
  List.length rs = List.length vs ->
  exists rs', zip_set cols name rs vs = Some rs'.
Proof.
  revert vs; induction rs as [|r t IH]; intros [|v vs]; simpl;
    try discriminate; [eauto|].
  intros H. destruct (IH vs) as [l ->]; [lia|]. simpl. eauto.
Qed.

(** The loop on a loaded sheet: only the first row is looked up, the others
    are set aside in order. *)
Lemma loop_on_sheet (cols : list string) (body_rows : list (list cell))
    (st : loop_state) :
  for_each api_key w cols (mkLoop [] [] []) (range_index 0 body_rows) = Ok st ->
  List.length (suggestions st) = List.length (firstn 1 body_rows) /\
  unprocessed_rows st = range_index 1 (tl body_rows).
Proof.
  destruct body_rows as [|row rest]; cbn [range_index for_each].
  - intros H. inversion H. now split.
  - unfold loop_body at 1. cbn [fst snd Z.leb Z.compare].
    destruct (row_item cols "Education Institute" row); cbn [bind];
      [|discriminate].
    destruct (row_item cols "Country Name" row); cbn [bind]; [|discriminate].
    destruct (get_address_suggestions api_key w _) as [logged suggestion].
    cbn [bind]. rewrite for_each_rest by lia.
    intros H. inversion H. now split.
Qed.

Lemma writes_save_processed (p : DataFrame pyobj) :
  writes (save_processed w p) = [(autocomplete_file_path w, p)] /\
  sleeps (save_processed w p) = [].
Proof.
  unfold save_processed. cbv zeta. now destruct (to_excel w _ p).
Qed.

Lemma writes_save_unprocessed (u : DataFrame cell) :
  writes (save_unprocessed w u)
  = [(unprocessed_file_path w, map_cells Cell u)] /\
  sleeps (save_unprocessed w u) = [].
Proof.
  unfold save_unprocessed. cbv zeta. now destruct (to_excel w _ _).
Qed.

(** On a loaded sheet the list of suggestions always has the length of the
    processed frame: the assignment of the new column cannot fail. *)
Lemma processed_assignment (sheet : list string * list (list cell))
    (st : loop_state) :
  for_each api_key w (fst sheet) (mkLoop [] [] [])
    (range_index 0 (snd sheet)) = Ok st ->
  exists p,
    setitem_list "Address Suggestions" (map Obj (suggestions st))
      (map_cells Cell (iloc_head 1 (frame_of_sheet (fst sheet) (snd sheet))))
    = Some p /\
    List.length (rows p) = List.length (suggestions st).
Proof.
  intros H. apply loop_on_sheet in H. destruct H as [Hlen _].
  unfold setitem_list, map_cells, iloc_head, frame_of_sheet.
  cbn [columns rows].
  destruct (zip_set_total (fst sheet) "Address Suggestions"
              (map (fun r => (fst r, map Cell (snd r)))
                   (firstn 1 (range_index 0 (snd sheet))))
              (map Obj (suggestions st))) as [rs Hrs].
  { rewrite !length_map, Hlen.
    destruct (snd sheet) as [|row [|row' rest]]; reflexivity. }
  rewrite Hrs. cbn [option_map]. eexists. split; [reflexivity|].
  cbn [rows]. apply zip_set_length in Hrs. now rewrite length_map in Hrs.
Qed.

(** X9.  A run of the Annotator that ends normally has tried to write
    exactly two files, the processed rows first and the unprocessed rows
    second, each with the frame that is in memory at the end, whatever the
    writes did; a run that exits or crashes has written nothing. *)
Theorem annotator_writes_two_files_or_none :
  writes (trace (main api_key w)) =
  match result (main api_key w) with
  | Finished processed_df unprocessed_df =>
      [(autocomplete_file_path w, processed_df);
       (unprocessed_file_path w, map_cells Cell unprocessed_df)]
  | _ => []
  end.
Proof.
  unfold main.
  destruct (read_excel w file_path) as [sheet|e]; [|reflexivity].
  cbv zeta.
  destruct (for_each api_key w _ _ _) as [st|e] eqn:E; [|reflexivity].
  destruct (processed_assignment sheet st E) as [p [Hp _]].
  rewrite Hp.
  apply for_each_invariant in E; [|now split].
  destruct E as [Hw _]. cbn [trace result].
  rewrite !writes_app, Hw.
  rewrite (proj1 (writes_save_processed p)).
  rewrite (proj1 (writes_save_unprocessed _)). reflexivity.
Qed.

(** X10.  The Annotator pauses for one second once per processed row, that
    is once when the sheet has a row and never when it is empty; a run that
    exits or crashes has not paused at all. *)
Theorem annotator_pauses_once_per_processed_row :
  sleeps (trace (main api_key w)) =
  match result (main api_key w) with
  | Finished processed_df _ => repeat 1 (List.length (rows processed_df))
  | _ => []
  end.
Proof.
  unfold main.
  destruct (read_excel w file_path) as [sheet|e]; [|reflexivity].
  cbv zeta.
  destruct (for_each api_key w _ _ _) as [st|e] eqn:E; [|reflexivity].
  destruct (processed_assignment sheet st E) as [p [Hp Hlen]].
  rewrite Hp.
  apply for_each_invariant in E; [|now split].
  destruct E as [_ Hs]. cbn [trace result].
  rewrite !sleeps_app, Hs, Hlen.
  rewrite (proj2 (writes_save_processed p)).
  rewrite (proj2 (writes_save_unprocessed _)).
  cbn. now rewrite !app_nil_r.
Qed.

(** X11.  The unprocessed frame is built from the collected rows alone:
    with two rows or more in the sheet it has the labels of the input, with
    one row or none it has no labels at all.  The processed frame always has
    the labels of the input and [Address Suggestions]. *)
Theorem unprocessed_frame_loses_header_for_short_sheets
    (header : list string) (body_rows : list (list cell))
    (processed_df : DataFrame pyobj) (unprocessed_df : DataFrame cell) :
  read_excel w file_path = Ok (header, body_rows) ->
  result (main api_key w) = Finished processed_df unprocessed_df ->
  columns unprocessed_df =
    (if (List.length body_rows <=? 1)%nat then [] else header) /\
  columns processed_df = columns_set "Address Suggestions" header.
Proof.
  intros Hread. unfold main. rewrite Hread. cbv zeta. cbn [fst snd].
  destruct (for_each api_key w _ _ _) as [st|e] eqn:E; [|discriminate].
  pose proof (loop_on_sheet _ _ _ E) as [_ Hu].
  unfold setitem_list.
  destruct (zip_set _ _ _ _) as [rs|]; cbn [option_map result];
    [|discriminate].
  intros H. inversion H; subst. rewrite Hu. split; [|reflexivity].
  destruct body_rows as [|r [|r' rest]]; reflexivity.
Qed.

(** X12.  When the first row lacks [Education Institute] or, with that one
    present, [Country Name], the run crashes with the [KeyError] of the
    first missing label before anything is looked up or written: the trace
    stops after the three opening records. *)
Theorem annotator_crashes_on_missing_column (header : list string)
    (row : list cell) (rest : list (list cell)) (n : string) :
  read_excel w file_path = Ok (header, row :: rest) ->
  List.length row = List.length header ->
  first_missing header ["Education Institute"; "Country Name"] = Some n ->
  main api_key w =
  mkRun [Log INFO ("Loading Excel file from: " +++ file_path);
         Log INFO "Excel file loaded successfully.";
         Log INFO "Starting address autocomplete suggestions..."]
        (Crashed (key_error n)).
Proof.
  intros Hread Hlen Hn. unfold main. rewrite Hread. cbv zeta.
  cbn [fst snd frame_of_sheet columns rows range_index for_each].
  unfold loop_body at 1. cbn [fst snd Z.leb Z.compare]. unfold row_item.
  revert Hn. unfold first_missing. cbn [find].
  destruct (has_column header "Education Institute") eqn:E1; cbn [negb].
  - destruct (row_get_some header _ row Hlen E1) as [v ->]. cbn [bind].
    destruct (has_column header "Country Name") eqn:E2; cbn [negb];
      [discriminate|].
    intros H; inversion H; subst. unfold has_column in E2. unfold row_get.
    destruct (column_pos "Country Name" header); [discriminate|].
    reflexivity.
  - intros H; inversion H; subst. unfold has_column in E1. unfold row_get.
    destruct (column_pos "Education Institute" header); [discriminate|].
    reflexivity.
Qed.

(** X13.  On an empty sheet the run ends normally without a lookup: the
    processed frame has the labels of the input and [Address Suggestions]
    and no row, the unprocessed frame has neither labels nor rows, and both
    are handed to the file writer. *)
Theorem annotator_on_empty_sheet (header : list string) :
  read_excel w file_path = Ok (header, []) ->
  let processed_df := mkDF (columns_set "Address Suggestions" header) [] in
  let unprocessed_df := mkDF [] [] in
  main api_key w =
  mkRun ([Log INFO ("Loading Excel file from: " +++ file_path);
          Log INFO "Excel file loaded successfully.";
          Log INFO "Starting address autocomplete suggestions..."]
         ++ save_processed w processed_df
         ++ save_unprocessed w unprocessed_df)
        (Finished processed_df unprocessed_df).
Proof.
  intros Hread. cbv zeta. unfold main. rewrite Hread. cbv zeta.
  cbn [fst snd frame_of_sheet columns rows range_index for_each].
  unfold setitem_list, map_cells, iloc_head.
  cbn [suggestions unprocessed_rows loop_events firstn columns rows map
       zip_set option_map frame_of_rows].
  rewrite ?app_nil_r, <- ?app_assoc. reflexivity.
Qed.

(** X14.  When writing the unprocessed rows fails, in a world with the sheet
    and the answers of a run that ends normally, the run still ends
    normally with the same frames, and the failed write and its error
    record are the last two records of the trace. *)
Theorem annotator_unprocessed_save_failure (w0 : world)
    (processed_df : DataFrame pyobj) (unprocessed_df : DataFrame cell)
    (e : exn) :
  result (main api_key w0) = Finished processed_df unprocessed_df ->
  read_excel w file_path = read_excel w0 file_path ->
  (forall u p, requests_get w u p = requests_get w0 u p) ->
  to_excel w (unprocessed_file_path w) (map_cells Cell unprocessed_df)
  = Some e ->
  result (main api_key w) = Finished processed_df unprocessed_df /\
  exists before,
    trace (main api_key w) =
    before ++
    [ToExcel (unprocessed_file_path w) (map_cells Cell unprocessed_df)
       (Some e);
     Log ERROR ("Error saving unprocessed rows: " +++ message e)].
Proof.
  intros Hres0 Hr Hg Hfail.
  assert (Hres : result (main api_key w)
                 = Finished processed_df unprocessed_df)
    by (now rewrite (result_same api_key w0 w Hr Hg)).
  split; [exact Hres|].
  destruct (main_trace api_key w _ _ Hres) as [before Ht].
  rewrite Ht. unfold save_unprocessed. cbv zeta. rewrite Hfail.
  exists (before ++ save_processed w processed_df ++
          [Log INFO ("Saving unprocessed rows to: "
                     +++ unprocessed_file_path w)]).
  rewrite <- !app_assoc. reflexivity.
Qed.

End AnnotatorRuns.

Lemma unprocessed_frame_loses_header_for_short_sheets_witness :
  columns (mkDF (V := cell) [] []) =
    (if (List.length [[Str "MIT"; Str "USA"]] <=? 1)%nat then []
     else ["Education Institute"; "Country Name"]) /\
  columns (mkDF ["Education Institute"; "Country Name"; "Address Suggestions"]
             [(0, [Cell (Str "MIT"); Cell (Str "USA");
                   Obj (JStr "Request error: down")])])
  = columns_set "Address Suggestions" ["Education Institute"; "Country Name"].
Proof.
  apply (unprocessed_frame_loses_header_for_short_sheets "key"
           (world_of (["Education Institute"; "Country Name"],
                      [[Str "MIT"; Str "USA"]])
                     (Raise (mkExn RequestException "down")))
           ["Education Institute"; "Country Name"]
           [[Str "MIT"; Str "USA"]]).
  - reflexivity.
  - vm_compute. reflexivity.
Defined.

Lemma annotator_crashes_on_missing_column_witness :
  result (main "key" (world_of (["Education Institute"; "Region"],
                                [[Str "MIT"; Str "NE"]])
                               (Raise (mkExn RequestException "down"))))
  = Crashed (mkExn OtherException "'Country Name'").
Proof.
  rewrite (annotator_crashes_on_missing_column "key"
             (world_of (["Education Institute"; "Region"],
                        [[Str "MIT"; Str "NE"]])
                       (Raise (mkExn RequestException "down")))
             ["Education Institute"; "Region"] [Str "MIT"; Str "NE"] []
             "Country Name"); reflexivity.
Defined.

Lemma annotator_on_empty_sheet_witness :
  result (main "key" (world_of (["Education Institute"], [])
                               (Raise (mkExn RequestException "down"))))
  = Finished (mkDF ["Education Institute"; "Address Suggestions"] [])
             (mkDF [] []).
Proof.
  rewrite (annotator_on_empty_sheet "key"
             (world_of (["Education Institute"], [])
                       (Raise (mkExn RequestException "down")))
             ["Education Institute"]); reflexivity.
Defined.


Lemma annotator_unprocessed_save_failure_witness :
  result (main "key" (world_with (Ok one_candidate) unprocessed_path))
  = Finished institutes_processed institutes_unprocessed /\
  exists before,
    trace (main "key" (world_with (Ok one_candidate) unprocessed_path)) =
    before ++
    [ToExcel unprocessed_path (map_cells Cell institutes_unprocessed)
       (Some (mkExn OtherException "Permission denied"));
     Log ERROR "Error saving unprocessed rows: Permission denied"].
Proof.
  apply (annotator_unprocessed_save_failure "key"
           (world_with (Ok one_candidate) unprocessed_path)
           (world_with (Ok one_candidate) "")
           institutes_processed institutes_unprocessed
           (mkExn OtherException "Permission denied")).
  - vm_compute. reflexivity.
  - reflexivity.
  - reflexivity.
  - vm_compute. reflexivity.
Defined.

(** ** The lookup: status codes and the shape of the answer *)

(** X15.  An answer with a status from 400 to 599 is a request failure
    whatever its body holds: the suggestion is ["Request error: "] followed
    by the status, [Client Error] below 500 and [Server Error] from 500 on,
    the reason and the address of the service.  Any other status lets the
    body through. *)
Theorem http_error_status_is_a_request_error (api_key : string) (w : world)
    (address : string) (r : response) :
  requests_get w autocomplete_endpoint [("text", address); ("apiKey", api_key)]
  = Ok r ->
  (400 <= status_code r < 600 ->
   snd (get_address_suggestions api_key w address) =
   JStr ("Request error: " +++ PyStr.str_of_Z (status_code r)
         +++ (if status_code r <? 500 then " Client Error: "
              else " Server Error: ")
         +++ reason r +++ " for url: " +++ url r)) /\
  (status_code r < 400 \/ 600 <= status_code r ->
   raise_for_status r = Ok tt).
Proof.
  intros Ha. split.
  - intros Hs. unfold get_address_suggestions, lookup_suggestion.
    rewrite Ha. cbn [bind]. unfold raise_for_status.
    destruct (Z.leb_spec 400 (status_code r)); [|lia].
    destruct (Z.ltb_spec (status_code r) 500); cbn [andb bind kind message];
      [reflexivity|].
    destruct (Z.leb_spec 500 (status_code r)); [|lia].
    destruct (Z.ltb_spec (status_code r) 600); [|lia].
    reflexivity.
  - intros Hs. unfold raise_for_status.
    destruct (Z.leb_spec 400 (status_code r)),
             (Z.ltb_spec (status_code r) 500),
             (Z.leb_spec 500 (status_code r)),
             (Z.ltb_spec (status_code r) 600); cbn [andb];
      try reflexivity; lia.
Qed.

Lemma http_error_status_is_a_request_error_witness :
  snd (get_address_suggestions "key"
         (world_of institutes (Ok (response_with 404 "Not Found" one_candidate)))
         "MIT, USA")
  = JStr "Request error: 404 Client Error: Not Found for url: https://api.geoapify.com/v1/geocode/search".
Proof.
  apply (proj1 (http_error_status_is_a_request_error "key"
                  (world_of institutes
                     (Ok (response_with 404 "Not Found" one_candidate)))
                  "MIT, USA" (response_with 404 "Not Found" one_candidate)
                  eq_refl)).
  simpl. lia.
Defined.

(** X16.  When the decoded body is an object without [features], or with a
    [features] that counts as false ([null], [false], [0], an empty text,
    list or object), the suggestion is ["No suggestion"]. *)
Theorem falsy_features_give_no_suggestion (api_key : string) (w : world)
    (address : string) (r : response) (fields : list (string * json)) :
  requests_get w autocomplete_endpoint [("text", address); ("apiKey", api_key)]
  = Ok r ->
  raise_for_status r = Ok tt ->
  body r = Ok (JObj fields) ->
  lookup "features" fields = None \/
  (exists v, lookup "features" fields = Some v /\ truthy v = false) ->
  get_address_suggestions api_key w address = ([], JStr "No suggestion").
Proof.
  intros Ha Hs Hb Hf. unfold get_address_suggestions, lookup_suggestion.
  rewrite Ha. cbn [bind]. rewrite Hs. cbn [bind]. rewrite Hb.
  cbn [bind py_get].
  destruct Hf as [-> | [v [-> Hv]]]; cbn [bind truthy]; [reflexivity|].
  now rewrite Hv.
Qed.

Lemma falsy_features_give_no_suggestion_witness :
  get_address_suggestions "key"
    (world_of institutes
       (Ok (response_with 200 "OK" (JObj [("features", JNull)]))))
    "MIT, USA"
  = ([], JStr "No suggestion").
Proof.
  apply (falsy_features_give_no_suggestion "key"
           (world_of institutes
              (Ok (response_with 200 "OK" (JObj [("features", JNull)]))))
           "MIT, USA" (response_with 200 "OK" (JObj [("features", JNull)]))
           [("features", JNull)]); try reflexivity.
  right. exists JNull. split; reflexivity.
Defined.

(** X17.  An answer of another shape ends in the generic handler.  A body
    that is not an object, and a non-empty text as [features], give
    ["Error: '...' object has no attribute 'get'"]; a number or [true] as
    [features] gives ["Error: '...' object is not subscriptable"]; a
    non-empty object as [features] gives ["Error: 0"], the [KeyError] of
    the index 0.  Each time one error record with the address is logged. *)
Theorem malformed_answers_give_error_text (api_key : string) (w : world)
    (address : string) (r : response) (data : json) :
  requests_get w autocomplete_endpoint [("text", address); ("apiKey", api_key)]
  = Ok r ->
  raise_for_status r = Ok tt ->
  body r = Ok data ->
  let failed (msg : string) :=
    get_address_suggestions api_key w address =
    ([Log ERROR ("Error for address '" +++ address +++ "': " +++ msg)],
     JStr ("Error: " +++ msg)) in
  ((forall fields, data <> JObj fields) ->
   failed ("'" +++ type_name data +++ "' object has no attribute 'get'")) /\
  (forall fields v,
     data = JObj fields -> lookup "features" fields = Some v ->
     truthy v = true ->
     match v with
     | JStr _ => failed "'str' object has no attribute 'get'"
     | JNum _ | JBool _ =>
         failed ("'" +++ type_name v +++ "' object is not subscriptable")
     | JObj _ => failed "0"
     | _ => True
     end).
Proof.
  intros Ha Hs Hb. cbv zeta.
  unfold get_address_suggestions, lookup_suggestion.
  rewrite Ha. cbn [bind]. rewrite Hs. cbn [bind]. rewrite Hb. cbn [bind].
  split.
  - intros Hno. destruct data; try reflexivity.
    exfalso. eapply Hno. reflexivity.
  - intros fields v -> Hf Hv. cbn [py_get]. rewrite Hf. cbn [bind].
    rewrite Hv.
    destruct v as [|b|z|s|items|members]; try exact I; try reflexivity.
    destruct s as [|c s]; [discriminate Hv|]. reflexivity.
Qed.

Lemma malformed_answers_give_error_text_witness :
  get_address_suggestions "key"
    (world_of institutes (Ok (response_with 200 "OK" (JArr []))))
    "MIT, USA"
  = ([Log ERROR "Error for address 'MIT, USA': 'list' object has no attribute 'get'"],
     JStr "Error: 'list' object has no attribute 'get'").
Proof.
  apply (proj1 (malformed_answers_give_error_text "key"
                  (world_of institutes (Ok (response_with 200 "OK" (JArr []))))
                  "MIT, USA" (response_with 200 "OK" (JArr [])) (JArr [])
                  eq_refl eq_refl eq_refl)).
  intros fields H. discriminate H.
Defined.

(** ** The two scripts together *)

Lemma output_row_source (c0 : list string) (r : list cell) (m : string) :
  List.length r = List.length c0 ->
  has_column c0 m = true ->
  ~ In m derived_columns ->
  exists v, row_get (derive_columns c0) m (output_row c0 r) = Some v.
Proof.
  intros Hlen Hc Hm. rewrite output_row_get by exact Hlen. cbv zeta.
  destruct (String.eqb_spec m "field of study");
    [subst; exfalso; apply Hm; simpl; tauto|].
  destruct (String.eqb_spec m "education institution");
    [subst; exfalso; apply Hm; simpl; tauto|].
  destruct (String.eqb_spec m "state");
    [subst; exfalso; apply Hm; simpl; tauto|].
  destruct (String.eqb_spec m "region");
    [subst; exfalso; apply Hm; simpl; tauto|].
  destruct (String.eqb_spec m "country");
    [subst; exfalso; apply Hm; simpl; tauto|].
  destruct (String.eqb_spec m "continent");
    [subst; exfalso; apply Hm; simpl; tauto|].
  apply row_get_some; [now rewrite length_map | exact Hc].
Qed.

(** X18.  The sheet the Cleaner saves is one the Annotator can run on: when
    the Annotator loads the frame returned by the Cleaner, written without
    its index, the run ends normally, with all rows but the first in the
    unprocessed frame. *)
Theorem annotator_accepts_cleaner_output (api_key : string) (w : world)
    (df out : DataFrame cell) :
  well_formed df ->
  snd (clean_sort_create_columns df) = Some out ->
  read_excel w file_path = Ok (sheet_of out) ->
  exists processed_df unprocessed_df,
    result (main api_key w) = Finished processed_df unprocessed_df /\
    map snd (rows unprocessed_df) = map snd (tl (rows out)).
Proof.
  intros Hwf Hout Hread.
  pose proof (clean_spec df out Hout) as [Hcols [Hc _]].
  unfold sheet_of in Hread.
  destruct (rows out) as [|o rest] eqn:Erows; cbn [map tl] in *.
  - unfold main. rewrite Hread. cbv zeta.
    cbn [fst snd frame_of_sheet columns rows range_index for_each].
    unfold setitem_list, map_cells, iloc_head.
    cbn [suggestions unprocessed_rows firstn columns rows map zip_set
         option_map frame_of_rows result].
    eexists. eexists. split; reflexivity.
  - assert (Ho : In o (rows out)) by (rewrite Erows; now left).
    destruct (output_row_origin df out o Hwf Hout Ho) as [r [Hr [_ Ho']]].
    pose proof (rectangular_In df _ (proj1 Hwf) Hr) as Hlen.
    cbn [snd] in Hlen.
    unfold source_columns in Hcols. cbn [forallb] in Hcols.
    repeat rewrite andb_true_iff in Hcols.
    destruct Hcols as [_ [_ [H3 _]]].
    assert (H1 : has_column (columns df) "Country Name" = true).
    { pose proof (clean_spec df out Hout) as [Hcols' _].
      unfold source_columns in Hcols'. cbn [forallb] in Hcols'.
      now apply andb_true_iff in Hcols'. }
    destruct (output_row_source (columns df) r "Education Institute" Hlen H3)
      as [institute Ei]; [simpl; intuition discriminate|].
    destruct (output_row_source (columns df) r "Country Name" Hlen H1)
      as [country Ec]; [simpl; intuition discriminate|].
    rewrite <- Hc, <- Ho' in Ei, Ec.
    rewrite (main_run api_key w (columns out) (snd o) (map snd rest)
               institute country Hread Ei Ec).
    cbv zeta. cbn [result]. eexists. eexists. split; [reflexivity|].
    rewrite frame_of_rows_rows. apply range_index_snd.
Qed.

Lemma annotator_accepts_cleaner_output_witness :
  exists processed_df unprocessed_df,
    result (main "key" (world_of (sheet_of sample_out)
                                 (Raise (mkExn RequestException "down"))))
    = Finished processed_df unprocessed_df /\
    map snd (rows unprocessed_df) = map snd (tl (rows sample_out)).
Proof.
  apply (annotator_accepts_cleaner_output "key"
           (world_of (sheet_of sample_out)
                     (Raise (mkExn RequestException "down")))
           sample sample_out).
  - apply frame_of_sheet_well_formed. repeat constructor.
  - vm_compute. reflexivity.
  - reflexivity.
Defined.

(** ** The Cleaner on its own output *)

Lemma drop_duplicates_from_distinct (seen : list (list cell))
    (l : list (Z * list cell)) :
  NoDup (map snd l) ->
  (forall x, In x l -> ~ In (snd x) seen) ->
  drop_duplicates_from seen l = l.
Proof.
  revert seen; induction l as [|x t IH]; intros seen Hnd Hseen; simpl;
    [reflexivity|].
  inversion Hnd as [|? ? Hx Ht]; subst.
  destruct (existsb (row_eqb (snd x)) seen) eqn:E.
  - apply seen_In in E. exfalso. apply (Hseen x); [now left | exact E].
  - f_equal. apply IH; [exact Ht|].
    intros y Hy [Heq|Hin].
    + apply Hx. rewrite Heq. now apply in_map.
    + apply (Hseen y); [now right | exact Hin].
Qed.

Lemma filter_all {A : Type} (f : A -> bool) (l : list A) :
  (forall x, In x l -> f x = true) -> filter f l = l.
Proof.
  induction l as [|x t IH]; simpl; intros H; [reflexivity|].
  rewrite (H x (or_introl eq_refl)). f_equal. apply IH. auto.
Qed.

Lemma fill_no_blank (r : list cell) :
  (forall c, In c r -> c <> NaN) -> map (fill_cell placeholder) r = r.
Proof.
  induction r as [|c t IH]; simpl; intros H; [reflexivity|].
  rewrite IH by auto. f_equal.
  destruct c; try reflexivity. exfalso. now apply (H NaN); [left|].
Qed.

Section RowSetId.
Context {V : Type}.

Lemma set_nth_id (p : nat) (v : V) (r : list V) :
  nth_error r p = Some v -> set_nth p v r = r.
Proof.
  revert p; induction r as [|x t IH]; intros [|p]; simpl; try discriminate.
  - intros H. now inversion H.
  - intros H. f_equal. now apply IH.
Qed.

(** Storing under a label the value that is already there changes neither
    the row nor the labels. *)
Lemma row_set_id (cols : list string) (n : string) (v : V) (r : list V) :
  row_get cols n r = Some v ->
  row_set cols n v r = r /\ columns_set n cols = cols.
Proof.
  unfold row_get, row_set, columns_set.
  destruct (column_pos n cols) as [p|]; [|discriminate].
  intros H. split; [now apply set_nth_id | reflexivity].
Qed.

End RowSetId.

Lemma derive_row_fixed (cols : list string) (r : list cell)
    (v1 v2 v3 v4 : cell) :
  row_get cols "continent" r = Some placeholder ->
  row_get cols "state" r = Some placeholder ->
  row_get cols "Country Name" r = Some v1 ->
  row_get cols "country" r = Some v1 ->
  row_get cols "Region" r = Some v2 ->
  row_get cols "region" r = Some v2 ->
  row_get cols "Education Institute" r = Some v3 ->
  row_get cols "education institution" r = Some v3 ->
  row_get cols "Field of Study" r = Some v4 ->
  row_get cols "field of study" r = Some v4 ->
  derive_row cols r = Some r /\ derive_columns cols = cols.
Proof.
  intros Hc Hs H1 H1' H2 H2' H3 H3' H4 H4'.
  unfold derive_row, derive_columns, assign_copy. cbv zeta.
  destruct (row_set_id cols _ _ _ Hc) as [-> ->].
  rewrite H1. cbn [bind_opt].
  destruct (row_set_id cols _ _ _ H1') as [-> ->].
  rewrite H2. cbn [bind_opt].
  destruct (row_set_id cols _ _ _ H2') as [-> ->].
  destruct (row_set_id cols _ _ _ Hs) as [-> ->].
  rewrite H3. cbn [bind_opt].
  destruct (row_set_id cols _ _ _ H3') as [-> ->].
  rewrite H4. cbn [bind_opt].
  destruct (row_set_id cols _ _ _ H4') as [-> ->].
  split; reflexivity.
Qed.

Lemma map_opt_fixed {A : Type} (f : A -> option A) (l : list A) :
  (forall x, In x l -> f x = Some x) -> map_opt f l = Some l.
Proof.
  induction l as [|x t IH]; simpl; intros H; [reflexivity|].
  rewrite (H x (or_introl eq_refl)), IH; auto.
Qed.

(** The rows of a returned frame have their derived cells in place. *)
Lemma output_rows_fixed (df out : DataFrame cell) (o : Z * list cell) :
  well_formed df ->
  snd (clean_sort_create_columns df) = Some out ->
  In o (rows out) ->
  derive_row (columns out) (snd o) = Some (snd o) /\
  derive_columns (columns out) = columns out /\
  row_has_total (snd o) = false /\
  map (fill_cell placeholder) (snd o) = snd o.
Proof.
  intros Hwf Hout Ho.
  pose proof (clean_spec df out Hout) as [Hcols [Hc _]].
  destruct (output_row_origin df out o Hwf Hout Ho) as [r [Hr [Ht Ho']]].
  pose proof (rectangular_In df _ (proj1 Hwf) Hr) as Hlen.
  cbn [snd] in Hlen.
  set (filled := map (fill_cell placeholder) r).
  assert (Hf : List.length filled = List.length (columns df))
    by (unfold filled; now rewrite length_map).
  pose proof Hcols as Hcols'.
  unfold source_columns in Hcols'. cbn [forallb] in Hcols'.
  repeat rewrite andb_true_iff in Hcols'.
  destruct Hcols' as [H1 [H2 [H3 [H4 _]]]].
  destruct (row_get_some _ _ filled Hf H1) as [v1 E1].
  destruct (row_get_some _ _ filled Hf H2) as [v2 E2].
  destruct (row_get_some _ _ filled Hf H3) as [v3 E3].
  destruct (row_get_some _ _ filled Hf H4) as [v4 E4].
  assert (G : forall m, row_get (columns out) m (snd o) =
                        row_get (derive_columns (columns df)) m
                                (output_row (columns df) r))
    by (intros m; now rewrite Hc, Ho').
  destruct (derive_row_fixed (columns out) (snd o) v1 v2 v3 v4)
    as [Hd Hdc];
    try (rewrite G, output_row_get by exact Hlen; cbv zeta;
         cbn [String.eqb Ascii.eqb Bool.eqb]; fold filled;
         unfold cell_at; rewrite ?E1, ?E2, ?E3, ?E4; reflexivity).
  split; [exact Hd|]. split; [exact Hdc|]. split.
  - rewrite Ho'. now apply output_row_no_total.
  - apply fill_no_blank. intros c Hcell. rewrite Ho' in Hcell.
    apply output_row_members in Hcell; [|exact Hlen | exact Hcols].
    destruct Hcell as [->|Hcell]; [discriminate|].
    apply in_map_iff in Hcell. destruct Hcell as [c' [<- _]].
    destruct c'; discriminate.
Qed.

Lemma has_column_In (cols : list string) (n : string) :
  has_column cols n = true <-> In n cols.
Proof.
  unfold has_column. destruct (column_pos n cols) eqn:E.
  - split; [intros _|reflexivity].
    destruct (in_dec string_dec n cols) as [H|H]; [exact H|].
    apply column_pos_In in H. congruence.
  - apply column_pos_In in E. split; [discriminate | tauto].
Qed.

Lemma filter_none {A : Type} (f : A -> bool) (l : list A) :
  (forall x, In x l -> f x = false) -> filter f l = [].
Proof.
  induction l as [|x t IH]; simpl; intros H; [reflexivity|].
  rewrite (H x (or_introl eq_refl)). apply IH. auto.
Qed.

(** Assigning the derived labels a second time adds nothing. *)
Lemma derive_columns_fixed (cols : list string) :
  derive_columns (derive_columns cols) = derive_columns cols.
Proof.
  assert (Hnd : NoDup derived_columns).
  { unfold derived_columns.
    repeat (constructor; [simpl; intuition discriminate|]). constructor. }
  assert (Hfold : forall c, derive_columns c =
            c ++ filter (fun n => negb (has_column c n)) derived_columns).
  { intros c. rewrite <- (assign_labels _ _ Hnd). reflexivity. }
  rewrite (Hfold (derive_columns cols)).
  rewrite filter_none; [apply app_nil_r|].
  intros n Hn. apply negb_false_iff. apply has_column_In.
  rewrite Hfold. apply in_app_iff.
  destruct (has_column cols n) eqn:E.
  - left. now apply has_column_In.
  - right. apply filter_In. split; [exact Hn | now rewrite E].
Qed.

(** X19.  The Cleaner leaves its own output alone: called on a frame it
    returned, it returns that frame again and does not change it in place,
    provided the frame has a row and no two rows of it have the same cells.
    (Rows with the same cells arise when rows that differed only in a blank
    or an overwritten column become equal, and the second call drops them;
    on a frame without rows the filter drops the columns and the function
    exits.) *)
Theorem cleaner_fixes_its_output (df out : DataFrame cell) :
  well_formed df ->
  snd (clean_sort_create_columns df) = Some out ->
  rows out <> [] ->
  NoDup (map snd (rows out)) ->
  clean_sort_create_columns out = (out, Some out).
Proof.
  intros Hwf Hout Hne Hnd.
  assert (Hdd : drop_duplicates out = out).
  { unfold drop_duplicates.
    rewrite drop_duplicates_from_distinct; [now destruct out | exact Hnd |].
    intros x _ []. }
  assert (Hsort : sort_values sort_columns out = Some out).
  { pose proof Hout as H.
    rewrite (clean_unfold_rows df (clean_some_rows df out Hout)) in H.
    destruct (forallb _ source_columns); [|discriminate].
    destruct (map_opt _ (cleaned_rows df)) as [rs|]; [|discriminate].
    cbn [bind_opt] in H. eapply sort_values_fixed. exact H. }
  assert (Hrows : cleaned_rows out = rows out).
  { unfold cleaned_rows. rewrite Hdd.
    cbn [fillna rows]. rewrite remove_totals_rows.
    rewrite filter_all.
    - rewrite <- (map_id (rows out)) at 2. apply map_ext_in.
      intros o Ho.
      destruct (output_rows_fixed df out o Hwf Hout Ho) as [_ [_ [_ Hfill]]].
      rewrite Hfill. now destruct o.
    - intros o Ho.
      destruct (output_rows_fixed df out o Hwf Hout Ho) as [_ [_ [Ht _]]].
      now rewrite Ht. }
  pose proof (clean_spec df out Hout) as [Hc [Hcol _]].
  assert (Hcols : forallb (has_column (columns out)) source_columns = true).
  { rewrite Hcol. apply forallb_forall. intros n Hn.
    rewrite forallb_forall in Hc. specialize (Hc n Hn).
    unfold derive_columns.
    rewrite !has_column_set_other; [exact Hc|..];
      simpl in Hn; intuition (subst; discriminate). }
  assert (Hdc : derive_columns (columns out) = columns out)
    by (rewrite Hcol; apply derive_columns_fixed).
  rewrite (surjective_pairing (clean_sort_create_columns out)). f_equal.
  - exact Hdd.
  - rewrite (clean_unfold_rows out Hne), Hcols, Hrows, Hdc.
    rewrite map_opt_fixed.
    + cbn [bind_opt]. destruct out. exact Hsort.
    + intros o Ho. unfold keep_label.
      destruct (output_rows_fixed df out o Hwf Hout Ho) as [-> _].
      now destruct o.
Qed.

Lemma cleaner_fixes_its_output_witness :
  clean_sort_create_columns sample_out = (sample_out, Some sample_out).
Proof.
  apply (cleaner_fixes_its_output sample sample_out).
  - apply frame_of_sheet_well_formed. repeat constructor.
  - vm_compute. reflexivity.
  - discriminate.
  - repeat (constructor; [simpl; intuition discriminate|]). constructor.
Defined.
